(** * The on-road HUD of selfdrive/ui/qt/onroad.cc, as a shallow embedding

    The widgets of onroad.cc are modelled by explicit state passing: every
    member function becomes a Rocq function from the state it reads to the
    state it leaves behind.  Conventions used throughout:

    - C++ [int] is [Z]; where the source can leave the 32-bit range the
      wrap-around is written out with [int_wrap].
    - C++ [float], [double] and [qreal] are exact rationals [Q]: rounding,
      infinities and NaN of IEEE arithmetic are not modelled, so numeric
      statements are statements about the formulas the code evaluates.
      Numbers are compared with [==] (equality of fractions).
    - The settings store ([Params]) is a finite map from key to value.
    - Toolkit calls that only put pixels on the screen are recorded as a
      list of paint operations; layout and font calls are left out. *)

From Stdlib Require Import ZArith QArith Qround Qabs Lia Lqa Bool List DecimalString.
From stdpp Require Import gmap strings.
Import ListNotations.

Local Open Scope Z_scope.

(** ** Machine integers and the numeric helpers of the toolkit *)

Module Num.

Definition INT_MAX : Z := 2147483647.

(** Two's complement wrap-around of a 32-bit [int]. *)
Definition int_wrap (z : Z) : Z := (z + 2 ^ 31) mod 2 ^ 32 - 2 ^ 31.

(** The [%] of C++ truncates toward zero, as [Z.rem] does. *)
Definition c_rem (a b : Z) : Z := Z.rem a b.

(** Integer division of C++ truncates toward zero, as [Z.quot] does. *)
Definition c_div (a b : Z) : Z := Z.quot a b.

Definition Qlt_bool (a b : Q) : bool := negb (Qle_bool b a).

(** [(int)x]: conversion of a floating value drops the fraction. *)
Definition Qtruncate (x : Q) : Z :=
  if Qle_bool 0 x then Qfloor x else Qceiling x.

(** [qMin], [qMax], [qBound] of QtGlobal. *)
Definition qMin (a b : Q) : Q := if Qlt_bool a b then a else b.
Definition qMax (a b : Q) : Q := if Qlt_bool a b then b else a.
Definition qBound (lo v hi : Q) : Q := qMax lo (qMin hi v).

(** [fmin], [fmax], [std::max] and [std::clamp] of the C++ library. *)
Definition fmin (a b : Q) : Q := if Qlt_bool b a then b else a.
Definition fmax (a b : Q) : Q := if Qlt_bool a b then b else a.
Definition clamp (v lo hi : Q) : Q :=
  if Qlt_bool v lo then lo else if Qlt_bool hi v then hi else v.

(** A number used as a condition is true when it is not zero. *)
Definition Qtruthy (x : Q) : bool := negb (Qeq_bool x 0).

End Num.
Import Num.

(** ** The settings store *)

Module Params.

Inductive ParamVal : Type :=
| PBool (b : bool)
| PInt (z : Z)
| PStr (s : string).

(** Modelled from the spec: the class Params (common/params.h) is not part
    of this file; the spec describes it as a key-value store of boolean and
    integer toggles with get and put operations, some of the writes being
    fire-and-forget.  A write is applied to the map at the point of the
    call; a key that was never written reads as false, 0 or the empty
    string. *)
Abbreviation store := (gmap string ParamVal).

Definition getBool (m : store) (k : string) : bool :=
  match m !! k with Some (PBool b) => b | _ => false end.

Definition getInt (m : store) (k : string) : Z :=
  match m !! k with Some (PInt z) => z | _ => 0 end.

Definition get (m : store) (k : string) : string :=
  match m !! k with Some (PStr s) => s | _ => EmptyString end.

Definition putBool (m : store) (k : string) (b : bool) : store := <[k := PBool b]> m.
Definition putInt (m : store) (k : string) (z : Z) : store := <[k := PInt z]> m.
Definition putBoolNonBlocking := putBool.
Definition putIntNonBlocking := putInt.

(** The two stores the file opens: [Params()] on disk and
    [Params("/dev/shm/params")] in memory. *)
Record Stores : Type := mkStores {
  params : store;
  paramsMemory : store
}.

End Params.
Import Params.

(** ** PersonalityButton *)

Module PersonalityButton.

(** The members of the button that [handleClick] touches.  The
    [QElapsedTimer] is the instant of its last restart. *)
Record t : Type := mk {
  personalityProfile : Z;
  transitionTimer : Z
}.

Definition mapping : list Z := [2; 0; 1].

(** [mapping[personalityProfile]]: reading outside the array has no
    defined result, and is [None] here. *)
Definition mapping_at (p : Z) : option Z :=
  if p <? 0 then None else nth_error mapping (Z.to_nat p).

(** [PersonalityButton::updateState]. *)
Definition updateState (now : Z) (b : t) : t :=
  {| personalityProfile := personalityProfile b; transitionTimer := now |}.

(** [PersonalityButton::handleClick]. *)
Definition handleClick (now : Z) (st : t * Stores) : option (t * Stores) :=
  let '(b, ps) := st in
  match mapping_at (personalityProfile b) with
  | None => None
  | Some p =>
      let b1 := {| personalityProfile := p; transitionTimer := transitionTimer b |} in
      let ps1 := {| params := putInt (params ps) "LongitudinalPersonality" p;
                    paramsMemory := paramsMemory ps |} in
      let ps2 := {| params := params ps1;
                    paramsMemory := putBool (paramsMemory ps1) "PersonalityChangedViaUI" true |} in
      Some (updateState now b1, ps2)
  end.

(** [PersonalityButton::checkUpdate], the 50 ms poll of the store. *)
Definition checkUpdate (now : Z) (st : t * Stores) : t * Stores :=
  let '(b, ps) := st in
  if negb (getInt (params ps) "LongitudinalPersonality" =? personalityProfile b)
  then (updateState now
          {| personalityProfile := getInt (params ps) "LongitudinalPersonality";
             transitionTimer := transitionTimer b |}, ps)
  else (b, ps).

(** The profile after a click, when the click is defined. *)
Definition profile_after (r : option (t * Stores)) : option Z :=
  match r with Some (b, _) => Some (personalityProfile b) | None => None end.

(** Three clicks in a row, at the instants [n1], [n2], [n3]. *)
Definition three_clicks (n1 n2 n3 : Z) (st : t * Stores) : option (t * Stores) :=
  match handleClick n1 st with
  | None => None
  | Some st1 =>
      match handleClick n2 st1 with
      | None => None
      | Some st2 => handleClick n3 st2
      end
  end.

End PersonalityButton.

(** ** The turn-signal animation *)

Module TurnSignal.

(** A pre-rendered image: the file it was loaded from and whether it was
    mirrored by [QTransform().scale(-1, 1)]. *)
Record Pixmap : Type := mkPixmap {
  path : string;
  flipped : bool
}.

Definition imagePaths (theme_path : string) : list string :=
  [ (theme_path ++ "/turn_signal_1.png")%string;
    (theme_path ++ "/turn_signal_2.png")%string;
    (theme_path ++ "/turn_signal_3.png")%string;
    (theme_path ++ "/turn_signal_4.png")%string ].

(** One pass of the inner loop: each image, then its mirror image. *)
Definition push_pairs (paths : list string) : list Pixmap :=
  flat_map (fun p => [mkPixmap p false; mkPixmap p true]) paths.

(** [signalImgVector] as the constructor (and [updateState]) fill it: two
    passes over the four images, then the red blind-spot image and its
    mirror image. *)
Definition signalImgVector (theme_path : string) : list Pixmap :=
  push_pairs (imagePaths theme_path) ++ push_pairs (imagePaths theme_path)
  ++ [ mkPixmap (theme_path ++ "/turn_signal_1_red.png")%string false;
       mkPixmap (theme_path ++ "/turn_signal_1_red.png")%string true ].

Section Animation.

(** [totalFrames] is a constant of onroad.h, which is not part of this
    file. *)
Variable totalFrames : Z.

(** The body of the timer callback:
    [animationFrameIndex = (animationFrameIndex + 1) % totalFrames]. *)
Definition tick (animationFrameIndex : Z) : Z :=
  c_rem (int_wrap (animationFrameIndex + 1)) totalFrames.

(** The timer is started with this period, in milliseconds. *)
Definition timer_period : Z := int_wrap (totalFrames * 11).

(** The index after [n] timer ticks. *)
Fixpoint ticks (n : nat) (animationFrameIndex : Z) : Z :=
  match n with
  | O => animationFrameIndex
  | S k => tick (ticks k animationFrameIndex)
  end.

(** The position in [signalImgVector] that [drawSignal] reads. *)
Definition signal_index (size animationFrameIndex : Z) (flip blindspot : bool) : Z :=
  let uniqueImages := c_div size 4 in
  (if blindspot then 2 * uniqueImages
   else c_rem (int_wrap (2 * animationFrameIndex)) totalFrames)
  + (if flip then 1 else 0).

(** The image [drawSignal] paints for an activated signal; [None] when
    the guard [animationFrameIndex < signalImgVector.size()] fails or the
    vector is read out of range. *)
Definition signal_image (imgs : list Pixmap) (animationFrameIndex : Z)
    (flip blindspot : bool) : option Pixmap :=
  let size := Z.of_nat (length imgs) in
  if animationFrameIndex <? size then
    let i := signal_index size animationFrameIndex flip blindspot in
    if i <? 0 then None else nth_error imgs (Z.to_nat i)
  else None.

End Animation.

End TurnSignal.

(** ** Telemetry: the messages read through SubMaster *)

Module Cereal.

Inductive AlertSize : Type := NONE | SMALL | MID | FULL.

Inductive SpeedLimitSign : Type := MUTCD | VIENNA.

Record ControlsState : Type := mkControlsState {
  getVCruiseCluster : Q;
  getVCruise : Q;
  getAlertSize : AlertSize;
  getExperimentalMode : bool;
  getEngageable : bool;
  getEnabled : bool
}.

Record CarState : Type := mkCarState {
  getVEgoCluster : Q;
  getVEgo : Q;
  getAEgo : Q
}.

Record NavInstruction : Type := mkNavInstruction {
  getSpeedLimit : Q;
  getSpeedLimitSign : SpeedLimitSign
}.

Record DriverMonitoringState : Type := mkDriverMonitoringState {
  getIsActiveMode : bool;
  getIsRHD : bool
}.

Record LeadData : Type := mkLeadData {
  getStatus : bool;
  getDRel : Q;
  getVRel : Q;
  getVLead : Q
}.

Record RadarState : Type := mkRadarState {
  getLeadOne : LeadData;
  getLeadTwo : LeadData
}.

Record ModelDataV2 : Type := mkModelDataV2 {
  getFrameId : Z;
  getPosition : list (Q * Q)
}.

Record UiPlan : Type := mkUiPlan {
  getAccel : list Q
}.

(** The driver-monitoring model output; this file passes it on unread. *)
Record DriverStateV2 : Type := mkDriverStateV2 {
  driverData : list Q
}.

Definition AlertSize_eqb (a b : AlertSize) : bool :=
  match a, b with
  | NONE, NONE | SMALL, SMALL | MID, MID | FULL, FULL => true
  | _, _ => false
  end.

Definition SpeedLimitSign_eqb (a b : SpeedLimitSign) : bool :=
  match a, b with
  | MUTCD, MUTCD | VIENNA, VIENNA => true
  | _, _ => false
  end.

End Cereal.
Import Cereal.

(** ** The UI state of ui.h *)

Module UI.

(** The snapshot held by SubMaster: for each service the file reads, its
    liveness, validity, the frame it was received at, and its last
    message. *)
Record SubMaster : Type := mkSubMaster {
  alive_controlsState : bool;
  alive_navInstruction : bool;
  valid_navInstruction : bool;
  rcv_frame_modelV2 : Z;
  rcv_frame_radarState : Z;
  rcv_frame_driverStateV2 : Z;
  controlsState : ControlsState;
  carState : CarState;
  navInstruction : NavInstruction;
  driverMonitoringState : DriverMonitoringState;
  radarState : RadarState;
  modelV2 : ModelDataV2;
  uiPlan : UiPlan;
  driverStateV2 : DriverStateV2
}.

Inductive UIStatus : Type := STATUS_DISENGAGED | STATUS_OVERRIDE | STATUS_ENGAGED.

Definition UIStatus_eqb (a b : UIStatus) : bool :=
  match a, b with
  | STATUS_DISENGAGED, STATUS_DISENGAGED
  | STATUS_OVERRIDE, STATUS_OVERRIDE
  | STATUS_ENGAGED, STATUS_ENGAGED => true
  | _, _ => false
  end.

Inductive VisionStreamType : Type :=
| VISION_STREAM_ROAD
| VISION_STREAM_DRIVER
| VISION_STREAM_WIDE_ROAD
| VISION_STREAM_MAP.

Definition VisionStreamType_eqb (a b : VisionStreamType) : bool :=
  match a, b with
  | VISION_STREAM_ROAD, VISION_STREAM_ROAD
  | VISION_STREAM_DRIVER, VISION_STREAM_DRIVER
  | VISION_STREAM_WIDE_ROAD, VISION_STREAM_WIDE_ROAD
  | VISION_STREAM_MAP, VISION_STREAM_MAP => true
  | _, _ => false
  end.

(** A 3x3 calibration matrix, row by row. *)
Definition mat3 : Type := list Q.

(** The polygons and key points that ui.cc caches in the scene for the
    painters. *)
Record SceneGeometry : Type := mkSceneGeometry {
  lane_line_vertices : list (list (Q * Q));
  road_edge_vertices : list (list (Q * Q));
  track_vertices : list (Q * Q);
  track_edge_vertices : list (Q * Q);
  lead_vertices : list (Q * Q);
  face_kpts_draw : list (Q * Q * Q)
}.

(** The fields of [UIScene] this file reads or writes. *)
Record UIScene : Type := mkUIScene {
  started : bool;
  started_frame : Z;
  is_metric : bool;
  map_on_left : bool;
  display_fps : bool;
  show_driver_camera : bool;
  navigate_on_openpilot : bool;
  longitudinal_control : bool;
  wide_cam : bool;
  wide_camera_disabled : bool;
  calibration_valid : bool;
  calibration_wide_valid : bool;
  view_from_calib : mat3;
  view_from_wide_calib : mat3;
  geometry : SceneGeometry;
  (* FrogPilot toggles and values *)
  acceleration_path : bool;
  adjacent_path : bool;
  always_on_lateral : bool;
  always_on_lateral_active : bool;
  bearing_deg : Q;
  blind_spot_left : bool;
  blind_spot_right : bool;
  compass : bool;
  conditional_experimental : bool;
  conditional_speed : Z;
  conditional_speed_lead : Z;
  conditional_status : Z;
  custom_colors : Z;
  custom_road_ui : bool;
  custom_signals : Z;
  desired_follow : Q;
  experimental_mode : bool;
  experimental_mode_via_wheel : bool;
  lane_width_left : Q;
  lane_width_right : Q;
  lead_info : bool;
  map_open : bool;
  mute_dm : bool;
  obstacle_distance : Q;
  obstacle_distance_stock : Q;
  personalities_via_screen : bool;
  road_name_ui : bool;
  rotating_wheel : bool;
  slc_overridden : bool;
  speed_limit : Q;
  speed_limit_offset : Q;
  steering_angle_deg : Z;
  steering_wheel : Z;
  stopped_equivalence : Q;
  stopped_equivalence_stock : Q;
  turn_signal_left : bool;
  turn_signal_right : bool;
  vtsc_offset : Q
}.

(** [s->scene.wide_cam = b], the one assignment to the scene in this file. *)
Definition set_wide_cam (b : bool) (sc : UIScene) : UIScene :=
  mkUIScene (started sc) (started_frame sc) (is_metric sc) (map_on_left sc)
    (display_fps sc) (show_driver_camera sc) (navigate_on_openpilot sc)
    (longitudinal_control sc) b (wide_camera_disabled sc)
    (calibration_valid sc) (calibration_wide_valid sc) (view_from_calib sc)
    (view_from_wide_calib sc) (geometry sc) (acceleration_path sc)
    (adjacent_path sc) (always_on_lateral sc) (always_on_lateral_active sc)
    (bearing_deg sc) (blind_spot_left sc) (blind_spot_right sc) (compass sc)
    (conditional_experimental sc) (conditional_speed sc)
    (conditional_speed_lead sc) (conditional_status sc) (custom_colors sc)
    (custom_road_ui sc) (custom_signals sc) (desired_follow sc)
    (experimental_mode sc) (experimental_mode_via_wheel sc)
    (lane_width_left sc) (lane_width_right sc) (lead_info sc) (map_open sc)
    (mute_dm sc) (obstacle_distance sc) (obstacle_distance_stock sc)
    (personalities_via_screen sc) (road_name_ui sc) (rotating_wheel sc)
    (slc_overridden sc) (speed_limit sc) (speed_limit_offset sc)
    (steering_angle_deg sc) (steering_wheel sc) (stopped_equivalence sc)
    (stopped_equivalence_stock sc) (turn_signal_left sc)
    (turn_signal_right sc) (vtsc_offset sc).

(** The scene with its cached geometry replaced, as the helpers of ui.cc
    leave it. *)
Definition set_geometry (g : SceneGeometry) (sc : UIScene) : UIScene :=
  mkUIScene (started sc) (started_frame sc) (is_metric sc) (map_on_left sc)
    (display_fps sc) (show_driver_camera sc) (navigate_on_openpilot sc)
    (longitudinal_control sc) (wide_cam sc) (wide_camera_disabled sc)
    (calibration_valid sc) (calibration_wide_valid sc) (view_from_calib sc)
    (view_from_wide_calib sc) g (acceleration_path sc) (adjacent_path sc)
    (always_on_lateral sc) (always_on_lateral_active sc) (bearing_deg sc)
    (blind_spot_left sc) (blind_spot_right sc) (compass sc)
    (conditional_experimental sc) (conditional_speed sc)
    (conditional_speed_lead sc) (conditional_status sc) (custom_colors sc)
    (custom_road_ui sc) (custom_signals sc) (desired_follow sc)
    (experimental_mode sc) (experimental_mode_via_wheel sc) (lane_width_left
    sc) (lane_width_right sc) (lead_info sc) (map_open sc) (mute_dm sc)
    (obstacle_distance sc) (obstacle_distance_stock sc)
    (personalities_via_screen sc) (road_name_ui sc) (rotating_wheel sc)
    (slc_overridden sc) (speed_limit sc) (speed_limit_offset sc)
    (steering_angle_deg sc) (steering_wheel sc) (stopped_equivalence sc)
    (stopped_equivalence_stock sc) (turn_signal_left sc) (turn_signal_right
    sc) (vtsc_offset sc).

(** [UIState]: the scene, the SubMaster snapshot and the engagement
    status.  [worldObjectsVisible] is the result of the method of that name,
    which ui.h defines. *)
Record UIState : Type := mkUIState {
  scene : UIScene;
  sm : SubMaster;
  status : UIStatus;
  worldObjectsVisible : bool
}.

(** What onroad.cc takes from other files of the repository: constants of
    onroad.h, ui.h and util.h, and the helpers of ui.cc that refresh the
    cached geometry of the scene. *)
Record Extern : Type := mkExtern {
  MS_TO_KPH : Q;
  MS_TO_MPH : Q;
  KM_TO_MILE : Q;
  (** The helpers of ui.cc take the UIState and rewrite its scene. *)
  update_model : UIScene -> ModelDataV2 -> UiPlan -> UIScene;
  update_leads : UIScene -> RadarState -> list (Q * Q) -> UIScene;
  update_dmonitoring : UIScene -> DriverStateV2 -> Q -> bool -> UIScene;
  (** [FirstOrderFilter::update]: the filter state and the sample give the
      new filter state, which is also the value returned. *)
  fps_filter_update : Q -> Q -> Q;
  (** [util::map_val(x, a1, a2, b1, b2)]. *)
  map_val : Q -> Q -> Q -> Q -> Q -> Q;
  DEFAULT_CALIBRATION : mat3
}.

(** The variables onroad.h declares at file scope, shared by
    [OnroadWindow] and [AnnotatedCameraWidget]. *)
Record Globals : Type := mkGlobals {
  reverseCruiseIncrease : bool;
  speedHidden : bool;
  displaySLCOffset : bool;
  fps : Q
}.

End UI.
Import UI.

(** ** Toolkit geometry: QPoint and QRect *)

Module Qt.

Record QPoint : Type := mkQPoint { px : Z; py : Z }.

Definition QPoint_eqb (a b : QPoint) : bool :=
  (px a =? px b) && (py a =? py b).

(** A rectangle is stored by its corners, as Qt does. *)
Record QRect : Type := mkQRectCorners { x1 : Z; y1 : Z; x2 : Z; y2 : Z }.

(** [QRect(x, y, width, height)]. *)
Definition mkQRect (x y w h : Z) : QRect :=
  mkQRectCorners x y (x + w - 1) (y + h - 1).

(** [QRect::contains(const QPoint &)], edges included. *)
Definition contains (r : QRect) (p : QPoint) : bool :=
  let '(l, rr) := if x2 r <? x1 r - 1 then (x2 r, x1 r) else (x1 r, x2 r) in
  let '(t, b) := if y2 r <? y1 r - 1 then (y2 r, y1 r) else (y1 r, y2 r) in
  negb ((px p <? l) || (rr <? px p)) && negb ((py p <? t) || (b <? py p)).

(** [QRect::center()]. *)
Definition center (r : QRect) : QPoint :=
  mkQPoint (c_div (x1 r + x2 r) 2) (c_div (y1 r + y2 r) 2).

End Qt.
Import Qt.

(** ** OnroadWindow: click routing *)

Module OnroadWindow.

(** The map panel, when one was created. *)
Record MapPanel : Type := mkMapPanel { isVisible : bool }.

Record t : Type := mk {
  rect : QRect;              (* rect() of the window *)
  geometry_x : Z;            (* geometry().x() *)
  clickTimer_active : bool;  (* clickTimer.isActive() *)
  timeoutPoint : QPoint;
  map : option MapPanel
}.

(** What a handler asks of its surroundings, in the order of the calls. *)
Inductive Effect : Type :=
| PutBool (memory : bool) (key : string) (value : bool)
| PutInt (memory : bool) (key : string) (value : Z)
| TimerStop
| TimerStart (msec : Z)
| MapSetVisible (visible : bool)
| ParentMousePressEvent.

(** The state a click handler runs in, and the calls it has made. *)
Record World : Type := mkWorld {
  window : t;
  globals : Globals;
  stores : Stores;
  effects : list Effect
}.

Definition set_globals (g : Globals) (w : World) : World :=
  mkWorld (window w) g (stores w) (effects w).

Definition set_timer (active : bool) (w : World) : World :=
  mkWorld (mk (rect (window w)) (geometry_x (window w)) active
             (timeoutPoint (window w)) (map (window w)))
          (globals w) (stores w) (effects w).

Definition set_map (m : option MapPanel) (w : World) : World :=
  mkWorld (mk (rect (window w)) (geometry_x (window w))
             (clickTimer_active (window w)) (timeoutPoint (window w)) m)
          (globals w) (stores w) (effects w).

Definition emit (e : Effect) (w : World) : World :=
  mkWorld (window w) (globals w) (stores w) (effects w ++ [e]).

(** [params.putBoolNonBlocking(key, value)]. *)
Definition params_putBoolNonBlocking (key : string) (value : bool) (w : World) : World :=
  emit (PutBool false key value)
    (mkWorld (window w) (globals w)
       (mkStores (putBoolNonBlocking (params (stores w)) key value)
                 (paramsMemory (stores w)))
       (effects w)).

(** [paramsMemory.putBoolNonBlocking(key, value)]. *)
Definition paramsMemory_putBoolNonBlocking (key : string) (value : bool) (w : World) : World :=
  emit (PutBool true key value)
    (mkWorld (window w) (globals w)
       (mkStores (params (stores w))
                 (putBoolNonBlocking (paramsMemory (stores w)) key value))
       (effects w)).

(** [paramsMemory.putIntNonBlocking(key, value)]. *)
Definition paramsMemory_putIntNonBlocking (key : string) (value : Z) (w : World) : World :=
  emit (PutInt true key value)
    (mkWorld (window w) (globals w)
       (mkStores (params (stores w))
                 (putIntNonBlocking (paramsMemory (stores w)) key value))
       (effects w)).

Definition maxSpeedRect : QRect := mkQRect 7 25 225 225.
Definition speedRect (win : t) : QRect := mkQRect (px (center (rect win)) - 175) 50 350 350.
Definition speedLimitRect : QRect := mkQRect 7 250 225 225.

(** The value written to "ConditionalStatus" by a manual override. *)
Definition override_value (conditional_status : Z) : Z :=
  if (conditional_status =? 1) || (conditional_status =? 2)
     || (conditional_status =? 3) || (conditional_status =? 4)
  then 0
  else if 5 <=? conditional_status then 3 else 4.

(** The three toggles behind the clickable rectangles. *)
Definition toggle_cruise_increase (w : World) : World :=
  let v := negb (getBool (params (stores w)) "ReverseCruiseIncrease") in
  let w := set_globals (mkGlobals v (speedHidden (globals w))
                          (displaySLCOffset (globals w)) (fps (globals w))) w in
  let w := params_putBoolNonBlocking "ReverseCruiseIncrease" v w in
  paramsMemory_putBoolNonBlocking "FrogPilotTogglesUpdated" true w.

Definition toggle_hide_speed (w : World) : World :=
  let v := negb (getBool (params (stores w)) "HideSpeed") in
  let w := set_globals (mkGlobals (reverseCruiseIncrease (globals w)) v
                          (displaySLCOffset (globals w)) (fps (globals w))) w in
  params_putBoolNonBlocking "HideSpeed" v w.

Definition toggle_slc_offset (w : World) : World :=
  let v := negb (getBool (params (stores w)) "DisplaySLCOffset") in
  let w := set_globals (mkGlobals (reverseCruiseIncrease (globals w))
                          (speedHidden (globals w)) v (fps (globals w))) w in
  params_putBoolNonBlocking "DisplaySLCOffset" v w.

(** The double-click branch: a second click while the timer runs flips
    the experimental mode (or overrides the conditional status), a first
    click starts the timer. *)
Definition experimental_click (sc : UIScene) (w : World) : World :=
  if clickTimer_active (window w) then
    let w := emit TimerStop (set_timer false w) in
    if conditional_experimental sc then
      paramsMemory_putIntNonBlocking "ConditionalStatus"
        (override_value (conditional_status sc)) w
    else
      let experimentalMode := getBool (params (stores w)) "ExperimentalMode" in
      params_putBoolNonBlocking "ExperimentalMode" (negb experimentalMode) w
  else
    emit (TimerStart 500) (set_timer true w).

(** The part compiled under ENABLE_MAPS: switch between map and sidebar. *)
Definition map_click (sc : UIScene) (widgetClicked : bool) (w : World) : World :=
  match map (window w) with
  | Some m =>
      if negb widgetClicked then
        let sidebarVisible := 0 <? geometry_x (window w) in
        let show_map := if navigate_on_openpilot sc then sidebarVisible
                        else negb sidebarVisible in
        if negb (experimental_mode_via_wheel sc) || isVisible m then
          let v := show_map && negb (isVisible m) in
          emit (MapSetVisible v) (set_map (Some (mkMapPanel v)) w)
        else w
      else w
  | None => w
  end.

(** [OnroadWindow::mousePressEvent], for a press at [pos] under the scene
    [sc]. *)
Definition mousePressEvent (sc : UIScene) (pos : QPoint) (w : World) : World :=
  let isMaxSpeedClicked := contains maxSpeedRect pos in
  let isSpeedClicked := contains (speedRect (window w)) pos in
  let isSpeedLimitClicked := contains speedLimitRect pos in
  let '(widgetClicked, w) :=
    if isMaxSpeedClicked || isSpeedClicked || isSpeedLimitClicked then
      (true,
       if isMaxSpeedClicked then toggle_cruise_increase w
       else if isSpeedClicked then toggle_hide_speed w
       else toggle_slc_offset w)
    else if experimental_mode_via_wheel sc
            && negb (QPoint_eqb pos (timeoutPoint (window w))) then
      (true, experimental_click sc w)
    else (false, w) in
  let w := map_click sc widgetClicked w in
  if negb widgetClicked then
    let w := emit ParentMousePressEvent w in
    let sidebarVisible := 0 <? geometry_x (window w) in
    params_putBoolNonBlocking "Sidebar" (negb sidebarVisible) w
  else w.

(** The three toggles, and the rectangles that trigger them in the order
    the handler tests them. *)
Inductive Toggle : Type := CruiseIncrease | HideSpeed | SLCOffset.

Definition hit_order (win : t) : list (QRect * Toggle) :=
  [ (maxSpeedRect, CruiseIncrease);
    (speedRect win, HideSpeed);
    (speedLimitRect, SLCOffset) ].

(** The toggle of the earliest rectangle of [hit_order] that contains the
    point. *)
Definition first_hit (win : t) (pos : QPoint) : option Toggle :=
  match List.find (fun rt => contains (fst rt) pos) (hit_order win) with
  | Some rt => Some (snd rt)
  | None => None
  end.

Definition key_of (a : Toggle) : string :=
  match a with
  | CruiseIncrease => "ReverseCruiseIncrease"
  | HideSpeed => "HideSpeed"
  | SLCOffset => "DisplaySLCOffset"
  end.

Definition flag_of (a : Toggle) (g : Globals) : bool :=
  match a with
  | CruiseIncrease => reverseCruiseIncrease g
  | HideSpeed => speedHidden g
  | SLCOffset => displaySLCOffset g
  end.

(** The writes to the stores that make up a toggle action. *)
Definition toggle_writes (a : Toggle) (w : World) : list Effect :=
  let v := negb (getBool (params (stores w)) (key_of a)) in
  match a with
  | CruiseIncrease => [PutBool false "ReverseCruiseIncrease" v;
                       PutBool true "FrogPilotTogglesUpdated" true]
  | HideSpeed => [PutBool false "HideSpeed" v]
  | SLCOffset => [PutBool false "DisplaySLCOffset" v]
  end.

Definition is_propagation (e : Effect) : bool :=
  match e with ParentMousePressEvent => true | _ => false end.

End OnroadWindow.

(** ** Colours, gradients and themes *)

Module Paint.

(** A colour is kept as the expression that builds it. *)
Inductive QColor : Type :=
| Rgba (r g b a : Z)             (* QColor(r, g, b, a) *)
| HslF (h s l a : Q)             (* QColor::fromHslF(h, s, l, a) *)
| Darker (factor : Z) (c : QColor)  (* c.darker(factor) *)
| RedColor (alpha : Z)           (* redColor(alpha) of the header *)
| Invalid.                       (* a default-constructed QColor *)

(** The colour stops of a QLinearGradient, in the order of the
    [setColorAt] calls. *)
Definition Stops : Type := list (Q * QColor).

(** [QGradient::setColorAt]: a position outside [0, 1] is refused; a stop
    at the same position is replaced; the stops stay ordered by position. *)
Fixpoint insert_stop (pos : Q) (c : QColor) (stops : Stops) : Stops :=
  match stops with
  | [] => [(pos, c)]
  | (p, c') :: rest =>
      if Qlt_bool p pos then (p, c') :: insert_stop pos c rest
      else if Qeq_bool p pos then (pos, c) :: rest
      else (pos, c) :: stops
  end.

Definition setColorAt (pos : Q) (c : QColor) (stops : Stops) : Stops :=
  if Qlt_bool 1 pos || Qlt_bool pos 0 then stops else insert_stop pos c stops.

(** A run of [setColorAt] calls on a gradient. *)
Definition setColorsAt (calls : list (Q * QColor)) (stops : Stops) : Stops :=
  fold_left (fun g pc => setColorAt (fst pc) (snd pc) g) calls stops.

(** Equality of colours and of gradients, numbers compared as fractions. *)
Fixpoint QColor_eqb (a b : QColor) : bool :=
  match a, b with
  | Rgba r g b0 a0, Rgba r' g' b' a' =>
      (r =? r') && (g =? g') && (b0 =? b') && (a0 =? a')
  | HslF h s l a0, HslF h' s' l' a' =>
      Qeq_bool h h' && Qeq_bool s s' && Qeq_bool l l' && Qeq_bool a0 a'
  | Darker f c, Darker f' c' => (f =? f') && QColor_eqb c c'
  | RedColor a0, RedColor a' => a0 =? a'
  | Invalid, Invalid => true
  | _, _ => false
  end.

Fixpoint Stops_eqb (a b : Stops) : bool :=
  match a, b with
  | [], [] => true
  | (p, c) :: a', (q, d) :: b' => Qeq_bool p q && QColor_eqb c d && Stops_eqb a' b'
  | _, _ => false
  end.

(** An entry of [themeConfiguration]: the theme's directory, its main
    colour and the colour stops of its path. *)
Record Theme : Type := mkTheme {
  theme_name : string;
  theme_color : QColor;
  theme_stops : Stops
}.

Definition theme_stops_of (h s l : Q) : Stops :=
  [ (0, HslF h s l (9 # 10)); (1 # 2, HslF h s l (5 # 10)); (1, HslF h s l (1 # 10)) ]%Q.

(** [themeConfiguration] as the constructor of the widget fills it. *)
Definition themeConfiguration0 : gmap Z Theme :=
  <[1 := mkTheme "frog_theme" (Rgba 23 134 68 242)
           (theme_stops_of (144 / 360) (71 # 100) (31 # 100))]>
  (<[2 := mkTheme "tesla_theme" (Rgba 0 72 255 255)
           (theme_stops_of (223 / 360) 1 (1 # 2))]>
  (<[3 := mkTheme "stalin_theme" (Rgba 255 0 0 255)
           (theme_stops_of (0 / 360) 1 (1 # 2))]> ∅)).

(** A value-initialised entry, as [operator[]] of std::map creates it. *)
Definition default_theme : Theme := mkTheme "" Invalid [].

(** [themeConfiguration[k]]: the entry read ... *)
Definition theme_at (cfg : gmap Z Theme) (k : Z) : Theme :=
  match cfg !! k with Some t => t | None => default_theme end.

(** ... and the map it leaves behind: a missing key is inserted. *)
Definition theme_touch (cfg : gmap Z Theme) (k : Z) : gmap Z Theme :=
  match cfg !! k with Some _ => cfg | None => <[k := default_theme]> cfg end.

(** The directory of the turn-signal images for a theme key. *)
Definition theme_path_of (cfg : gmap Z Theme) (customSignals : Z) : string :=
  ("../assets/custom_themes/"
   ++ match cfg !! customSignals with
      | Some t => theme_name t
      | None => "stock_theme"
      end
   ++ "/images")%string.

End Paint.
Import Paint.

(** ** AnnotatedCameraWidget *)

Module AnnotatedCameraWidget.

Import TurnSignal.

(** The members of [ExperimentalButton] that [updateState] maintains. *)
Record ExperimentalButton : Type := mkExperimentalButton {
  btn_experimental_mode : bool;
  btn_engageable : bool;
  btn_leadInfo : bool;
  btn_rotatingWheel : bool;
  btn_steeringWheel : Z;
  btn_steeringAngleDeg : Z;
  btn_updates : nat    (* calls of update() so far *)
}.

(** The [QPushButton] state of the map-settings button. *)
Record MapSettingsButton : Type := mkMapSettingsButton {
  btn_enabled : bool;
  btn_visible : bool
}.

(** The members inherited from [CameraWidget] (cameraview.h) that [paintGL]
    uses.  The frame queue and the active stream are filled by the camera
    thread; [setStreamType] records the requested stream and
    [getStreamType] reads the active one. *)
Record CameraWidget : Type := mkCameraWidget {
  frames_empty : bool;                       (* frames.empty() *)
  available_streams : list VisionStreamType; (* a std::set: no repetitions *)
  requested_stream_type : VisionStreamType;
  active_stream_type : VisionStreamType;
  calibration : mat3;
  draw_frame_id : Z
}.

Record t : Type := mk {
  (* geometry of the widget *)
  width : Z;
  height : Z;
  (* camera *)
  cam : CameraWidget;
  skip_frame_count : Z;
  wide_cam_requested : bool;
  prev_draw_t : Q;
  fps_filter : Q;
  (* head-up display *)
  setSpeed : Q;
  is_cruise_set : bool;
  speed : Q;
  speedLimit : Q;
  has_us_speed_limit : bool;
  has_eu_speed_limit : bool;
  is_metric : bool;
  speedUnit : string;
  hideBottomIcons : bool;
  status : UIStatus;
  v_ego_cluster_seen : bool;
  dmActive : bool;
  rightHandDM : bool;
  dm_fade_state : Q;
  (* child widgets *)
  experimental_btn : ExperimentalButton;
  map_settings_btn : MapSettingsButton;
  map_settings_btn_left : bool;   (* aligned left rather than right *)
  personality_btn_right : bool;   (* aligned right rather than left *)
  personality_btn_visible : bool;
  (* FrogPilot variables *)
  accelerationPath : bool;
  adjacentPath : bool;
  alwaysOnLateral : bool;
  bearingDeg : Q;
  blindSpotLeft : bool;
  blindSpotRight : bool;
  compass : bool;
  conditionalExperimental : bool;
  conditionalSpeed : Z;
  conditionalSpeedLead : Z;
  conditionalStatus : Z;
  customColors : Z;
  customRoadUI : bool;
  customSignals : Z;
  desiredFollow : Q;
  experimentalMode : bool;
  laneWidthLeft : Q;
  laneWidthRight : Q;
  leadInfo : bool;
  mapOpen : bool;
  muteDM : bool;
  obstacleDistance : Q;
  obstacleDistanceStock : Q;
  onroadAdjustableProfiles : bool;
  roadNameUI : bool;
  slcOverridden : bool;
  slcSpeedLimit : Q;
  slcSpeedLimitOffset : Q;
  stoppedEquivalence : Q;
  stoppedEquivalenceStock : Q;
  turnSignalLeft : bool;
  turnSignalRight : bool;
  vtscOffset : Q;
  (* themes and the turn-signal animation *)
  themeConfiguration : gmap Z Theme;
  theme_path : string;
  signalImgVector : list Pixmap;
  animationFrameIndex : Z
}.

Definition SET_SPEED_NA : Z := 255.

(** [std::round]: to the nearest integer, halves away from zero. *)
Definition round_half_away (x : Q) : Z :=
  if Qle_bool 0 x then Qfloor (x + (1 # 2)) else Qceiling (x - (1 # 2)).

(** [ExperimentalButton::updateState]. *)
Definition ExperimentalButton_updateState (s : UIState) (b : ExperimentalButton)
    : ExperimentalButton :=
  let cs := controlsState (sm s) in
  let eng := getEngageable cs || getEnabled cs in
  let changed := negb (Bool.eqb (getExperimentalMode cs) (btn_experimental_mode b))
                 || negb (Bool.eqb eng (btn_engageable b)) in
  let rotatingWheel := rotating_wheel (scene s) in
  let turned := rotatingWheel
                && negb (btn_steeringAngleDeg b =? steering_angle_deg (scene s)) in
  {| btn_experimental_mode :=
       if changed then getExperimentalMode cs else btn_experimental_mode b;
     btn_engageable := if changed then eng else btn_engageable b;
     btn_leadInfo := lead_info (scene s);
     btn_rotatingWheel := rotatingWheel;
     btn_steeringWheel := steering_wheel (scene s);
     btn_steeringAngleDeg :=
       if turned then steering_angle_deg (scene s) else btn_steeringAngleDeg b;
     btn_updates := (btn_updates b + (if changed then 1 else 0)
                     + (if turned then 1 else 0))%nat |}.

Section WithExtern.

Local Open Scope Q_scope.

Variable E : Extern.

(** The factor from m/s to the displayed unit. *)
Definition speed_factor (metric : bool) : Q :=
  if metric then MS_TO_KPH E else MS_TO_MPH E.

(** [AnnotatedCameraWidget::updateState].  [displaySLCOffset] is the
    file-scope flag. *)
Definition updateState (g : Globals) (s : UIState) (w : t) : t :=
  let sm := sm s in
  let cs_alive := alive_controlsState sm in
  let nav_alive := alive_navInstruction sm && valid_navInstruction sm in
  let cs := controlsState sm in
  let car_state := carState sm in
  let nav_instruction := navInstruction sm in
  (* Handle older routes where vCruiseCluster is not set *)
  let v_cruise := if Qeq_bool (getVCruiseCluster cs) 0 then getVCruise cs
                  else getVCruiseCluster cs in
  let setSpeed1 := if cs_alive then v_cruise else inject_Z SET_SPEED_NA in
  let is_cruise_set1 := Qlt_bool 0 setSpeed1
                        && negb (Qtruncate setSpeed1 =? SET_SPEED_NA) in
  let setSpeed2 := if is_cruise_set1 && negb (UI.is_metric (scene s))
                   then setSpeed1 * KM_TO_MILE E else setSpeed1 in
  (* Handle older routes where vEgoCluster is not set *)
  let v_ego_cluster_seen1 := v_ego_cluster_seen w
                             || negb (Qeq_bool (getVEgoCluster car_state) 0) in
  let v_ego := if v_ego_cluster_seen1 then getVEgoCluster car_state
               else getVEgo car_state in
  let speed1 := if cs_alive then fmax 0 v_ego else 0 in
  let speed2 := speed1 * speed_factor (UI.is_metric (scene s)) in
  let speed_limit_sign := getSpeedLimitSign nav_instruction in
  let speedLimit1 := if nav_alive then getSpeedLimit nav_instruction
                     else if Qtruthy (slcSpeedLimit w) then slcSpeedLimit w else 0 in
  let speedLimit2 := speedLimit1 * speed_factor (UI.is_metric (scene s)) in
  let speedLimit3 :=
    if Qtruthy (slcSpeedLimit w)
    then inject_Z (round_half_away
                     (speedLimit2 - (if displaySLCOffset g then slcSpeedLimitOffset w else 0)))
    else speedLimit2 in
  let has_us := (nav_alive && SpeedLimitSign_eqb speed_limit_sign MUTCD)
                || Qtruthy (slcSpeedLimit w) in
  let has_eu := nav_alive && SpeedLimitSign_eqb speed_limit_sign VIENNA in
  let is_metric1 := UI.is_metric (scene s) in
  let hideBottomIcons1 :=
    negb (AlertSize_eqb (getAlertSize cs) NONE)
    || (negb (customSignals w =? 0) && (turnSignalLeft w || turnSignalRight w))
    || show_driver_camera (scene s) in
  (* update DM icon *)
  let dm_state := driverMonitoringState sm in
  let dmActive1 := getIsActiveMode dm_state in
  let rightHandDM1 := getIsRHD dm_state in
  let dm_fade_state1 :=
    clamp (dm_fade_state w + (2 # 10) * ((1 # 2) - (if dmActive1 then 1 else 0))) 0 1 in
  (* hide map settings button for alerts and flip for right hand DM *)
  let map_btn := map_settings_btn w in
  let map_btn1 := if btn_enabled map_btn
                  then mkMapSettingsButton (btn_enabled map_btn) (negb hideBottomIcons1)
                  else map_btn in
  let map_left1 := if btn_enabled map_btn then rightHandDM1 || compass w
                   else map_settings_btn_left w in
  let personality_visible1 := onroadAdjustableProfiles w && negb hideBottomIcons1
                              && negb (show_driver_camera (scene s)) in
  (* Update the turn signal animation images upon toggle change *)
  let signals_changed := negb (customSignals w =? custom_signals (scene s)) in
  let theme_path1 := if signals_changed
                     then theme_path_of (themeConfiguration w) (custom_signals (scene s))
                     else theme_path w in
  {| width := width w;
     height := height w;
     cam := cam w;
     skip_frame_count := skip_frame_count w;
     wide_cam_requested := wide_cam_requested w;
     prev_draw_t := prev_draw_t w;
     fps_filter := fps_filter w;
     setSpeed := setSpeed2;
     is_cruise_set := is_cruise_set1;
     speed := speed2;
     speedLimit := speedLimit3;
     has_us_speed_limit := has_us;
     has_eu_speed_limit := has_eu;
     is_metric := is_metric1;
     speedUnit := if UI.is_metric (scene s) then "km/h" else "mph";
     hideBottomIcons := hideBottomIcons1;
     status := UI.status s;
     v_ego_cluster_seen := v_ego_cluster_seen1;
     dmActive := dmActive1;
     rightHandDM := rightHandDM1;
     dm_fade_state := dm_fade_state1;
     experimental_btn := ExperimentalButton_updateState s (experimental_btn w);
     map_settings_btn := map_btn1;
     map_settings_btn_left := map_left1;
     personality_btn_right := rightHandDM1;
     personality_btn_visible := personality_visible1;
     accelerationPath := acceleration_path (scene s);
     adjacentPath := adjacent_path (scene s);
     alwaysOnLateral := always_on_lateral_active (scene s);
     bearingDeg := bearing_deg (scene s);
     blindSpotLeft := blind_spot_left (scene s);
     blindSpotRight := blind_spot_right (scene s);
     compass := UI.compass (scene s);
     conditionalExperimental := conditional_experimental (scene s);
     conditionalSpeed := conditional_speed (scene s);
     conditionalSpeedLead := conditional_speed_lead (scene s);
     conditionalStatus := conditional_status (scene s);
     customColors := custom_colors (scene s);
     customRoadUI := custom_road_ui (scene s);
     customSignals := custom_signals (scene s);
     desiredFollow := desired_follow (scene s);
     experimentalMode := experimental_mode (scene s);
     laneWidthLeft := lane_width_left (scene s);
     laneWidthRight := lane_width_right (scene s);
     leadInfo := lead_info (scene s);
     mapOpen := map_open (scene s);
     muteDM := mute_dm (scene s);
     obstacleDistance := obstacle_distance (scene s);
     obstacleDistanceStock := obstacle_distance_stock (scene s);
     onroadAdjustableProfiles := personalities_via_screen (scene s);
     roadNameUI := road_name_ui (scene s);
     slcOverridden := slc_overridden (scene s);
     slcSpeedLimit := speed_limit (scene s);
     slcSpeedLimitOffset := speed_limit_offset (scene s) * speed_factor is_metric1;
     stoppedEquivalence := stopped_equivalence (scene s);
     stoppedEquivalenceStock := stopped_equivalence_stock (scene s);
     turnSignalLeft := turn_signal_left (scene s);
     turnSignalRight := turn_signal_right (scene s);
     vtscOffset := (1 # 10) * vtsc_offset (scene s) * speed_factor is_metric1
                   + (9 # 10) * vtscOffset w;
     themeConfiguration := themeConfiguration w;
     theme_path := theme_path1;
     signalImgVector := if signals_changed then TurnSignal.signalImgVector theme_path1
                        else signalImgVector w;
     animationFrameIndex := animationFrameIndex w |}.


(** *** drawHud *)

(** A text of the display: the dash, or the decimal rendering of a number
    already rounded by [std::nearbyint], with a plus sign in front for the
    offset of the speed limit. *)
Inductive Readout : Type :=
| Dash
| Number (z : Z)
| PlusNumber (z : Z).

(** [std::nearbyint] in the default rounding mode: to the nearest integer,
    halves to the even one. *)
Definition nearbyint (x : Q) : Z :=
  let f := Qfloor x in
  let r := x - inject_Z f in
  if Qlt_bool r (1 # 2) then f
  else if Qlt_bool (1 # 2) r then (f + 1)%Z
  else if Z.even f then f else (f + 1)%Z.

(** [QString::size] of a readout (for numbers below a million, which
    [QString::number] prints digit by digit). *)
Definition Readout_size (r : Readout) : Z :=
  match r with
  | Dash => 1
  | Number z => Z.of_nat (String.length (NilZero.string_of_int (Z.to_int z)))
  | PlusNumber z => 1 + Z.of_nat (String.length (NilZero.string_of_int (Z.to_int z)))
  end.

Inductive HudOp : Type :=
| SetSpeedBox (w h top_radius bottom_radius : Z)
| SetSpeedText (text : Readout)
| UsSign (limit : Readout) (offset : option Readout) (opacity : Q)
| EuSign (limit : Readout) (font_size : Z)
| CurrentSpeed (text : Readout) (unit : string)
| Compass
| LeadInfo
| StatusBar
| TurnSignals.

Definition speedLimitStr (w : t) : Readout :=
  if Qlt_bool 1 (speedLimit w) then Number (nearbyint (speedLimit w)) else Dash.

Definition speedLimitOffsetStr (w : t) : Readout :=
  if Qlt_bool 1 (slcSpeedLimitOffset w)
  then PlusNumber (nearbyint (slcSpeedLimitOffset w)) else Dash.

Definition speedStr (w : t) : Readout := Number (nearbyint (speed w)).

Definition setSpeedStr (w : t) : Readout :=
  if is_cruise_set w
  then Number (nearbyint (setSpeed w - fmax (vtscOffset w - 1) 0))
  else Dash.

(** [AnnotatedCameraWidget::drawHud]: what is painted, in order.  Pens,
    fonts and colours of the texts are left out. *)
Definition drawHud (g : Globals) (w : t) : list HudOp :=
  let sign_margin := 12%Z in
  let us_sign_height := 186%Z in
  let eu_sign_size := 176%Z in
  let width0 := 172%Z in
  let width1 := if is_metric w || has_eu_speed_limit w then 200%Z else width0 in
  let width2 := if has_us_speed_limit w && (3 <=? Readout_size (speedLimitStr w))%Z
                then 223%Z else width1 in
  let height1 := if has_us_speed_limit w then (204 + (us_sign_height + sign_margin))%Z
                 else if has_eu_speed_limit w then (204 + (eu_sign_size + sign_margin))%Z
                 else 204%Z in
  let bottom_radius := if has_eu_speed_limit w then 100%Z else 32%Z in
  [SetSpeedBox width2 height1 32 bottom_radius; SetSpeedText (setSpeedStr w)]
  (* US/Canada (MUTCD style) sign *)
  ++ (if has_us_speed_limit w
      then [UsSign (speedLimitStr w)
              (if displaySLCOffset g then Some (speedLimitOffsetStr w) else None)
              (if slcOverridden w then 25 # 100 else 1)]
      else [])
  (* EU (Vienna style) sign *)
  ++ (if has_eu_speed_limit w
      then [EuSign (speedLimitStr w)
              (if (3 <=? Readout_size (speedLimitStr w))%Z then 60%Z else 70%Z)]
      else [])
  (* current speed *)
  ++ (if negb (speedHidden g) then [CurrentSpeed (speedStr w) (speedUnit w)] else [])
  ++ (if compass w && negb (hideBottomIcons w) then [Compass] else [])
  ++ (if leadInfo w then [LeadInfo] else [])
  ++ (if alwaysOnLateral w || conditionalExperimental w || roadNameUI w
      then [StatusBar] else [])
  ++ (if negb (customSignals w =? 0)%Z && (turnSignalLeft w || turnSignalRight w)
      then [TurnSignals] else []).

(** The sign styles a list of paint operations contains. *)
Definition paints_us_sign (ops : list HudOp) : bool :=
  existsb (fun o => match o with UsSign _ _ _ => true | _ => false end) ops.

Definition paints_eu_sign (ops : list HudOp) : bool :=
  existsb (fun o => match o with EuSign _ _ => true | _ => false end) ops.

(** *** drawLaneLines: the gradients of the path *)

Definition hsl_stops (h s l a0 a1 a2 : Q) : list (Q * QColor) :=
  [ (0, HslF h s l a0); (1 # 2, HslF h s l a1); (1, HslF h s l a2) ].

(** The stock colours of the path and of its edges. *)
Definition default_path_stops : list (Q * QColor) :=
  [ (0, HslF (148 / 360) (94 # 100) (51 # 100) (4 # 10));
    (1 # 2, HslF (112 / 360) 1 (68 # 100) (35 # 100));
    (1, HslF (112 / 360) 1 (68 # 100) 0) ].

Definition default_edge_stops : list (Q * QColor) :=
  [ (0, HslF (148 / 360) (94 # 100) (51 # 100) 1);
    (1 # 2, HslF (112 / 360) 1 (68 # 100) (5 # 10));
    (1, HslF (112 / 360) 1 (68 # 100) (1 # 10)) ].

Definition always_on_lateral_stops := hsl_stops (178 / 360) (90 # 100) (38 # 100) 1 (5 # 10) (1 # 10).
Definition conditional_stops := hsl_stops (58 / 360) 1 (50 # 100) 1 (5 # 10) (1 # 10).
Definition experimental_stops := hsl_stops (25 / 360) (71 # 100) (50 # 100) 1 (5 # 10) (1 # 10).
Definition navigation_stops := hsl_stops (205 / 360) (85 # 100) (56 # 100) 1 (5 # 10) (1 # 10).
Definition blindspot_stops := hsl_stops (0 / 360) (75 # 100) (50 # 100) (6 # 10) (4 # 10) (2 # 10).

(** The stops of the custom theme, as they are. *)
Definition custom_path_stops (w : t) : list (Q * QColor) :=
  theme_stops (theme_at (themeConfiguration w) (customColors w)).

(** The stops of the custom theme, each colour made darker. *)
Definition custom_edge_stops (w : t) : list (Q * QColor) :=
  List.map (fun pc => (fst pc, Darker 120 (snd pc)))
    (theme_stops (theme_at (themeConfiguration w) (customColors w))).

(** [pe], the gradient of the path edges. *)
Definition path_edge_gradient (w : t) (sc : UIScene) : Stops :=
  setColorsAt
    (if alwaysOnLateral w then always_on_lateral_stops
     else if (conditionalStatus w =? 1)%Z then conditional_stops
     else if experimentalMode w then experimental_stops
     else if navigate_on_openpilot sc then navigation_stops
     else if negb (customColors w =? 0)%Z then custom_edge_stops w
     else default_edge_stops)
    [].

(** The colour of one point of the path under the acceleration colouring. *)
Definition accel_color (acc lin_grad_point : Q) : QColor :=
  (* speed up: 120, slow down: 0 *)
  let path_hue := fmax (fmin (60 + acc * 35) 120) 0 in
  let path_hue := inject_Z (c_div (Qtruncate (path_hue * 100 + (1 # 2))) 100) in
  let saturation := fmin (Qabs (acc * (15 # 10))) 1 in
  let lightness := map_val E saturation 0 1 (95 # 100) (62 # 100) in
  let alpha := map_val E lin_grad_point ((75 # 100) / 2) (75 # 100) (4 # 10) 0 in
  HslF (path_hue / 360) saturation lightness alpha.

(** The loop over the points of the right side of the path, from index [i];
    [fuel] bounds the number of rounds, and [max_len - i] rounds are
    enough. *)
Fixpoint accel_loop (fuel : nat) (i max_len : Z) (w : t)
    (track : list (Q * Q)) (acceleration : list Q) (bg : Stops) : Stops :=
  match fuel with
  | O => bg
  | S fuel' =>
      if (i <? max_len)%Z then
        let y := snd (nth (Z.to_nat i) track (0, 0)) in
        let acc := nth (Z.to_nat i) acceleration 0 in
        (* Some points are out of frame *)
        if Qlt_bool y 0 || Qlt_bool (inject_Z (height w)) y
        then accel_loop fuel' (i + 1)%Z max_len w track acceleration bg
        else
          (* Flip so 0 is bottom of frame *)
          let lin_grad_point := (inject_Z (height w) - y) / inject_Z (height w) in
          if Qlt_bool (Qabs acc) (2 # 10) && negb (customColors w =? 0)%Z
          then accel_loop fuel' (i + 1)%Z max_len w track acceleration
                 (setColorsAt (custom_path_stops w) bg)
          else
            let bg' := setColorAt lin_grad_point (accel_color acc lin_grad_point) bg in
            (* Skip a point, unless next is last *)
            let i' := (i + (if (i + 2 <? max_len)%Z then 1 else 0))%Z in
            accel_loop fuel' (i' + 1)%Z max_len w track acceleration bg'
      else bg
  end.

(** [bg], the gradient of the path itself. *)
Definition path_gradient (s : UIState) (w : t) : Stops :=
  if getExperimentalMode (controlsState (sm s)) || accelerationPath w then
    let track := track_vertices (geometry (scene s)) in
    let acceleration := getAccel (uiPlan (sm s)) in
    let max_len := Z.min (c_div (Z.of_nat (length track)) 2)
                         (Z.of_nat (length acceleration)) in
    accel_loop (Z.to_nat max_len) 0 max_len w track acceleration []
  else if negb (customColors w =? 0)%Z then setColorsAt (custom_path_stops w) []
  else setColorsAt default_path_stops [].

(** [bs], the gradient of the blind-spot lanes. *)
Definition blindspot_gradient (w : t) : Stops :=
  if blindSpotLeft w || blindSpotRight w then setColorsAt blindspot_stops [] else [].

(** The chain as the specification words it: custom theme, then
    experimental, then conditional, then navigation, then the default. *)
Definition specified_path_gradient (w : t) (sc : UIScene) : Stops :=
  setColorsAt
    (if negb (customColors w =? 0)%Z then custom_edge_stops w
     else if experimentalMode w then experimental_stops
     else if (conditionalStatus w =? 1)%Z then conditional_stops
     else if navigate_on_openpilot sc then navigation_stops
     else default_edge_stops)
    [].

(** What [drawLaneLines] paints the path with. *)
Record LaneLinesPaint : Type := mkLaneLinesPaint {
  path_fill : Stops;
  path_edges : Stops;
  blindspot_fill : Stops
}.

(** [AnnotatedCameraWidget::drawLaneLines]: the three gradients, and the
    widget after the reads of [themeConfiguration[customColors]]. *)
Definition drawLaneLines (s : UIState) (w : t) : LaneLinesPaint * gmap Z Theme :=
  (mkLaneLinesPaint (path_gradient s w) (path_edge_gradient w (scene s))
     (blindspot_gradient w),
   if negb (customColors w =? 0)%Z
   then theme_touch (themeConfiguration w) (customColors w)
   else themeConfiguration w).

(** *** drawLead: the chevron of a lead vehicle *)

(** The buffers of the opacity ramp; a custom theme widens them. *)
Definition speedBuff (customColors : Z) : Q := if negb (customColors =? 0)%Z then 25 else 10.
Definition leadBuff (customColors : Z) : Q := if negb (customColors =? 0)%Z then 100 else 40.

(** [fillAlpha], an integer kept in a float. *)
Definition fillAlpha (customColors : Z) (d_rel v_rel : Q) : Z :=
  if Qlt_bool d_rel (leadBuff customColors) then
    let a := 255 * (1 - d_rel / leadBuff customColors) in
    let a := if Qlt_bool v_rel 0
             then a + 255 * (-1 * (v_rel / speedBuff customColors)) else a in
    Qtruncate (fmin a 255)
  else 0%Z.

(** The value of [fillAlpha] before it is capped and truncated. *)
Definition raw_alpha (c : Z) (d_rel v_rel : Q) : Q :=
  let a := 255 * (1 - d_rel / leadBuff c) in
  if Qlt_bool v_rel 0 then a + 255 * (-1 * (v_rel / speedBuff c)) else a.

(** [sz], the size of the chevron. *)
Definition chevron_sz (d_rel : Q) : Q :=
  clamp ((25 * 30) / (d_rel / 3 + 30)) 15 30 * (235 # 100).

Record Chevron : Type := mkChevron {
  chevron_alpha : Z;
  chevron_size : Q;
  chevron_x : Q;
  chevron_y : Q;
  chevron_brush : QColor
}.

(** [AnnotatedCameraWidget::drawLead], up to the brush of the chevron. *)
Definition drawLead (w : t) (lead_data : LeadData) (vd : Q * Q) : Chevron :=
  let d_rel := getDRel lead_data in
  let v_rel := getVRel lead_data in
  let alpha := fillAlpha (customColors w) d_rel v_rel in
  let sz := chevron_sz d_rel in
  let x := clamp (fst vd) 0 (inject_Z (width w) - sz / 2) in
  let y := fmin (inject_Z (height w) - sz * (6 # 10)) (snd vd) in
  mkChevron alpha sz x y
    (if negb (customColors w =? 0)%Z
     then theme_color (theme_at (themeConfiguration w) (customColors w))
     else RedColor alpha).

(** *** drawStatusBar: the cross-fade of status text and road name *)

Definition fadeDuration : Q := 1500.
Definition textDuration : Q := 5000.

(** The function-local statics of [drawStatusBar]. *)
Record StatusBarState : Type := mkStatusBarState {
  timer_restarted : Z;        (* instant of the last timer.restart() *)
  lastShownStatus : string;
  displayStatusText : bool
}.

(** [timer.elapsed()] at the instant [now], narrowed to [int]. *)
Definition elapsed_at (now : Z) (st : StatusBarState) : Z :=
  int_wrap (now - timer_restarted st).

(** The update of the statics, before the suffix is added to the status. *)
Definition status_bar_step (now : Z) (newStatus roadName : string)
    (st : StatusBarState) : StatusBarState :=
  if negb (String.eqb newStatus (lastShownStatus st)) || String.eqb roadName ""
  then mkStatusBarState now newStatus true
  else if displayStatusText st
          && (Qtruncate (textDuration + fadeDuration) <? now - timer_restarted st)%Z
  then mkStatusBarState (timer_restarted st) (lastShownStatus st) false
  else st.

(** The two opacities, as (statusTextOpacity, roadNameOpacity). *)
Definition status_bar_opacities (displayStatusText : bool) (elapsed : Z) : Q * Q :=
  if displayStatusText then
    let statusTextOpacity :=
      qBound 0 (1 - (inject_Z elapsed - textDuration) / fadeDuration) 1 in
    (statusTextOpacity, 1 - statusTextOpacity)
  else
    let roadNameOpacity := qBound 0 (inject_Z elapsed / fadeDuration) 1 in
    (1 - roadNameOpacity, roadNameOpacity).

(** *** paintGL *)

(** The widget with the members [paintGL] assigns replaced. *)
Definition with_paint_members (cam1 : CameraWidget) (skip1 : Z) (wide1 : bool)
    (prev1 filter1 : Q) (cfg1 : gmap Z Theme) (w : t) : t :=
  {| width := width w;
     height := height w;
     cam := cam1;
     skip_frame_count := skip1;
     wide_cam_requested := wide1;
     prev_draw_t := prev1;
     fps_filter := filter1;
     setSpeed := setSpeed w;
     is_cruise_set := is_cruise_set w;
     speed := speed w;
     speedLimit := speedLimit w;
     has_us_speed_limit := has_us_speed_limit w;
     has_eu_speed_limit := has_eu_speed_limit w;
     is_metric := is_metric w;
     speedUnit := speedUnit w;
     hideBottomIcons := hideBottomIcons w;
     status := status w;
     v_ego_cluster_seen := v_ego_cluster_seen w;
     dmActive := dmActive w;
     rightHandDM := rightHandDM w;
     dm_fade_state := dm_fade_state w;
     experimental_btn := experimental_btn w;
     map_settings_btn := map_settings_btn w;
     map_settings_btn_left := map_settings_btn_left w;
     personality_btn_right := personality_btn_right w;
     personality_btn_visible := personality_btn_visible w;
     accelerationPath := accelerationPath w;
     adjacentPath := adjacentPath w;
     alwaysOnLateral := alwaysOnLateral w;
     bearingDeg := bearingDeg w;
     blindSpotLeft := blindSpotLeft w;
     blindSpotRight := blindSpotRight w;
     compass := compass w;
     conditionalExperimental := conditionalExperimental w;
     conditionalSpeed := conditionalSpeed w;
     conditionalSpeedLead := conditionalSpeedLead w;
     conditionalStatus := conditionalStatus w;
     customColors := customColors w;
     customRoadUI := customRoadUI w;
     customSignals := customSignals w;
     desiredFollow := desiredFollow w;
     experimentalMode := experimentalMode w;
     laneWidthLeft := laneWidthLeft w;
     laneWidthRight := laneWidthRight w;
     leadInfo := leadInfo w;
     mapOpen := mapOpen w;
     muteDM := muteDM w;
     obstacleDistance := obstacleDistance w;
     obstacleDistanceStock := obstacleDistanceStock w;
     onroadAdjustableProfiles := onroadAdjustableProfiles w;
     roadNameUI := roadNameUI w;
     slcOverridden := slcOverridden w;
     slcSpeedLimit := slcSpeedLimit w;
     slcSpeedLimitOffset := slcSpeedLimitOffset w;
     stoppedEquivalence := stoppedEquivalence w;
     stoppedEquivalenceStock := stoppedEquivalenceStock w;
     turnSignalLeft := turnSignalLeft w;
     turnSignalRight := turnSignalRight w;
     vtscOffset := vtscOffset w;
     themeConfiguration := cfg1;
     theme_path := theme_path w;
     signalImgVector := signalImgVector w;
     animationFrameIndex := animationFrameIndex w |}.

Inductive PaintOp : Type :=
| OpCameraFrame (stream : VisionStreamType) (calib : mat3) (frame_id : Z)
| OpLaneLines (p : LaneLinesPaint)
| OpLead (c : Chevron)
| OpDriverState
| OpHud (ops : list HudOp).

(** The uiDebug message. *)
Record UiDebug : Type := mkUiDebug { getDrawTimeMillis : Q }.

(** All that [paintGL] can read or write: the UI state, the widget, the
    file-scope variables, the settings stores, the messages sent through
    [pm], and what was painted. *)
Record PaintWorld : Type := mkPaintWorld {
  ui : UIState;
  widget : t;
  globals : Globals;
  stores : Stores;
  outbox : list (string * UiDebug);
  screen : list PaintOp
}.

(** The test at the head of [paintGL]: no camera frame is queued and some
    of the skip budget is left. *)
Definition skips_frame (w : t) : bool :=
  frames_empty (cam w) && (0 <? skip_frame_count w)%Z.

(** Wide or narrow cam dependent on speed. *)
Definition next_wide_cam_requested (s : UIState) (w : t) : bool :=
  let streams := available_streams (cam w) in
  let has_wide_cam := existsb (VisionStreamType_eqb VISION_STREAM_WIDE_ROAD) streams in
  if has_wide_cam && negb (wide_camera_disabled (scene s)) then
    let v_ego := getVEgo (carState (sm s)) in
    let r := if Qlt_bool v_ego 10 || (length streams =? 1)%nat then true
             else if Qlt_bool 15 v_ego then false
             else wide_cam_requested w in
    let r := r && getExperimentalMode (controlsState (sm s)) in
    (* for replay of old routes, never go to widecam *)
    r && calibration_wide_valid (scene s)
  else wide_cam_requested w.

(** The scene after the refresh of the world objects, and what is painted
    of them. *)
Definition paint_world_objects (s : UIState) (sc : UIScene) (w : t)
    : UIScene * list PaintOp * gmap Z Theme :=
  if worldObjectsVisible s then
    let model := modelV2 (sm s) in
    let radar_state := radarState (sm s) in
    let sc1 :=
      if (started_frame sc <? rcv_frame_modelV2 (sm s))%Z then
        let sc' := update_model E sc model (uiPlan (sm s)) in
        if (started_frame sc' <? rcv_frame_radarState (sm s))%Z
        then update_leads E sc' radar_state (getPosition model)
        else sc'
      else sc in
    let s1 := mkUIState sc1 (sm s) (UI.status s) (worldObjectsVisible s) in
    let '(lanes, cfg1) := drawLaneLines s1 w in
    let lead_one := getLeadOne radar_state in
    let lead_two := getLeadTwo radar_state in
    let leads :=
      if longitudinal_control sc1 then
        (if getStatus lead_one
         then [OpLead (drawLead w lead_one (nth 0 (lead_vertices (geometry sc1)) (0, 0)))]
         else [])
        ++ (if getStatus lead_two
               && Qlt_bool 3 (Qabs (getDRel lead_one - getDRel lead_two))
            then [OpLead (drawLead w lead_two (nth 1 (lead_vertices (geometry sc1)) (0, 0)))]
            else [])
      else [] in
    (sc1, OpLaneLines lanes :: leads, cfg1)
  else (sc, [], themeConfiguration w).

(** [AnnotatedCameraWidget::paintGL].  [start_draw_t] and [cur_draw_t] are
    the two readings of [millis_since_boot], at the start of the call and
    after the drawing.  The warning logged for a slow frame rate is not
    kept; the counter is decremented only when positive, which cannot
    wrap. *)
Definition paintGL (start_draw_t cur_draw_t : Q) (pw : PaintWorld) : PaintWorld :=
  let s := ui pw in
  let w := widget pw in
  let model := modelV2 (sm s) in
  (* draw camera frame *)
  if skips_frame w then
    (* skipping frame, not ready *)
    mkPaintWorld s
      (with_paint_members (cam w) (skip_frame_count w - 1)%Z
         (wide_cam_requested w) (prev_draw_t w) (fps_filter w)
         (themeConfiguration w) w)
      (globals pw) (stores pw) (outbox pw) (screen pw)
  else
    let skip1 := if frames_empty (cam w) then skip_frame_count w else 5%Z in
    let wide1 := next_wide_cam_requested s w in
    let stores1 :=
      mkStores (params (stores pw))
               (putBoolNonBlocking (paramsMemory (stores pw)) "WideCamera" wide1) in
    let requested :=
      if show_driver_camera (scene s) then VISION_STREAM_DRIVER
      else if wide1 then VISION_STREAM_WIDE_ROAD else VISION_STREAM_ROAD in
    let sc1 :=
      set_wide_cam
        (VisionStreamType_eqb (active_stream_type (cam w)) VISION_STREAM_WIDE_ROAD)
        (scene s) in
    let calib :=
      if calibration_valid sc1
      then (if wide_cam sc1 then view_from_wide_calib sc1 else view_from_calib sc1)
      else DEFAULT_CALIBRATION E in
    let cam1 :=
      mkCameraWidget (frames_empty (cam w)) (available_streams (cam w)) requested
        (active_stream_type (cam w)) calib (getFrameId model) in
    let frame := OpCameraFrame (active_stream_type (cam w)) calib (getFrameId model) in
    let '(sc3, overlay, cfg1) :=
      if negb (show_driver_camera sc1) then
        let '(sc2, objects, cfg1) := paint_world_objects s sc1 w in
        (* DMoji *)
        let '(sc3, dmoji) :=
          if negb (hideBottomIcons w)
             && (started_frame sc2 <? rcv_frame_driverStateV2 (sm s))%Z
             && negb (muteDM w)
          then (update_dmonitoring E sc2 (driverStateV2 (sm s)) (dm_fade_state w)
                  (rightHandDM w),
                [OpDriverState])
          else (sc2, []) in
        (sc3, objects ++ dmoji ++ [OpHud (drawHud (globals pw) w)], cfg1)
      else (sc1, [], themeConfiguration w) in
    let dt := cur_draw_t - prev_draw_t w in
    let fps1 := fps_filter_update E (fps_filter w) (1 / dt * 1000) in
    let g1 := mkGlobals (reverseCruiseIncrease (globals pw)) (speedHidden (globals pw))
                (displaySLCOffset (globals pw)) fps1 in
    (* publish debug msg *)
    let msg := mkUiDebug (cur_draw_t - start_draw_t) in
    mkPaintWorld
      (mkUIState sc3 (sm s) (UI.status s) (worldObjectsVisible s))
      (with_paint_members cam1 skip1 wide1 cur_draw_t fps1 cfg1 w)
      g1 stores1
      (outbox pw ++ [("uiDebug"%string, msg)])
      (screen pw ++ frame :: overlay).

End WithExtern.

End AnnotatedCameraWidget.

(** ** Concrete states used to exercise the definitions *)

Module Examples.

Definition stores_empty : Stores := mkStores ∅ ∅.

(** A button showing the profile 1 (standard). *)
Definition button_standard : PersonalityButton.t := PersonalityButton.mk 1 0.

Local Open Scope Q_scope.

(** The conversion factors, the scaling helper and stand-ins for the
    helpers of ui.cc: each stores what it is given in the cached geometry. *)
Definition extern : Extern :=
  {| MS_TO_KPH := 36 # 10;
     MS_TO_MPH := 2236936 # 1000000;
     KM_TO_MILE := 621371 # 1000000;
     update_model := fun sc model _ =>
       set_geometry
         (mkSceneGeometry (lane_line_vertices (geometry sc))
            (road_edge_vertices (geometry sc)) (getPosition model)
            (track_edge_vertices (geometry sc)) (lead_vertices (geometry sc))
            (face_kpts_draw (geometry sc))) sc;
     update_leads := fun sc _ position =>
       set_geometry
         (mkSceneGeometry (lane_line_vertices (geometry sc))
            (road_edge_vertices (geometry sc)) (track_vertices (geometry sc))
            (track_edge_vertices (geometry sc)) (firstn 2 position)
            (face_kpts_draw (geometry sc))) sc;
     update_dmonitoring := fun sc _ _ _ =>
       set_geometry
         (mkSceneGeometry (lane_line_vertices (geometry sc))
            (road_edge_vertices (geometry sc)) (track_vertices (geometry sc))
            (track_edge_vertices (geometry sc)) (lead_vertices (geometry sc))
            [(0, 0, 8)]) sc;
     fps_filter_update := fun x v => (19 # 20) * x + (1 # 20) * v;
     map_val := fun x a1 a2 b1 b2 =>
       (clamp x a1 a2 - a1) * (b2 - b1) / (a2 - a1) + b1;
     DEFAULT_CALIBRATION := [1; 0; 0; 0; 1; 0; 0; 0; 1] |}.

Definition controls_cruising : ControlsState := mkControlsState 0 100 NONE true true true.
Definition car_moving : CarState := mkCarState 0 20 0.
Definition car_slow : CarState := mkCarState 0 5 0.
Definition lead_none : LeadData := mkLeadData false 0 0 0.
Definition lead_near : LeadData := mkLeadData true 10 (-5) 15.

(** No service is alive; the last messages still carry a cruise speed and a
    vehicle speed. *)
Definition sm_stale : SubMaster :=
  {|
     alive_controlsState := false;
     alive_navInstruction := false;
     valid_navInstruction := false;
     rcv_frame_modelV2 := 0%Z;
     rcv_frame_radarState := 0%Z;
     rcv_frame_driverStateV2 := 0%Z;
     controlsState := controls_cruising;
     carState := car_moving;
     navInstruction := mkNavInstruction 0 MUTCD;
     driverMonitoringState := mkDriverMonitoringState false false;
     radarState := mkRadarState lead_none lead_none;
     modelV2 := mkModelDataV2 7 [(100, 500); (120, 400); (900, 400); (920, 500)];
     uiPlan := mkUiPlan [1; 1];
     driverStateV2 := mkDriverStateV2 [] |}.

(** Everything is alive; the car is slow, experimental mode is on and the
    navigation reports a Vienna-style sign. *)
Definition sm_vienna : SubMaster :=
  {|
     alive_controlsState := true;
     alive_navInstruction := true;
     valid_navInstruction := true;
     rcv_frame_modelV2 := 12%Z;
     rcv_frame_radarState := 12%Z;
     rcv_frame_driverStateV2 := 12%Z;
     controlsState := controls_cruising;
     carState := car_slow;
     navInstruction := mkNavInstruction 25 VIENNA;
     driverMonitoringState := mkDriverMonitoringState false false;
     radarState := mkRadarState lead_near lead_none;
     modelV2 := mkModelDataV2 7 [(100, 500); (120, 400); (900, 400); (920, 500)];
     uiPlan := mkUiPlan [1; 1];
     driverStateV2 := mkDriverStateV2 [] |}.

(** An imperial scene with no FrogPilot toggle set. *)
Definition scene_plain : UIScene :=
  {|
     started := true;
     started_frame := 10%Z;
     is_metric := false;
     map_on_left := false;
     display_fps := false;
     show_driver_camera := false;
     navigate_on_openpilot := false;
     longitudinal_control := true;
     wide_cam := false;
     wide_camera_disabled := false;
     calibration_valid := true;
     calibration_wide_valid := true;
     view_from_calib := [];
     view_from_wide_calib := [];
     geometry := mkSceneGeometry [] [] [] [] [] [];
     acceleration_path := false;
     adjacent_path := false;
     always_on_lateral := false;
     always_on_lateral_active := false;
     bearing_deg := 0%Q;
     blind_spot_left := false;
     blind_spot_right := false;
     compass := false;
     conditional_experimental := false;
     conditional_speed := 0%Z;
     conditional_speed_lead := 0%Z;
     conditional_status := 0%Z;
     custom_colors := 0%Z;
     custom_road_ui := false;
     custom_signals := 0%Z;
     desired_follow := 0%Q;
     experimental_mode := false;
     experimental_mode_via_wheel := false;
     lane_width_left := 0%Q;
     lane_width_right := 0%Q;
     lead_info := false;
     map_open := false;
     mute_dm := false;
     obstacle_distance := 0%Q;
     obstacle_distance_stock := 0%Q;
     personalities_via_screen := false;
     road_name_ui := false;
     rotating_wheel := false;
     slc_overridden := false;
     speed_limit := 0%Q;
     speed_limit_offset := 0%Q;
     steering_angle_deg := 0%Z;
     steering_wheel := 0%Z;
     stopped_equivalence := 0%Q;
     stopped_equivalence_stock := 0%Q;
     turn_signal_left := false;
     turn_signal_right := false;
     vtsc_offset := 0%Q |}.

(** The same scene with a speed limit from the speed-limit controller. *)
Definition scene_slc : UIScene :=
  {|
     started := true;
     started_frame := 10%Z;
     is_metric := false;
     map_on_left := false;
     display_fps := false;
     show_driver_camera := false;
     navigate_on_openpilot := false;
     longitudinal_control := true;
     wide_cam := false;
     wide_camera_disabled := false;
     calibration_valid := true;
     calibration_wide_valid := true;
     view_from_calib := [];
     view_from_wide_calib := [];
     geometry := mkSceneGeometry [] [] [] [] [] [];
     acceleration_path := false;
     adjacent_path := false;
     always_on_lateral := false;
     always_on_lateral_active := false;
     bearing_deg := 0%Q;
     blind_spot_left := false;
     blind_spot_right := false;
     compass := false;
     conditional_experimental := false;
     conditional_speed := 0%Z;
     conditional_speed_lead := 0%Z;
     conditional_status := 0%Z;
     custom_colors := 0%Z;
     custom_road_ui := false;
     custom_signals := 0%Z;
     desired_follow := 0%Q;
     experimental_mode := false;
     experimental_mode_via_wheel := false;
     lane_width_left := 0%Q;
     lane_width_right := 0%Q;
     lead_info := false;
     map_open := false;
     mute_dm := false;
     obstacle_distance := 0%Q;
     obstacle_distance_stock := 0%Q;
     personalities_via_screen := false;
     road_name_ui := false;
     rotating_wheel := false;
     slc_overridden := false;
     speed_limit := 25;
     speed_limit_offset := 0%Q;
     steering_angle_deg := 0%Z;
     steering_wheel := 0%Z;
     stopped_equivalence := 0%Q;
     stopped_equivalence_stock := 0%Q;
     turn_signal_left := false;
     turn_signal_right := false;
     vtsc_offset := 0%Q |}.

(** A custom theme with experimental mode. *)
Definition scene_themed : UIScene :=
  {|
     started := true;
     started_frame := 10%Z;
     is_metric := false;
     map_on_left := false;
     display_fps := false;
     show_driver_camera := false;
     navigate_on_openpilot := false;
     longitudinal_control := true;
     wide_cam := false;
     wide_camera_disabled := false;
     calibration_valid := true;
     calibration_wide_valid := true;
     view_from_calib := [];
     view_from_wide_calib := [];
     geometry := mkSceneGeometry [] [] [(100, 500); (120, 400); (900, 400); (920, 500)] [] [] [];
     acceleration_path := false;
     adjacent_path := false;
     always_on_lateral := false;
     always_on_lateral_active := false;
     bearing_deg := 0%Q;
     blind_spot_left := false;
     blind_spot_right := false;
     compass := false;
     conditional_experimental := false;
     conditional_speed := 0%Z;
     conditional_speed_lead := 0%Z;
     conditional_status := 0%Z;
     custom_colors := 1%Z;
     custom_road_ui := false;
     custom_signals := 0%Z;
     desired_follow := 0%Q;
     experimental_mode := true;
     experimental_mode_via_wheel := false;
     lane_width_left := 0%Q;
     lane_width_right := 0%Q;
     lead_info := false;
     map_open := false;
     mute_dm := false;
     obstacle_distance := 0%Q;
     obstacle_distance_stock := 0%Q;
     personalities_via_screen := false;
     road_name_ui := false;
     rotating_wheel := false;
     slc_overridden := false;
     speed_limit := 0%Q;
     speed_limit_offset := 0%Q;
     steering_angle_deg := 0%Z;
     steering_wheel := 0%Z;
     stopped_equivalence := 0%Q;
     stopped_equivalence_stock := 0%Q;
     turn_signal_left := false;
     turn_signal_right := false;
     vtsc_offset := 0%Q |}.

(** The conditional experimental mode is overridden (status 1) while
    experimental mode is on; no custom theme. *)
Definition scene_conditional : UIScene :=
  {|
     started := true;
     started_frame := 10%Z;
     is_metric := false;
     map_on_left := false;
     display_fps := false;
     show_driver_camera := false;
     navigate_on_openpilot := false;
     longitudinal_control := true;
     wide_cam := false;
     wide_camera_disabled := false;
     calibration_valid := true;
     calibration_wide_valid := true;
     view_from_calib := [];
     view_from_wide_calib := [];
     geometry := mkSceneGeometry [] [] [(100, 500); (120, 400); (900, 400); (920, 500)] [] [] [];
     acceleration_path := false;
     adjacent_path := false;
     always_on_lateral := false;
     always_on_lateral_active := false;
     bearing_deg := 0%Q;
     blind_spot_left := false;
     blind_spot_right := false;
     compass := false;
     conditional_experimental := false;
     conditional_speed := 0%Z;
     conditional_speed_lead := 0%Z;
     conditional_status := 1%Z;
     custom_colors := 0%Z;
     custom_road_ui := false;
     custom_signals := 0%Z;
     desired_follow := 0%Q;
     experimental_mode := true;
     experimental_mode_via_wheel := false;
     lane_width_left := 0%Q;
     lane_width_right := 0%Q;
     lead_info := false;
     map_open := false;
     mute_dm := false;
     obstacle_distance := 0%Q;
     obstacle_distance_stock := 0%Q;
     personalities_via_screen := false;
     road_name_ui := false;
     rotating_wheel := false;
     slc_overridden := false;
     speed_limit := 0%Q;
     speed_limit_offset := 0%Q;
     steering_angle_deg := 0%Z;
     steering_wheel := 0%Z;
     stopped_equivalence := 0%Q;
     stopped_equivalence_stock := 0%Q;
     turn_signal_left := false;
     turn_signal_right := false;
     vtsc_offset := 0%Q |}.

Definition ui_stale : UIState := mkUIState scene_plain sm_stale STATUS_DISENGAGED false.
Definition ui_vienna : UIState := mkUIState scene_slc sm_vienna STATUS_ENGAGED true.
Definition ui_themed : UIState := mkUIState scene_themed sm_vienna STATUS_ENGAGED true.
Definition ui_conditional : UIState :=
  mkUIState scene_conditional sm_vienna STATUS_ENGAGED true.

Definition globals0 : Globals := mkGlobals false false false 0.

(** The widget as its constructor leaves it, 2160 by 1080, with a camera
    frame queued and the wide camera active. *)
Definition widget0 : AnnotatedCameraWidget.t :=
  {|
     AnnotatedCameraWidget.width := 2160%Z;
     AnnotatedCameraWidget.height := 1080%Z;
     AnnotatedCameraWidget.cam := AnnotatedCameraWidget.mkCameraWidget false [VISION_STREAM_ROAD; VISION_STREAM_WIDE_ROAD] VISION_STREAM_ROAD VISION_STREAM_WIDE_ROAD [] 0;
     AnnotatedCameraWidget.skip_frame_count := 0%Z;
     AnnotatedCameraWidget.wide_cam_requested := false;
     AnnotatedCameraWidget.prev_draw_t := 1000;
     AnnotatedCameraWidget.fps_filter := 20;
     AnnotatedCameraWidget.setSpeed := 0%Q;
     AnnotatedCameraWidget.is_cruise_set := false;
     AnnotatedCameraWidget.speed := 0%Q;
     AnnotatedCameraWidget.speedLimit := 0%Q;
     AnnotatedCameraWidget.has_us_speed_limit := false;
     AnnotatedCameraWidget.has_eu_speed_limit := false;
     AnnotatedCameraWidget.is_metric := false;
     AnnotatedCameraWidget.speedUnit := ""%string;
     AnnotatedCameraWidget.hideBottomIcons := false;
     AnnotatedCameraWidget.status := STATUS_DISENGAGED;
     AnnotatedCameraWidget.v_ego_cluster_seen := false;
     AnnotatedCameraWidget.dmActive := false;
     AnnotatedCameraWidget.rightHandDM := false;
     AnnotatedCameraWidget.dm_fade_state := 0%Q;
     AnnotatedCameraWidget.experimental_btn := AnnotatedCameraWidget.mkExperimentalButton false false false false 0 0 0;
     AnnotatedCameraWidget.map_settings_btn := AnnotatedCameraWidget.mkMapSettingsButton false false;
     AnnotatedCameraWidget.map_settings_btn_left := false;
     AnnotatedCameraWidget.personality_btn_right := false;
     AnnotatedCameraWidget.personality_btn_visible := false;
     AnnotatedCameraWidget.accelerationPath := false;
     AnnotatedCameraWidget.adjacentPath := false;
     AnnotatedCameraWidget.alwaysOnLateral := false;
     AnnotatedCameraWidget.bearingDeg := 0%Q;
     AnnotatedCameraWidget.blindSpotLeft := false;
     AnnotatedCameraWidget.blindSpotRight := false;
     AnnotatedCameraWidget.compass := false;
     AnnotatedCameraWidget.conditionalExperimental := false;
     AnnotatedCameraWidget.conditionalSpeed := 0%Z;
     AnnotatedCameraWidget.conditionalSpeedLead := 0%Z;
     AnnotatedCameraWidget.conditionalStatus := 0%Z;
     AnnotatedCameraWidget.customColors := 0%Z;
     AnnotatedCameraWidget.customRoadUI := false;
     AnnotatedCameraWidget.customSignals := 0%Z;
     AnnotatedCameraWidget.desiredFollow := 0%Q;
     AnnotatedCameraWidget.experimentalMode := false;
     AnnotatedCameraWidget.laneWidthLeft := 0%Q;
     AnnotatedCameraWidget.laneWidthRight := 0%Q;
     AnnotatedCameraWidget.leadInfo := false;
     AnnotatedCameraWidget.mapOpen := false;
     AnnotatedCameraWidget.muteDM := false;
     AnnotatedCameraWidget.obstacleDistance := 0%Q;
     AnnotatedCameraWidget.obstacleDistanceStock := 0%Q;
     AnnotatedCameraWidget.onroadAdjustableProfiles := false;
     AnnotatedCameraWidget.roadNameUI := false;
     AnnotatedCameraWidget.slcOverridden := false;
     AnnotatedCameraWidget.slcSpeedLimit := 0%Q;
     AnnotatedCameraWidget.slcSpeedLimitOffset := 0%Q;
     AnnotatedCameraWidget.stoppedEquivalence := 0%Q;
     AnnotatedCameraWidget.stoppedEquivalenceStock := 0%Q;
     AnnotatedCameraWidget.turnSignalLeft := false;
     AnnotatedCameraWidget.turnSignalRight := false;
     AnnotatedCameraWidget.vtscOffset := 0%Q;
     AnnotatedCameraWidget.themeConfiguration := themeConfiguration0;
     AnnotatedCameraWidget.theme_path := "../assets/custom_themes/stock_theme/images"%string;
     AnnotatedCameraWidget.signalImgVector := TurnSignal.signalImgVector "../assets/custom_themes/stock_theme/images";
     AnnotatedCameraWidget.animationFrameIndex := 0%Z |}.

(** The same widget with no camera frame queued and two skips left. *)
Definition widget_waiting : AnnotatedCameraWidget.t :=
  {|
     AnnotatedCameraWidget.width := 2160%Z;
     AnnotatedCameraWidget.height := 1080%Z;
     AnnotatedCameraWidget.cam := AnnotatedCameraWidget.mkCameraWidget true [VISION_STREAM_ROAD; VISION_STREAM_WIDE_ROAD] VISION_STREAM_ROAD VISION_STREAM_WIDE_ROAD [] 0;
     AnnotatedCameraWidget.skip_frame_count := 2%Z;
     AnnotatedCameraWidget.wide_cam_requested := false;
     AnnotatedCameraWidget.prev_draw_t := 1000;
     AnnotatedCameraWidget.fps_filter := 20;
     AnnotatedCameraWidget.setSpeed := 0%Q;
     AnnotatedCameraWidget.is_cruise_set := false;
     AnnotatedCameraWidget.speed := 0%Q;
     AnnotatedCameraWidget.speedLimit := 0%Q;
     AnnotatedCameraWidget.has_us_speed_limit := false;
     AnnotatedCameraWidget.has_eu_speed_limit := false;
     AnnotatedCameraWidget.is_metric := false;
     AnnotatedCameraWidget.speedUnit := ""%string;
     AnnotatedCameraWidget.hideBottomIcons := false;
     AnnotatedCameraWidget.status := STATUS_DISENGAGED;
     AnnotatedCameraWidget.v_ego_cluster_seen := false;
     AnnotatedCameraWidget.dmActive := false;
     AnnotatedCameraWidget.rightHandDM := false;
     AnnotatedCameraWidget.dm_fade_state := 0%Q;
     AnnotatedCameraWidget.experimental_btn := AnnotatedCameraWidget.mkExperimentalButton false false false false 0 0 0;
     AnnotatedCameraWidget.map_settings_btn := AnnotatedCameraWidget.mkMapSettingsButton false false;
     AnnotatedCameraWidget.map_settings_btn_left := false;
     AnnotatedCameraWidget.personality_btn_right := false;
     AnnotatedCameraWidget.personality_btn_visible := false;
     AnnotatedCameraWidget.accelerationPath := false;
     AnnotatedCameraWidget.adjacentPath := false;
     AnnotatedCameraWidget.alwaysOnLateral := false;
     AnnotatedCameraWidget.bearingDeg := 0%Q;
     AnnotatedCameraWidget.blindSpotLeft := false;
     AnnotatedCameraWidget.blindSpotRight := false;
     AnnotatedCameraWidget.compass := false;
     AnnotatedCameraWidget.conditionalExperimental := false;
     AnnotatedCameraWidget.conditionalSpeed := 0%Z;
     AnnotatedCameraWidget.conditionalSpeedLead := 0%Z;
     AnnotatedCameraWidget.conditionalStatus := 0%Z;
     AnnotatedCameraWidget.customColors := 0%Z;
     AnnotatedCameraWidget.customRoadUI := false;
     AnnotatedCameraWidget.customSignals := 0%Z;
     AnnotatedCameraWidget.desiredFollow := 0%Q;
     AnnotatedCameraWidget.experimentalMode := false;
     AnnotatedCameraWidget.laneWidthLeft := 0%Q;
     AnnotatedCameraWidget.laneWidthRight := 0%Q;
     AnnotatedCameraWidget.leadInfo := false;
     AnnotatedCameraWidget.mapOpen := false;
     AnnotatedCameraWidget.muteDM := false;
     AnnotatedCameraWidget.obstacleDistance := 0%Q;
     AnnotatedCameraWidget.obstacleDistanceStock := 0%Q;
     AnnotatedCameraWidget.onroadAdjustableProfiles := false;
     AnnotatedCameraWidget.roadNameUI := false;
     AnnotatedCameraWidget.slcOverridden := false;
     AnnotatedCameraWidget.slcSpeedLimit := 0%Q;
     AnnotatedCameraWidget.slcSpeedLimitOffset := 0%Q;
     AnnotatedCameraWidget.stoppedEquivalence := 0%Q;
     AnnotatedCameraWidget.stoppedEquivalenceStock := 0%Q;
     AnnotatedCameraWidget.turnSignalLeft := false;
     AnnotatedCameraWidget.turnSignalRight := false;
     AnnotatedCameraWidget.vtscOffset := 0%Q;
     AnnotatedCameraWidget.themeConfiguration := themeConfiguration0;
     AnnotatedCameraWidget.theme_path := "../assets/custom_themes/stock_theme/images"%string;
     AnnotatedCameraWidget.signalImgVector := TurnSignal.signalImgVector "../assets/custom_themes/stock_theme/images";
     AnnotatedCameraWidget.animationFrameIndex := 0%Z |}.

(** An on-road window 400 wide, in which the max-speed and the speed
    rectangles overlap. *)
Definition window_narrow : OnroadWindow.t :=
  OnroadWindow.mk (mkQRect 0 0 400 1080) 0 false (mkQPoint 420 69) None.

Definition world_narrow : OnroadWindow.World :=
  OnroadWindow.mkWorld window_narrow globals0 stores_empty [].

(** The widgets after [updateState] has read the themed and the
    conditional scene. *)
Definition widget_themed : AnnotatedCameraWidget.t :=
  AnnotatedCameraWidget.updateState extern globals0 ui_themed widget0.

Definition widget_conditional : AnnotatedCameraWidget.t :=
  AnnotatedCameraWidget.updateState extern globals0 ui_conditional widget0.

Definition paint_world0 : AnnotatedCameraWidget.PaintWorld :=
  AnnotatedCameraWidget.mkPaintWorld ui_vienna widget0 globals0 stores_empty [] [].

Definition paint_world_waiting : AnnotatedCameraWidget.PaintWorld :=
  AnnotatedCameraWidget.mkPaintWorld ui_vienna widget_waiting globals0 stores_empty [] [].

End Examples.

(** ** OnroadWindow: state update, single and double clicks, the map panel *)

Module OnroadWindowMore.

Import OnroadWindow.

(** The alert of ui.h, as far as this file reads it. *)
Inductive AlertStatus : Type := NORMAL | USER_PROMPT | CRITICAL.

Record Alert : Type := mkAlert {
  text1 : string;
  text2 : string;
  size : AlertSize;
  alert_status : AlertStatus
}.

(** [Alert{}], the alert that shows nothing. *)
Definition no_alert : Alert := mkAlert "" "" NONE NORMAL.

(** What the window takes from outside this file: from ui.h the border
    colour of a status, the alert of a snapshot and the comparison of two
    alerts; and the sum of two [double]s and the quotient of a [double] by
    an [int], which round.  Nothing is assumed of the rounding. *)
Record WindowExtern : Type := mkWindowExtern {
  bg_colors : UIStatus -> QColor;
  Alert_get : SubMaster -> Z -> Alert;
  Alert_equal : Alert -> Alert -> bool;
  double_add : Q -> Q -> Q;
  double_div : Q -> Z -> Q
}.

(** [OnroadAlerts]: the alert on display and the repaints asked for. *)
Record OnroadAlerts : Type := mkOnroadAlerts {
  alert : Alert;
  alert_updates : nat
}.

(** [OnroadAlerts::updateAlert]. *)
Definition updateAlert (X : WindowExtern) (a : Alert) (o : OnroadAlerts) : OnroadAlerts :=
  if negb (Alert_equal X (alert o) a) then mkOnroadAlerts a (S (alert_updates o)) else o.

(** The frame-rate statistics of the window.  [lastResetTime] is the
    function-local static, unset until the first pass over its
    declaration; [frameCount], declared in onroad.h, is taken to be an
    [int]. *)
Record FpsStats : Type := mkFpsStats {
  displayFPS : bool;
  minFPS : Q;
  maxFPS : Q;
  avgFPS : Q;
  totalFPS : Q;
  frameCount : Z;
  lastResetTime : option Z
}.

(** The [double]s written 0.1 and 99.9, as the fractions they are. *)
Definition minAllowedFPS : Q := 3602879701896397 # 36028797018963968.
Definition maxAllowedFPS : Q := 3514918771674317 # 35184372088832.
Definition oneMinuteInMilliseconds : Z := 60000.

(** The block "Calculate FPS" at the clock reading [now]: the statistics
    and the file-scope [fps] it leaves.  A [double] is kept as the fraction
    it is; comparisons are exact, the sum and the quotient are those of
    [X]. *)
Definition calculate_fps (X : WindowExtern) (now : Z) (fps : Q) (st : FpsStats)
    : FpsStats * Q :=
  (* Store the last reset time *)
  let last := match lastResetTime st with Some t => t | None => now end in
  (* Reset the counter if it's been 60 seconds *)
  let st1 :=
    if oneMinuteInMilliseconds <=? now - last
    then mkFpsStats (displayFPS st) maxAllowedFPS minAllowedFPS 0 0 0 (Some now)
    else mkFpsStats (displayFPS st) (minFPS st) (maxFPS st) (avgFPS st)
           (totalFPS st) (frameCount st) (Some last) in
  (* Update the FPS variables *)
  let fps1 := qBound minAllowedFPS fps maxAllowedFPS in
  let minFPS1 := qMin (minFPS st1) fps1 in
  let maxFPS1 := qMax (maxFPS st1) fps1 in
  let frameCount1 := int_wrap (frameCount st1 + 1) in
  let totalFPS1 := double_add X (totalFPS st1) fps1 in
  let avgFPS1 := double_div X totalFPS1 frameCount1 in
  (mkFpsStats (displayFPS st) minFPS1 maxFPS1 avgFPS1 totalFPS1 frameCount1
     (lastResetTime st1),
   fps1).

(** A reset is due at [now]; none is due on the first pass, which sets
    [lastResetTime] to [now], nor within a minute of the last one. *)
Definition reset_due (now : Z) (st : FpsStats) : Prop :=
  exists t, lastResetTime st = Some t /\ oneMinuteInMilliseconds <= now - t.

Definition no_reset_due (now : Z) (st : FpsStats) : Prop :=
  forall t, lastResetTime st = Some t -> now - t < oneMinuteInMilliseconds.

(** The window with its children. *)
Record Window : Type := mkWindow {
  win : OnroadWindow.t;
  alerts : OnroadAlerts;
  nvg : AnnotatedCameraWidget.t;
  bg : QColor;
  split_left_to_right : bool;   (* direction of the split layout *)
  border_updates : nat;         (* calls of update() so far *)
  stats : FpsStats
}.

(** [OnroadWindow::updateState] at the clock reading [now]. *)
Definition updateState (X : WindowExtern) (E : Extern) (now : Z) (s : UIState)
    (st : Window * Globals) : Window * Globals :=
  let '(w, g) := st in
  if negb (started (scene s)) then (w, g)
  else
    let bgColor := bg_colors X (UI.status s) in
    let a := Alert_get X (sm s) (started_frame (scene s)) in
    let alerts1 := updateAlert X a (alerts w) in
    let nvg1 := AnnotatedCameraWidget.updateState E g s (nvg w) in
    let repaint := negb (QColor_eqb (bg w) bgColor) in
    (* FrogPilot variables *)
    let shown := display_fps (scene s) in
    let stats0 := mkFpsStats shown (minFPS (stats w)) (maxFPS (stats w))
                    (avgFPS (stats w)) (totalFPS (stats w)) (frameCount (stats w))
                    (lastResetTime (stats w)) in
    let '(stats1, fps1) :=
      if shown then calculate_fps X now (fps g) stats0 else (stats0, fps g) in
    (mkWindow (win w) alerts1 nvg1 (if repaint then bgColor else bg w)
       (map_on_left (scene s))
       (border_updates w + (if repaint then 1 else 0) + (if shown then 1 else 0))%nat
       stats1,
     mkGlobals (reverseCruiseIncrease g) (speedHidden g) (displaySLCOffset g) fps1).

(** The slot of [clickTimer]: the timer is stopped and a press at
    [timeoutPoint] is posted to the window, which handles it next. *)
Definition clickTimer_timeout (sc : UIScene) (w : World) : World :=
  let w := emit TimerStop (set_timer false w) in
  mousePressEvent sc (timeoutPoint (window w)) w.

(** The calls a handler has added to those made before. *)
Definition new_effects (before after : World) : list Effect :=
  skipn (length (effects before)) (effects after).

(** The point lies in none of the three clickable rectangles. *)
Definition outside_rects (win : OnroadWindow.t) (pos : QPoint) : bool :=
  negb (contains maxSpeedRect pos || contains (speedRect win) pos
        || contains speedLimitRect pos).

(** The map panel and the button that opens its settings. *)
Record MapState : Type := mkMapState {
  map_panel : option MapPanel;
  settings_btn : AnnotatedCameraWidget.MapSettingsButton
}.

(** [OnroadWindow::offroadTransition], as far as the map is concerned;
    [enable_maps] tells whether ENABLE_MAPS is defined, [hasPrime] is
    [uiState()->hasPrime()] and [token] is MAPBOX_TOKEN.  The alert is
    cleared in every case. *)
Definition offroadTransition (X : WindowExtern) (enable_maps hasPrime : bool)
    (token : string) (offroad : bool) (st : MapState * OnroadAlerts)
    : MapState * OnroadAlerts :=
  let '(m, o) := st in
  let m1 :=
    if enable_maps && negb offroad then
      match map_panel m with
      | None =>
          if hasPrime || negb (String.eqb token "") then
            (* hidden by default, made visible when navRoute is published *)
            mkMapState (Some (mkMapPanel false))
              (AnnotatedCameraWidget.mkMapSettingsButton true
                 (AnnotatedCameraWidget.btn_visible (settings_btn m)))
          else m
      | Some _ => m
      end
    else m in
  (m1, updateAlert X no_alert o).

(** [OnroadWindow::primeChanged]. *)
Definition primeChanged (enable_maps : bool) (token : string) (prime : bool)
    (m : MapState) : MapState :=
  if enable_maps then
    match map_panel m with
    | Some _ =>
        if negb prime && String.eqb token ""
        then mkMapState None (AnnotatedCameraWidget.mkMapSettingsButton false false)
        else m
    | None => m
    end
  else m.

End OnroadWindowMore.

(** ** ExperimentalButton: changing the mode, painting the wheel *)

Module ExperimentalButtonMore.

(** [ExperimentalButton::changeMode]; [hasLongitudinalControl] is the
    result of the helper of that name on the car parameters. *)
Definition changeMode (hasLongitudinalControl : bool) (sc : UIScene) (ps : Stores)
    : Stores :=
  let can_change := hasLongitudinalControl
                    && getBool (params ps) "ExperimentalModeConfirmed" in
  if can_change then
    if conditional_experimental sc then
      mkStores (params ps)
        (putIntNonBlocking (paramsMemory ps) "ConditionalStatus"
           (OnroadWindow.override_value (conditional_status sc)))
    else
      let experimentalMode := getBool (params ps) "ExperimentalMode" in
      mkStores (putBoolNonBlocking (params ps) "ExperimentalMode" (negb experimentalMode))
        (paramsMemory ps)
  else ps.

(** The images of the button: the file each was loaded from; [None] is
    the null pixmap of a key that [wheelImages] does not hold. *)
Definition engage_img0 : string := "../assets/img_chffr_wheel.png".
Definition experimental_img : string := "../assets/img_experimental.svg".

Definition wheelImages : gmap Z string :=
  <[0 := "../assets/img_chffr_wheel.png"%string]>
  (<[1 := "../assets/lexus.png"%string]>
  (<[2 := "../assets/toyota.png"%string]>
  (<[3 := "../assets/frog.png"%string]>
  (<[4 := "../assets/rocket.png"%string]>
  (<[5 := "../assets/hyundai.png"%string]>
  (<[6 := "../assets/stalin.png"%string]> ∅)))))).

(** What [drawIcon] or [drawIconRotate] is called with. *)
Record IconPaint : Type := mkIconPaint {
  icon_center : QPoint;
  icon_img : option string;
  icon_bg : QColor;
  icon_opacity : Q;
  icon_angle : option Z      (* the rotation, for drawIconRotate *)
}.

(** [ExperimentalButton::paintEvent]: the icon painted, if any.  [btn_size]
    is the constant of onroad.h and [isDown] the state of the push button. *)
Definition paintEvent (btn_size : Z) (isDown : bool) (sc : UIScene)
    (b : AnnotatedCameraWidget.ExperimentalButton) : option IconPaint :=
  let steeringWheel := AnnotatedCameraWidget.btn_steeringWheel b in
  let experimental_mode := AnnotatedCameraWidget.btn_experimental_mode b in
  let engageable := AnnotatedCameraWidget.btn_engageable b in
  (* Custom steering wheel icon *)
  let engage_img := wheelImages !! steeringWheel in
  let img := if negb (steeringWheel =? 0) then engage_img
             else if experimental_mode then Some experimental_img else engage_img in
  let background_color :=
    if negb (steeringWheel =? 0) && negb isDown && engageable then
      if always_on_lateral_active sc then Rgba 10 186 181 255
      else if conditional_status sc =? 1 then Rgba 255 246 0 255
      else if experimental_mode then Rgba 218 111 37 241
      else if navigate_on_openpilot sc then Rgba 49 161 238 255
      else Rgba 0 0 0 166
    else Rgba 0 0 0 166 in
  if negb (show_driver_camera sc) then
    Some (mkIconPaint
            (mkQPoint (c_div btn_size 2)
               (c_div btn_size 2
                + (if AnnotatedCameraWidget.btn_leadInfo b then 10 else 0)))
            img background_color
            (if isDown || negb engageable then 6 # 10 else 1)%Q
            (if AnnotatedCameraWidget.btn_rotatingWheel b
             then Some (AnnotatedCameraWidget.btn_steeringAngleDeg b) else None))
  else None.

End ExperimentalButtonMore.

(** ** OnroadAlerts: the banner of an alert *)

Module OnroadAlertsMore.

Import OnroadWindowMore.

(** A text painted by [drawText]: the font size, the rectangle and which of
    the two texts of the alert. *)
Record AlertText : Type := mkAlertText {
  font_size : Z;
  text_rect : QRect;
  second_text : bool
}.

Record AlertPaint : Type := mkAlertPaint {
  banner : QRect;
  banner_radius : Z;
  texts : list AlertText
}.

(** [alert_heights[size]]; the height of a full-size alert is the height
    the widget had when the static table was built. *)
Definition alert_height (full_height : Z) (size : AlertSize) : Z :=
  match size with
  | SMALL => 271
  | MID => 420
  | FULL => full_height
  | NONE => 0     (* operator[] inserts 0 for a size the table lacks *)
  end.

(** [OnroadAlerts::paintEvent] of a widget [width] by [height]:
    [full_height] is the static table's entry for FULL if the table was
    built by an earlier call.  The result is the entry after the call and
    what is painted. *)
Definition paintEvent (width height : Z) (sc : UIScene) (a : Alert)
    (full_height : option Z) : option Z * option AlertPaint :=
  match size a with
  | NONE => (full_height, None)
  | sz =>
      if show_driver_camera sc then (full_height, None)
      else
        let full := match full_height with Some h => h | None => height end in
        let h := alert_height full sz in
        let is_full := AlertSize_eqb sz FULL in
        let margin := if is_full then 0 else 40 in
        let radius := if is_full then 0 else 30 in
        let offset := if is_full then 0
                      else if always_on_lateral sc || conditional_experimental sc
                           then 25 else 0 in
        let r := mkQRect (0 + margin) (height - h + margin - offset)
                   (width - margin * 2) (h - margin * 2) in
        let c := center r in
        let l := 15 <? Z.of_nat (String.length (text1 a)) in
        (Some full,
         Some (mkAlertPaint r radius
                 match sz with
                 | SMALL => [mkAlertText 74 r false]
                 | MID => [mkAlertText 88 (mkQRect 0 (py c - 125) width 150) false;
                           mkAlertText 66 (mkQRect 0 (py c + 21) width 90) true]
                 | FULL =>
                     [mkAlertText (if l then 132 else 177)
                        (mkQRect 0 (y1 r + (if l then 240 else 270)) width 600) false;
                      mkAlertText 88
                        (mkQRect 0 ((y2 r - y1 r + 1) - (if l then 361 else 420)) width 300)
                        true]
                 | NONE => []
                 end))
  end.

End OnroadAlertsMore.

(** ** More of AnnotatedCameraWidget: compass, lead insights, lanes *)

Module HudMore.

Import AnnotatedCameraWidget.
Local Open Scope Q_scope.

(** *** drawCompass *)

(** The calls of [drawDirection]: the label and the bearings, from [from]
    up to but not including [to], at which it is pointed at. *)
Definition compass_directions : list (string * Z * Z) :=
  [ ("N"%string, 0, 68); ("E"%string, 23, 158); ("S"%string, 113, 248);
    ("W"%string, 203, 338); ("N"%string, 293, 360) ]%Z.

(** A direction label is being pointed at. *)
Definition pointed_at (bearingDeg : Q) (d : string * Z * Z) : bool :=
  Qle_bool (inject_Z (snd (fst d))) bearingDeg && Qlt_bool bearingDeg (inject_Z (snd d)).

(** The labels pointed at, in the order of the calls. *)
Definition highlighted (bearingDeg : Q) : list string :=
  List.map (fun d => fst (fst d)) (List.filter (pointed_at bearingDeg) compass_directions).

(** The angles of the loop [for (int i = 0; i < 360; i += 15)]. *)
Definition compass_angles : list Z := List.map (fun k => (15 * Z.of_nat k)%Z) (seq 0 24).

(** [drawCompassElements]: whether the number of an angle is bold. *)
Definition isBold (bearingDeg : Q) (angle : Z) : bool :=
  (Z.abs (angle - Qtruncate bearingDeg) <=? 7)%Z.

(** The angles whose number is painted bold. *)
Definition bold_angles (bearingDeg : Q) : list Z :=
  List.filter (isBold bearingDeg) compass_angles.

(** *** drawLeadInfo: the largest acceleration seen *)

(** The function-local statics; the timer is unset until its first
    start. *)
Record LeadInfoState : Type := mkLeadInfoState {
  accel_timer : option Z;
  isFiveSecondsPassed : bool;
  maxAcceleration : Q
}.

Definition maxAccelDuration : Z := 5000.

(** [aEgo] rounded to hundredths. *)
Definition currentAcceleration (aEgo : Q) : Q :=
  inject_Z (round_half_away (aEgo * 100)) / 100.

(** The update of the statics at the clock reading [now].
    [expired_unset] is what [hasExpired] answers on a timer that was never
    started. *)
Definition update_acceleration (expired_unset : bool) (now : Z) (aEgo : Q)
    (status : UIStatus) (st : LeadInfoState) : LeadInfoState :=
  let current := currentAcceleration aEgo in
  if Qlt_bool (maxAcceleration st) current && UIStatus_eqb status STATUS_ENGAGED
  then mkLeadInfoState (Some now) false current
  else mkLeadInfoState (accel_timer st)
         match accel_timer st with
         | Some t => (maxAccelDuration <? now - t)%Z
         | None => expired_unset
         end
         (maxAcceleration st).

(** The statics after a run of frames, each with its clock reading, its
    [aEgo] and the status of the widget. *)
Definition accel_run (expired_unset : bool) (frames : list (Z * Q * UIStatus))
    (st : LeadInfoState) : LeadInfoState :=
  fold_left (fun st f => update_acceleration expired_unset (fst (fst f)) (snd (fst f))
                           (snd f) st)
    frames st.

(** The colour of the readout of the maximum. *)
Definition max_readout_red (st : LeadInfoState) : bool := negb (isFiveSecondsPassed st).

(** *** drawLaneLines: brushes of the lane lines and adjacent lanes *)

Definition minLaneWidth : Q := 25 # 10.
Definition maxLaneWidth : Q := 3.

(** The hue [setGradientColors] gives an adjacent lane. *)
Definition lane_hue (laneWidth : Q) (blindspot : bool) : Q :=
  if Qlt_bool laneWidth minLaneWidth || blindspot then
    (* Make the path red for smaller paths or if there's a car in the blindspot *)
    0
  else if Qle_bool maxLaneWidth laneWidth then
    (* Make the path green for larger paths *)
    120
  else
    (* Transition the path from red to green based on lane width *)
    120 * (laneWidth - minLaneWidth) / (maxLaneWidth - minLaneWidth).

(** The gradient of an adjacent lane. *)
Definition lane_gradient (laneWidth : Q) (blindspot : bool) : Stops :=
  let hue := lane_hue laneWidth blindspot in
  setColorsAt (hsl_stops (hue / 360) (75 # 100) (50 # 100) (6 # 10) (4 # 10) (2 # 10)) [].

(** The hue and the saturation a colour was built from. *)
Definition hue_of (c : QColor) : Q :=
  match c with HslF h _ _ _ => h | _ => 0 end.
Definition saturation_of (c : QColor) : Q :=
  match c with HslF _ s _ _ => s | _ => 0 end.

(** The positions of the stops grow strictly and lie in \[0, 1\]. *)
Fixpoint stops_above (lo : Q) (stops : Stops) : Prop :=
  match stops with
  | [] => True
  | (p, _) :: rest => lo < p /\ p <= 1 /\ stops_above p rest
  end.

Definition stops_ordered (stops : Stops) : Prop :=
  match stops with
  | [] => True
  | (p, _) :: rest => 0 <= p /\ p <= 1 /\ stops_above p rest
  end.

(** *** paintGL: what one call has painted *)

Definition painted (E : Extern) (t0 t1 : Q) (pw : PaintWorld) : list PaintOp :=
  skipn (length (screen pw)) (screen (paintGL E t0 t1 pw)).

Definition is_lead (o : PaintOp) : bool :=
  match o with OpLead _ => true | _ => false end.
Definition is_driver_state (o : PaintOp) : bool :=
  match o with OpDriverState => true | _ => false end.
Definition is_hud (o : PaintOp) : bool :=
  match o with OpHud _ => true | _ => false end.

End HudMore.

(** ** PersonalityButton: the cross-fade of text and image *)

Module PersonalityButtonMore.

Import PersonalityButton.
Local Open Scope Q_scope.

Definition fadeDuration : Q := 1000.
Definition textDuration : Q := 3000.

(** The two opacities of [paintEvent], as (textOpacity, imageOpacity), for
    the reading [elapsed] of the transition timer. *)
Definition opacities (elapsed : Z) : Q * Q :=
  (qBound 0 (1 - ((inject_Z elapsed - textDuration) / fadeDuration)) 1,
   qBound 0 ((inject_Z elapsed - textDuration) / fadeDuration) 1).

Definition profile_data : list (string * string) :=
  [ ("../assets/aggressive.png", "Aggressive");
    ("../assets/standard.png", "Standard");
    ("../assets/relaxed.png", "Relaxed") ]%string.

Inductive ButtonOp : Type :=
| ProfileText (text : string) (opacity : Q)
| ProfileImage (image : string) (opacity : Q).

(** [PersonalityButton::paintEvent] at the clock reading [now]; [None]
    when [profile_data] is read out of range. *)
Definition paintEvent (now : Z) (b : PersonalityButton.t) : option (list ButtonOp) :=
  let elapsed := int_wrap (now - transitionTimer b) in
  let '(textOpacity, imageOpacity) := opacities elapsed in
  if (personalityProfile b <? 0)%Z then None
  else
    match nth_error profile_data (Z.to_nat (personalityProfile b)) with
    | None => None
    | Some (profile_image, profile_text) =>
        Some ((if Qlt_bool 0 textOpacity
               then [ProfileText profile_text textOpacity] else [])
              ++ (if Qlt_bool 0 imageOpacity
                  then [ProfileImage profile_image imageOpacity] else []))
    end.

End PersonalityButtonMore.

(** ** The map panel over the life of the window *)

Module MapLifecycle.

Import OnroadWindow OnroadWindowMore.

(** What the constructors leave: no panel, and the button hidden and
    disabled. *)
Definition constructed : MapState :=
  mkMapState None (AnnotatedCameraWidget.mkMapSettingsButton false false).

(** The button is enabled exactly while a map panel exists, and it is
    visible only when enabled. *)
Definition in_step (m : MapState) : Prop :=
  AnnotatedCameraWidget.btn_enabled (settings_btn m)
  = match map_panel m with Some _ => true | None => false end
  /\ (AnnotatedCameraWidget.btn_visible (settings_btn m) = true ->
      AnnotatedCameraWidget.btn_enabled (settings_btn m) = true).

Section Steps.

Variable X : WindowExtern.
Variable E : Extern.
Variable enable_maps : bool.
Variable token : string.

(** One call that touches the panel or its button: the two slots of the
    window, its [updateState] (through the camera widget) and a press. *)
Inductive step : MapState -> MapState -> Prop :=
| step_offroad (hasPrime offroad : bool) (o : OnroadAlerts) (m : MapState) :
    step m (fst (offroadTransition X enable_maps hasPrime token offroad (m, o)))
| step_prime (prime : bool) (m : MapState) :
    step m (primeChanged enable_maps token prime m)
| step_update (now : Z) (s : UIState) (w : Window) (g : Globals) (m : MapState) :
    AnnotatedCameraWidget.map_settings_btn (nvg w) = settings_btn m ->
    step m (mkMapState (map_panel m)
              (AnnotatedCameraWidget.map_settings_btn
                 (nvg (fst (updateState X E now s (w, g))))))
| step_press (sc : UIScene) (pos : QPoint) (w : World) (m : MapState) :
    map (window w) = map_panel m ->
    step m (mkMapState (map (window (mousePressEvent sc pos w))) (settings_btn m)).

(** Any number of such calls, one after the other. *)
Inductive run : MapState -> MapState -> Prop :=
| run_refl (m : MapState) : run m m
| run_step (m1 m2 m3 : MapState) : run m1 m2 -> step m2 m3 -> run m1 m3.

End Steps.

End MapLifecycle.

(** ** The points of the path that colour its fill *)

Module PathPoints.

Import AnnotatedCameraWidget.
Local Open Scope Q_scope.

(** [max_len], the number of points of the right side of the path that
    have an acceleration. *)
Definition max_len (s : UIState) : Z :=
  Z.min (c_div (Z.of_nat (length (track_vertices (geometry (scene s))))) 2)
        (Z.of_nat (length (getAccel (uiPlan (sm s))))).

(** [scene.track_vertices[i].y()] and [acceleration[i]]. *)
Definition point_y (s : UIState) (i : Z) : Q :=
  snd (nth (Z.to_nat i) (track_vertices (geometry (scene s))) (0, 0)).

Definition point_acc (s : UIState) (i : Z) : Q :=
  nth (Z.to_nat i) (getAccel (uiPlan (sm s))) 0.

(** The point is not skipped as out of frame. *)
Definition in_frame (w : t) (y : Q) : Prop := 0 <= y <= inject_Z (height w).

(** [lin_grad_point]: the height of the point, 0 at the bottom of the
    frame. *)
Definition lin_grad_point (w : t) (y : Q) : Q :=
  (inject_Z (height w) - y) / inject_Z (height w).

(** The point is one of the first [max_len] and in frame. *)
Definition colouring_point (s : UIState) (w : t) (i : Z) : Prop :=
  (0 <= i < max_len s)%Z /\ in_frame w (point_y s i).

End PathPoints.

(** ** More concrete states *)

Module Examples2.

(** The plain scene with a path of two points, read with the snapshot in
    which experimental mode is on. *)
Definition ui_accel : UIState :=
  mkUIState
    (UI.set_geometry (UI.mkSceneGeometry [] [] [(100, 540); (900, 540)]%Q [] [] [])
       Examples.scene_plain)
    Examples.sm_vienna STATUS_ENGAGED true.

(** The plain scene with the experimental mode switched by the wheel
    button or a double click. *)
Definition scene_wheel : UIScene :=
  {|
     started := true;
     started_frame := 10%Z;
     is_metric := false;
     map_on_left := false;
     display_fps := false;
     show_driver_camera := false;
     navigate_on_openpilot := false;
     longitudinal_control := true;
     wide_cam := false;
     wide_camera_disabled := false;
     calibration_valid := true;
     calibration_wide_valid := true;
     view_from_calib := [];
     view_from_wide_calib := [];
     geometry := mkSceneGeometry [] [] [] [] [] [];
     acceleration_path := false;
     adjacent_path := false;
     always_on_lateral := false;
     always_on_lateral_active := false;
     bearing_deg := 0%Q;
     blind_spot_left := false;
     blind_spot_right := false;
     compass := false;
     conditional_experimental := false;
     conditional_speed := 0%Z;
     conditional_speed_lead := 0%Z;
     conditional_status := 0%Z;
     custom_colors := 0%Z;
     custom_road_ui := false;
     custom_signals := 0%Z;
     desired_follow := 0%Q;
     experimental_mode := false;
     experimental_mode_via_wheel := true;
     lane_width_left := 0%Q;
     lane_width_right := 0%Q;
     lead_info := false;
     map_open := false;
     mute_dm := false;
     obstacle_distance := 0%Q;
     obstacle_distance_stock := 0%Q;
     personalities_via_screen := false;
     road_name_ui := false;
     rotating_wheel := false;
     slc_overridden := false;
     speed_limit := 0%Q;
     speed_limit_offset := 0%Q;
     steering_angle_deg := 0%Z;
     steering_wheel := 0%Z;
     stopped_equivalence := 0%Q;
     stopped_equivalence_stock := 0%Q;
     turn_signal_left := false;
     turn_signal_right := false;
     vtsc_offset := 0%Q |}.

(** Statistics after the samples 10 and 50, last reset at 5 s. *)
Definition stats_two : OnroadWindowMore.FpsStats :=
  OnroadWindowMore.mkFpsStats true (10 # 1) (50 # 1) (30 # 1) (60 # 1) 2 (Some 5000).

(** A stand-in for ui.h: one border colour, no alert in any snapshot, and
    alerts compared by their texts and size; the arithmetic is exact. *)
Definition window_extern : OnroadWindowMore.WindowExtern :=
  OnroadWindowMore.mkWindowExtern
    (fun _ => Paint.Rgba 0 0 0 255)
    (fun _ _ => OnroadWindowMore.no_alert)
    (fun a b => String.eqb (OnroadWindowMore.text1 a) (OnroadWindowMore.text1 b)
                && String.eqb (OnroadWindowMore.text2 a) (OnroadWindowMore.text2 b)
                && Cereal.AlertSize_eqb (OnroadWindowMore.size a) (OnroadWindowMore.size b))
    Qplus
    (fun a n => (a / inject_Z n)%Q).

(** A small and a full-size alert, and the banner of the small one on a
    widget 2160 by 1080. *)
Definition alert_small : OnroadWindowMore.Alert :=
  OnroadWindowMore.mkAlert "Be ready to take over" "" Cereal.SMALL OnroadWindowMore.NORMAL.

Definition alert_full : OnroadWindowMore.Alert :=
  OnroadWindowMore.mkAlert "TAKE CONTROL IMMEDIATELY" "Controls unresponsive"
    Cereal.FULL OnroadWindowMore.CRITICAL.

Definition banner_small : OnroadAlertsMore.AlertPaint :=
  OnroadAlertsMore.mkAlertPaint (Qt.mkQRect 40 849 2080 191) 30
    [OnroadAlertsMore.mkAlertText 74 (Qt.mkQRect 40 849 2080 191) false].

End Examples2.

(** * Properties *)

(** ** PersonalityButton::handleClick *)

Section PersonalityFacts.

Import PersonalityButton.

(** C9. For a profile in {0, 1, 2} a click is defined and applies the
    mapping 0 -> 2, 1 -> 0, 2 -> 1; the new profile is again in {0, 1, 2},
    it differs from the old one, it is the value written to the key
    "LongitudinalPersonality", and three clicks in a row give back the
    profile they started from. *)
Theorem handleClick_cyclic (n1 n2 n3 : Z) (b : PersonalityButton.t) (ps : Stores) :
  0 <= personalityProfile b <= 2 ->
  exists b' ps',
    handleClick n1 (b, ps) = Some (b', ps')
    /\ personalityProfile b' =
         (if personalityProfile b =? 0 then 2
          else if personalityProfile b =? 1 then 0 else 1)
    /\ 0 <= personalityProfile b' <= 2
    /\ personalityProfile b' <> personalityProfile b
    /\ getInt (params ps') "LongitudinalPersonality" = personalityProfile b'
    /\ profile_after (three_clicks n1 n2 n3 (b, ps)) = Some (personalityProfile b).
Proof.
  intros Hp. destruct b as [p tm]. cbn [personalityProfile] in *.
  assert (Hcases : p = 0 \/ p = 1 \/ p = 2) by lia.
  destruct Hcases as [-> | [-> | ->]];
    (eexists; eexists; split; [reflexivity |]);
    cbn [personalityProfile updateState params];
    (repeat split; try lia; try reflexivity;
     unfold getInt, putInt; rewrite lookup_insert_eq; reflexivity).
Qed.

Lemma handleClick_cyclic_witness :
  0 <= personalityProfile Examples.button_standard <= 2
  /\ exists b' ps',
       handleClick 10 (Examples.button_standard, Examples.stores_empty) = Some (b', ps')
       /\ personalityProfile b' = 0
       /\ profile_after (three_clicks 10 20 30
                           (Examples.button_standard, Examples.stores_empty))
          = Some 1.
Proof.
  split; [simpl; lia |].
  destruct (handleClick_cyclic 10 20 30 Examples.button_standard Examples.stores_empty)
    as (b' & ps' & H1 & H2 & _ & _ & _ & H3); [simpl; lia |].
  exists b', ps'. split; [exact H1 |]. split; [exact H2 | exact H3].
Defined.

End PersonalityFacts.

(** ** The turn-signal animation *)

Section AnimationFacts.

Import TurnSignal.

Lemma int_wrap_small (z : Z) : - 2 ^ 31 <= z < 2 ^ 31 -> int_wrap z = z.
Proof.
  intros H. unfold int_wrap.
  rewrite Z.mod_small by lia. lia.
Qed.

Lemma tick_mod (totalFrames idx : Z) :
  0 < totalFrames <= INT_MAX -> 0 <= idx < totalFrames ->
  tick totalFrames idx = (idx + 1) mod totalFrames.
Proof.
  unfold INT_MAX. intros HT Hi. unfold tick, c_rem.
  rewrite int_wrap_small by lia.
  apply Z.rem_mod_nonneg; lia.
Qed.

Lemma ticks_mod (totalFrames : Z) (n : nat) :
  0 < totalFrames <= INT_MAX ->
  ticks totalFrames n 0 = Z.of_nat n mod totalFrames.
Proof.
  intros HT. induction n as [| n IH].
  - simpl. rewrite Z.mod_0_l; lia.
  - cbn [ticks]. rewrite IH.
    rewrite tick_mod by (try apply Z.mod_pos_bound; lia).
    rewrite Zplus_mod_idemp_l. f_equal. lia.
Qed.

Lemma signalImgVector_length (theme : string) :
  length (signalImgVector theme) = 18%nat.
Proof. reflexivity. Qed.

(** C8. With a positive [totalFrames], a timer tick takes an index of
    \[0, totalFrames) to (index + 1) mod totalFrames, which is again in that
    range; so [n] ticks after 0 the index is n mod totalFrames, it never
    leaves the range, it is back where it was after [totalFrames] more
    ticks, and (when [totalFrames] is below the 18 images that were loaded)
    the image the painter reads for it exists. *)
Theorem animation_index_cycles (totalFrames : Z) :
  0 < totalFrames <= INT_MAX ->
  (forall idx, 0 <= idx < totalFrames ->
     tick totalFrames idx = (idx + 1) mod totalFrames
     /\ 0 <= tick totalFrames idx < totalFrames)
  /\ (forall n, ticks totalFrames n 0 = Z.of_nat n mod totalFrames)
  /\ (forall n, 0 <= ticks totalFrames n 0 < totalFrames)
  /\ (forall n, ticks totalFrames (n + Z.to_nat totalFrames) 0 = ticks totalFrames n 0)
  /\ (totalFrames < 18 ->
      forall theme n flip blindspot,
        signal_image totalFrames (signalImgVector theme)
          (ticks totalFrames n 0) flip blindspot <> None).
Proof.
  intros HT.
  assert (Hrange : forall n, 0 <= ticks totalFrames n 0 < totalFrames).
  { intros n. rewrite ticks_mod by exact HT. apply Z.mod_pos_bound. lia. }
  split; [| split; [| split; [| split]]].
  - intros idx Hidx. rewrite tick_mod by assumption.
    split; [reflexivity | apply Z.mod_pos_bound; lia].
  - intros n. apply ticks_mod. exact HT.
  - exact Hrange.
  - intros n. rewrite !ticks_mod by exact HT.
    rewrite Nat2Z.inj_add, Z2Nat.id by lia.
    replace (Z.of_nat n + totalFrames) with (Z.of_nat n + 1 * totalFrames) by lia.
    apply Z.mod_add. lia.
  - intros Hsmall theme n flip blindspot.
    specialize (Hrange n). set (idx := ticks totalFrames n 0) in *.
    unfold signal_image. rewrite signalImgVector_length.
    change (Z.of_nat 18) with 18.
    destruct (idx <? 18) eqn:Hguard; [| apply Z.ltb_ge in Hguard; lia].
    assert (Hidx : 0 <= signal_index totalFrames 18 idx flip blindspot < 18).
    { unfold signal_index, c_div, c_rem.
      change (18 ÷ 4) with 4.
      destruct blindspot.
      - destruct flip; lia.
      - rewrite int_wrap_small by lia.
        rewrite Z.rem_mod_nonneg by lia.
        pose proof (Z.mod_pos_bound (2 * idx) totalFrames) as Hm.
        destruct flip; lia. }
    destruct (signal_index totalFrames 18 idx flip blindspot <? 0) eqn:Hneg;
      [apply Z.ltb_lt in Hneg; lia |].
    apply nth_error_Some. rewrite signalImgVector_length. lia.
Qed.

Lemma animation_index_cycles_witness :
  0 < 8 <= INT_MAX
  /\ tick 8 7 = 0
  /\ ticks 8 (3 + Z.to_nat 8) 0 = ticks 8 3 0
  /\ signal_image 8 (signalImgVector "../assets/custom_themes/frog_theme/images")
       (ticks 8 11 0) true false <> None.
Proof.
  pose proof (animation_index_cycles 8) as H.
  assert (H8 : 0 < 8 <= INT_MAX) by (unfold INT_MAX; lia).
  destruct (H H8) as (Htick & _ & _ & Hperiod & Himg).
  split; [exact H8 |].
  split; [exact (proj1 (Htick 7 ltac:(lia))) |].
  split; [exact (Hperiod 3%nat) |].
  apply Himg. lia.
Defined.

End AnimationFacts.

(** ** OnroadWindow::mousePressEvent *)

Section ClickFacts.

Import OnroadWindow.

(** With [widgetClicked] set, the map block does nothing. *)
Lemma map_click_clicked (sc : UIScene) (w : World) : map_click sc true w = w.
Proof. unfold map_click. destruct (map (window w)); reflexivity. Qed.

(** A click inside one of the rectangles runs the toggle of the first one. *)
Lemma mousePressEvent_hit (sc : UIScene) (pos : QPoint) (w : World) :
  contains maxSpeedRect pos || contains (speedRect (window w)) pos
    || contains speedLimitRect pos = true ->
  mousePressEvent sc pos w =
    if contains maxSpeedRect pos then toggle_cruise_increase w
    else if contains (speedRect (window w)) pos then toggle_hide_speed w
    else toggle_slc_offset w.
Proof.
  intros H. unfold mousePressEvent. rewrite H.
  cbv zeta. rewrite map_click_clicked. reflexivity.
Qed.

Lemma key_of_inj (a b : Toggle) : key_of a = key_of b -> a = b.
Proof. destruct a, b; simpl; intros H; try reflexivity; discriminate H. Qed.

(** The six parts of the statement below, for the toggle [a] that ran. *)
Ltac toggle_case a :=
  split; [reflexivity |];
  split; [cbn; rewrite <- ?app_assoc; reflexivity |];
  split; [reflexivity |];
  split; [unfold getBool; cbn; unfold putBoolNonBlocking, putBool;
          rewrite lookup_insert_eq; reflexivity |];
  split; [reflexivity |];
  split; [| reflexivity];
  let b := fresh "b" in
  let Hb := fresh "Hb" in
  let Hk := fresh "Hk" in
  intros b Hb; split; [| destruct b; try reflexivity; congruence];
  cbn; unfold putBoolNonBlocking, putBool;
  apply lookup_insert_ne; intros Hk; apply Hb; symmetry;
  apply (key_of_inj a b Hk).

(** C7. A click inside at least one of the three rectangles performs the
    toggle of the earliest rectangle, in the order max-speed, speed,
    speed-limit, that contains the point, and only that one: its key is
    flipped in the store and its flag follows, the keys and flags of the two
    other toggles keep their values, the calls made are the writes of that
    toggle, none of them hands the event to the parent, and the timer and
    the map panel are left alone. *)
Theorem click_first_match_wins (sc : UIScene) (pos : QPoint) (w : World) :
  contains maxSpeedRect pos || contains (speedRect (window w)) pos
    || contains speedLimitRect pos = true ->
  exists a,
    first_hit (window w) pos = Some a
    /\ effects (mousePressEvent sc pos w) = effects w ++ toggle_writes a w
    /\ forallb (fun e => negb (is_propagation e)) (toggle_writes a w) = true
    /\ getBool (params (stores (mousePressEvent sc pos w))) (key_of a)
       = negb (getBool (params (stores w)) (key_of a))
    /\ flag_of a (globals (mousePressEvent sc pos w))
       = negb (getBool (params (stores w)) (key_of a))
    /\ (forall b, b <> a ->
          params (stores (mousePressEvent sc pos w)) !! key_of b
          = params (stores w) !! key_of b
          /\ flag_of b (globals (mousePressEvent sc pos w)) = flag_of b (globals w))
    /\ window (mousePressEvent sc pos w) = window w.
Proof.
  intros H. rewrite (mousePressEvent_hit sc pos w H).
  unfold first_hit, hit_order. cbn [List.find fst snd].
  destruct (contains maxSpeedRect pos) eqn:H1;
    [| destruct (contains (speedRect (window w)) pos) eqn:H2;
       [| destruct (contains speedLimitRect pos) eqn:H3; [| discriminate H]]].
  - exists CruiseIncrease. toggle_case CruiseIncrease.
  - exists HideSpeed. toggle_case HideSpeed.
  - exists SLCOffset. toggle_case SLCOffset.
Qed.

Lemma click_first_match_wins_witness :
  contains maxSpeedRect (mkQPoint 100 100)
    || contains (speedRect (window Examples.world_narrow)) (mkQPoint 100 100)
    || contains speedLimitRect (mkQPoint 100 100) = true
  /\ contains maxSpeedRect (mkQPoint 100 100) = true
  /\ contains (speedRect (window Examples.world_narrow)) (mkQPoint 100 100) = true
  /\ exists a,
       first_hit (window Examples.world_narrow) (mkQPoint 100 100) = Some a
       /\ effects (mousePressEvent Examples.scene_plain (mkQPoint 100 100)
                     Examples.world_narrow)
          = effects Examples.world_narrow ++ toggle_writes a Examples.world_narrow.
Proof.
  split; [reflexivity |]. split; [reflexivity |]. split; [reflexivity |].
  destruct (click_first_match_wins Examples.scene_plain (mkQPoint 100 100)
              Examples.world_narrow eq_refl) as (a & H1 & H2 & _).
  exists a. split; [exact H1 | exact H2].
Defined.

End ClickFacts.

(** ** Numeric helpers *)

Section NumFacts.

Local Open Scope Q_scope.

Lemma Qlt_bool_true (a b : Q) : Qlt_bool a b = true <-> a < b.
Proof.
  unfold Qlt_bool. rewrite negb_true_iff.
  split.
  - intros H. apply Qnot_le_lt. intros Hle.
    apply Qle_bool_iff in Hle. congruence.
  - intros H. destruct (Qle_bool b a) eqn:Hb; [| reflexivity].
    apply Qle_bool_iff in Hb. apply Qlt_not_le in H. contradiction.
Qed.

Lemma Qlt_bool_false (a b : Q) : Qlt_bool a b = false <-> b <= a.
Proof.
  unfold Qlt_bool. rewrite negb_false_iff. apply Qle_bool_iff.
Qed.

End NumFacts.

(** Case analysis on a comparison made by the code. *)
Ltac case_Qlt a b :=
  let H := fresh "Hcmp" in
  destruct (Qlt_bool a b) eqn:H;
  [apply Qlt_bool_true in H | apply Qlt_bool_false in H].

Section BoundFacts.

Local Open Scope Q_scope.

Lemma qBound_range (lo v hi : Q) : lo <= hi -> lo <= qBound lo v hi <= hi.
Proof.
  intros H. unfold qBound, qMax, qMin.
  case_Qlt hi v; case_Qlt lo hi; try case_Qlt lo v; split; lra.
Qed.

Lemma clamp_range (v lo hi : Q) : lo <= hi -> lo <= clamp v lo hi <= hi.
Proof.
  intros H. unfold clamp.
  case_Qlt v lo; [lra |]. case_Qlt hi v; lra.
Qed.

Lemma clamp_mono (x y lo hi : Q) :
  lo <= hi -> x <= y -> clamp x lo hi <= clamp y lo hi.
Proof.
  intros H Hxy. unfold clamp.
  case_Qlt x lo; case_Qlt y lo; try case_Qlt hi x; try case_Qlt hi y; lra.
Qed.

Lemma fmin_le_r (a b : Q) : fmin a b <= b.
Proof. unfold fmin. case_Qlt b a; lra. Qed.

Lemma fmin_glb (a b c : Q) : c <= a -> c <= b -> c <= fmin a b.
Proof. intros Ha Hb. unfold fmin. case_Qlt b a; lra. Qed.

Lemma fmin_mono_l (a a' b : Q) : a <= a' -> fmin a b <= fmin a' b.
Proof. intros H. unfold fmin. case_Qlt b a; case_Qlt b a'; lra. Qed.

Lemma Qtruncate_nonneg (x : Q) : 0 <= x -> Qtruncate x = Qfloor x.
Proof.
  intros H. unfold Qtruncate.
  apply Qle_bool_iff in H. rewrite H. reflexivity.
Qed.

Lemma Qfloor_range (x : Q) (lo hi : Z) :
  inject_Z lo <= x -> x <= inject_Z hi -> (lo <= Qfloor x <= hi)%Z.
Proof.
  intros Hlo Hhi. split.
  - rewrite <- (Qfloor_Z lo). apply Qfloor_resp_le. exact Hlo.
  - rewrite <- (Qfloor_Z hi). apply Qfloor_resp_le. exact Hhi.
Qed.

(** For a positive numerator, a larger positive denominator gives a smaller
    quotient. *)
Lemma Qdiv_antitone (k a b : Q) : 0 <= k -> 0 < a -> a <= b -> k / b <= k / a.
Proof.
  intros Hk Ha Hab.
  assert (Hx : 0 <= k / a) by (apply Qle_shift_div_l; [exact Ha | lra]).
  assert (Hxa : k / a * a == k) by (field; lra).
  apply Qle_shift_div_r; [lra |].
  nra.
Qed.

End BoundFacts.

(** ** drawStatusBar: the cross-fade *)

Section StatusBarFacts.

Import AnnotatedCameraWidget.
Local Open Scope Q_scope.

(** C10. Whether the status text is showing or has faded out, and whatever
    the elapsed time, the opacity of the status text and the opacity of the
    road name both lie in \[0, 1\] and add up to 1. *)
Theorem status_bar_opacities_complementary (displayStatusText : bool) (elapsed : Z) :
  0 <= fst (status_bar_opacities displayStatusText elapsed) <= 1
  /\ 0 <= snd (status_bar_opacities displayStatusText elapsed) <= 1
  /\ fst (status_bar_opacities displayStatusText elapsed)
     + snd (status_bar_opacities displayStatusText elapsed) == 1.
Proof.
  unfold status_bar_opacities.
  destruct displayStatusText; cbn [fst snd].
  - pose proof (qBound_range 0
      (1 - (inject_Z elapsed - textDuration) / fadeDuration) 1) as H.
    assert (H01 : 0 <= 1) by lra. specialize (H H01).
    repeat split; lra.
  - pose proof (qBound_range 0 (inject_Z elapsed / fadeDuration) 1) as H.
    assert (H01 : 0 <= 1) by lra. specialize (H H01).
    repeat split; lra.
Qed.

End StatusBarFacts.

(** ** drawLead: opacity and size of the chevron *)

Section LeadFacts.

Import AnnotatedCameraWidget.
Local Open Scope Q_scope.

Lemma leadBuff_pos (c : Z) : 0 < leadBuff c.
Proof. unfold leadBuff. destruct (negb (c =? 0)%Z); lra. Qed.

Lemma speedBuff_pos (c : Z) : 0 < speedBuff c.
Proof. unfold speedBuff. destruct (negb (c =? 0)%Z); lra. Qed.

Lemma fillAlpha_unfold (c : Z) (d v : Q) :
  fillAlpha c d v =
    if Qlt_bool d (leadBuff c) then Qtruncate (fmin (raw_alpha c d v) 255) else 0%Z.
Proof. reflexivity. Qed.

Lemma raw_alpha_pos (c : Z) (d v : Q) : d < leadBuff c -> 0 <= raw_alpha c d v.
Proof.
  intros Hd. pose proof (leadBuff_pos c) as HL. pose proof (speedBuff_pos c) as HS.
  assert (H1 : d / leadBuff c <= 1).
  { apply Qle_shift_div_r; [exact HL | lra]. }
  unfold raw_alpha. case_Qlt v 0; [| lra].
  assert (H2 : 0 <= (- v) / speedBuff c).
  { apply Qle_shift_div_l; [exact HS | lra]. }
  assert (H3 : -1 * (v / speedBuff c) == (- v) / speedBuff c) by (field; lra).
  rewrite H3. lra.
Qed.

Lemma raw_alpha_antitone (c : Z) (d1 d2 v : Q) :
  d1 <= d2 -> raw_alpha c d2 v <= raw_alpha c d1 v.
Proof.
  intros Hd. pose proof (leadBuff_pos c) as HL.
  assert (H : d1 / leadBuff c <= d2 / leadBuff c).
  { apply Qle_shift_div_r; [exact HL |].
    assert (Hx : d2 / leadBuff c * leadBuff c == d2) by (field; lra).
    lra. }
  unfold raw_alpha. case_Qlt v 0; lra.
Qed.

Lemma fillAlpha_range (c : Z) (d v : Q) : (0 <= fillAlpha c d v <= 255)%Z.
Proof.
  rewrite fillAlpha_unfold. case_Qlt d (leadBuff c); [| lia].
  pose proof (raw_alpha_pos c d v Hcmp) as Hr.
  assert (H0 : 0 <= fmin (raw_alpha c d v) 255) by (apply fmin_glb; lra).
  rewrite Qtruncate_nonneg by exact H0.
  apply Qfloor_range; [exact H0 | apply fmin_le_r].
Qed.

(** C5. For a distance [d1 >= 0] and any relative speed: the fill opacity
    of the chevron lies in \[0, 255\], it does not grow when the distance
    grows to [d2], and it is 0 from the distance buffer on; the size of the
    chevron lies between 15 * 2.35 and 30 * 2.35 and does not grow with the
    distance either. *)
Theorem chevron_opacity_and_size (customColors : Z) (d1 d2 v_rel : Q) :
  0 <= d1 -> d1 <= d2 ->
  (0 <= fillAlpha customColors d1 v_rel <= 255)%Z
  /\ (fillAlpha customColors d2 v_rel <= fillAlpha customColors d1 v_rel)%Z
  /\ (leadBuff customColors <= d1 -> fillAlpha customColors d1 v_rel = 0%Z)
  /\ 15 * (235 # 100) <= chevron_sz d1 <= 30 * (235 # 100)
  /\ chevron_sz d2 <= chevron_sz d1.
Proof.
  intros H0 H12.
  split; [apply fillAlpha_range |].
  split.
  { rewrite !fillAlpha_unfold.
    case_Qlt d2 (leadBuff customColors).
    - assert (Hd1 : d1 < leadBuff customColors) by lra.
      apply Qlt_bool_true in Hd1. rewrite Hd1. apply Qlt_bool_true in Hd1.
      pose proof (raw_alpha_pos customColors d1 v_rel Hd1) as Hr1.
      pose proof (raw_alpha_pos customColors d2 v_rel Hcmp) as Hr2.
      rewrite !Qtruncate_nonneg by (apply fmin_glb; lra).
      apply Qfloor_resp_le. apply fmin_mono_l.
      apply raw_alpha_antitone. exact H12.
    - pose proof (fillAlpha_range customColors d1 v_rel) as Hr.
      rewrite fillAlpha_unfold in Hr. lia. }
  split.
  { intros HL. rewrite fillAlpha_unfold.
    apply Qlt_bool_false in HL. rewrite HL. reflexivity. }
  assert (H1530 : 15 <= 30) by lra.
  split.
  { unfold chevron_sz.
    pose proof (clamp_range (25 * 30 / (d1 / 3 + 30)) 15 30 H1530) as Hc. lra. }
  unfold chevron_sz.
  assert (Hm : clamp (25 * 30 / (d2 / 3 + 30)) 15 30
               <= clamp (25 * 30 / (d1 / 3 + 30)) 15 30).
  { apply clamp_mono; [exact H1530 |].
    apply Qdiv_antitone; unfold Qdiv; change (/ 3) with (1 # 3); lra. }
  lra.
Qed.

Lemma chevron_opacity_and_size_witness :
  0 <= 10 /\ 10 <= 30
  /\ (0 <= fillAlpha 0 10 (-5) <= 255)%Z
  /\ (fillAlpha 0 30 (-5) <= fillAlpha 0 10 (-5))%Z
  /\ chevron_sz 30 <= chevron_sz 10.
Proof.
  assert (Ha : 0 <= 10) by lra. assert (Hb : 10 <= 30) by lra.
  destruct (chevron_opacity_and_size 0 10 30 (-5) Ha Hb) as (H1 & H2 & _ & _ & H5).
  split; [exact Ha |]. split; [exact Hb |]. split; [exact H1 |].
  split; [exact H2 | exact H5].
Defined.

End LeadFacts.

(** ** AnnotatedCameraWidget::updateState *)

Section UpdateStateFacts.

Import AnnotatedCameraWidget.
Local Open Scope Q_scope.

Lemma nearbyint_zero (x : Q) : x == 0 -> nearbyint x = 0%Z.
Proof.
  intros H. unfold nearbyint.
  assert (Hf : Qfloor x = 0%Z) by (rewrite H; reflexivity).
  rewrite Hf. change (inject_Z 0) with 0.
  case_Qlt (x - 0) (1 # 2); [reflexivity | lra].
Qed.

(** C4. When the controlsState feed is not alive, [updateState] returns a
    widget (it has no other way out) whose set speed is the sentinel 255,
    whose cruise is not set, whose speed is 0 and is displayed as 0, and
    whose set-speed readout is the dash, which is what [drawHud] then
    paints. *)
Theorem updateState_controls_not_alive (E : Extern) (g : Globals) (s : UIState)
    (w : AnnotatedCameraWidget.t) :
  alive_controlsState (sm s) = false ->
  setSpeed (updateState E g s w) = inject_Z SET_SPEED_NA
  /\ setSpeed (updateState E g s w) == 255
  /\ is_cruise_set (updateState E g s w) = false
  /\ speed (updateState E g s w) == 0
  /\ speedStr (updateState E g s w) = Number 0
  /\ setSpeedStr (updateState E g s w) = Dash
  /\ In (SetSpeedText Dash) (drawHud g (updateState E g s w)).
Proof.
  intros Halive.
  assert (Hset : is_cruise_set (updateState E g s w) = false).
  { unfold updateState. cbn [is_cruise_set]. rewrite Halive. reflexivity. }
  assert (Hstr : setSpeedStr (updateState E g s w) = Dash).
  { unfold setSpeedStr. rewrite Hset. reflexivity. }
  split; [unfold updateState; cbn [setSpeed]; rewrite Halive; reflexivity |].
  split; [unfold updateState; cbn [setSpeed]; rewrite Halive; reflexivity |].
  split; [exact Hset |].
  assert (Hspeed : speed (updateState E g s w) == 0)
    by (unfold updateState; cbn [speed]; rewrite Halive; ring).
  split; [exact Hspeed |].
  split; [unfold speedStr; rewrite (nearbyint_zero _ Hspeed); reflexivity |].
  split; [exact Hstr |].
  unfold drawHud. rewrite Hstr.
  apply in_or_app. left. right. left. reflexivity.
Qed.

Lemma updateState_controls_not_alive_witness :
  alive_controlsState (sm Examples.ui_stale) = false
  /\ setSpeed (updateState Examples.extern Examples.globals0 Examples.ui_stale
                 Examples.widget0) == 255
  /\ is_cruise_set (updateState Examples.extern Examples.globals0 Examples.ui_stale
                      Examples.widget0) = false
  /\ speed (updateState Examples.extern Examples.globals0 Examples.ui_stale
              Examples.widget0) == 0.
Proof.
  split; [reflexivity |].
  destruct (updateState_controls_not_alive Examples.extern Examples.globals0
              Examples.ui_stale Examples.widget0 eq_refl)
    as (_ & H2 & H3 & H4 & _).
  split; [exact H2 |]. split; [exact H3 | exact H4].
Defined.

(** The two sign flags after [updateState], in terms of what it read. *)
Lemma updateState_sign_flags (E : Extern) (g : Globals) (s : UIState)
    (w : AnnotatedCameraWidget.t) :
  has_us_speed_limit (updateState E g s w)
  = (alive_navInstruction (sm s) && valid_navInstruction (sm s)
     && SpeedLimitSign_eqb (getSpeedLimitSign (navInstruction (sm s))) MUTCD
     || Qtruthy (slcSpeedLimit w))
  /\ has_eu_speed_limit (updateState E g s w)
     = (alive_navInstruction (sm s) && valid_navInstruction (sm s)
        && SpeedLimitSign_eqb (getSpeedLimitSign (navInstruction (sm s))) VIENNA).
Proof. split; reflexivity. Qed.

(** As long as the speed-limit controller has given no limit, the two sign
    styles exclude each other. *)
Lemma signs_exclusive_without_slc (E : Extern) (g : Globals) (s : UIState)
    (w : AnnotatedCameraWidget.t) :
  Qtruthy (slcSpeedLimit w) = false ->
  has_us_speed_limit (updateState E g s w)
    && has_eu_speed_limit (updateState E g s w) = false.
Proof.
  intros Hslc. destruct (updateState_sign_flags E g s w) as [-> ->].
  rewrite Hslc.
  destruct (alive_navInstruction (sm s)), (valid_navInstruction (sm s)),
    (getSpeedLimitSign (navInstruction (sm s))); reflexivity.
Qed.

Lemma signs_exclusive_without_slc_witness :
  Qtruthy (slcSpeedLimit Examples.widget0) = false
  /\ has_us_speed_limit (updateState Examples.extern Examples.globals0
                           Examples.ui_vienna Examples.widget0)
     && has_eu_speed_limit (updateState Examples.extern Examples.globals0
                              Examples.ui_vienna Examples.widget0) = false.
Proof.
  split; [reflexivity |].
  apply (signs_exclusive_without_slc Examples.extern Examples.globals0
           Examples.ui_vienna Examples.widget0).
  reflexivity.
Defined.

(** C2, at the input where it fails.  The snapshot [Examples.ui_vienna] has
    a live navigation instruction with a Vienna sign and a speed limit from
    the speed-limit controller.  The first [updateState] caches that limit;
    after the second one both sign flags are set, and [drawHud] paints the
    rectangular and the circular sign in the same frame. *)
Theorem updateState_sets_both_signs :
  has_us_speed_limit
    (updateState Examples.extern Examples.globals0 Examples.ui_vienna
       (updateState Examples.extern Examples.globals0 Examples.ui_vienna
          Examples.widget0)) = true
  /\ has_eu_speed_limit
       (updateState Examples.extern Examples.globals0 Examples.ui_vienna
          (updateState Examples.extern Examples.globals0 Examples.ui_vienna
             Examples.widget0)) = true
  /\ paints_us_sign
       (drawHud Examples.globals0
          (updateState Examples.extern Examples.globals0 Examples.ui_vienna
             (updateState Examples.extern Examples.globals0 Examples.ui_vienna
                Examples.widget0))) = true
  /\ paints_eu_sign
       (drawHud Examples.globals0
          (updateState Examples.extern Examples.globals0 Examples.ui_vienna
             (updateState Examples.extern Examples.globals0 Examples.ui_vienna
                Examples.widget0))) = true.
Proof. repeat split; vm_compute; reflexivity. Qed.

End UpdateStateFacts.

(** ** drawLaneLines: which gradient colours the path *)

Section LaneLineFacts.

Import AnnotatedCameraWidget.
Local Open Scope Q_scope.

(** C3 as it is worded fails.  With the frog theme selected and
    experimental mode on, the path edges get the experimental gradient, not
    the theme's (darkened or not), and the path itself is coloured by
    acceleration; with experimental mode on and the conditional status 1,
    the conditional gradient wins over the experimental one.  In both cases
    the gradient of the code differs from the one the worded chain gives. *)
Lemma path_gradient_custom_theme_not_first :
  negb (customColors Examples.widget_themed =? 0)%Z = true
  /\ experimentalMode Examples.widget_themed = true
  /\ Stops_eqb (path_edge_gradient Examples.widget_themed Examples.scene_themed)
       (setColorsAt experimental_stops []) = true
  /\ Stops_eqb (path_edge_gradient Examples.widget_themed Examples.scene_themed)
       (setColorsAt (custom_edge_stops Examples.widget_themed) []) = false
  /\ Stops_eqb (path_edge_gradient Examples.widget_themed Examples.scene_themed)
       (setColorsAt (custom_path_stops Examples.widget_themed) []) = false
  /\ Stops_eqb (path_gradient Examples.extern Examples.ui_themed Examples.widget_themed)
       (setColorsAt (custom_path_stops Examples.widget_themed) []) = false
  /\ Stops_eqb (path_edge_gradient Examples.widget_themed Examples.scene_themed)
       (specified_path_gradient Examples.widget_themed Examples.scene_themed) = false
  /\ Stops_eqb
       (path_edge_gradient Examples.widget_conditional Examples.scene_conditional)
       (setColorsAt conditional_stops []) = true
  /\ Stops_eqb
       (path_edge_gradient Examples.widget_conditional Examples.scene_conditional)
       (specified_path_gradient Examples.widget_conditional Examples.scene_conditional)
     = false.
Proof. repeat split; vm_compute; reflexivity. Qed.

(** Where the stops of a gradient come from. *)
Lemma insert_stop_In (pos : Q) (c : QColor) (stops : Stops) (x : Q * QColor) :
  In x (insert_stop pos c stops) -> x = (pos, c) \/ In x stops.
Proof.
  induction stops as [| [p c'] rest IH]; cbn [insert_stop].
  - intros [H | []]. left. symmetry. exact H.
  - destruct (Qlt_bool p pos).
    + intros [H | H]; [right; left; exact H |].
      destruct (IH H) as [H1 | H1]; [left; exact H1 | right; right; exact H1].
    + destruct (Qeq_bool p pos).
      * intros [H | H]; [left; symmetry; exact H | right; right; exact H].
      * intros [H | H]; [left; symmetry; exact H | right; exact H].
Qed.

Lemma setColorAt_In (pos : Q) (c : QColor) (stops : Stops) (x : Q * QColor) :
  In x (setColorAt pos c stops) -> x = (pos, c) \/ In x stops.
Proof.
  unfold setColorAt. destruct (Qlt_bool 1 pos || Qlt_bool pos 0).
  - intros H. right. exact H.
  - apply insert_stop_In.
Qed.

Lemma setColorsAt_In (calls : list (Q * QColor)) (stops : Stops) (x : Q * QColor) :
  In x (setColorsAt calls stops) -> In x calls \/ In x stops.
Proof.
  unfold setColorsAt. revert stops.
  induction calls as [| [p c] calls IH]; intros stops; cbn [fold_left fst snd].
  - intros H. right. exact H.
  - intros H. destruct (IH _ H) as [H1 | H1]; [left; right; exact H1 |].
    destruct (setColorAt_In p c stops x H1) as [H2 | H2];
      [left; left; symmetry; exact H2 | right; exact H2].
Qed.

(** A position that has a stop keeps one, whatever is set afterwards. *)
Lemma insert_stop_keeps (pos : Q) (c : QColor) (stops : Stops) (q : Q) :
  (exists p d, In (p, d) stops /\ p == q) ->
  exists p d, In (p, d) (insert_stop pos c stops) /\ p == q.
Proof.
  induction stops as [| [p0 c0] rest IH]; intros (p & d & Hin & Hq).
  - destruct Hin.
  - cbn [insert_stop]. destruct (Qlt_bool p0 pos).
    + destruct Hin as [Hin | Hin].
      * exists p, d. split; [left; exact Hin | exact Hq].
      * destruct IH as (p' & d' & Hin' & Hq'); [exists p, d; split; assumption |].
        exists p', d'. split; [right; exact Hin' | exact Hq'].
    + destruct (Qeq_bool p0 pos) eqn:Heq.
      * destruct Hin as [Hin | Hin].
        -- exists pos, c. split; [left; reflexivity |].
           apply Qeq_bool_iff in Heq. injection Hin as Hp _. subst p0.
           rewrite <- Heq. exact Hq.
        -- exists p, d. split; [right; exact Hin | exact Hq].
      * exists p, d. split; [right; exact Hin | exact Hq].
Qed.

Lemma setColorAt_keeps (pos : Q) (c : QColor) (stops : Stops) (q : Q) :
  (exists p d, In (p, d) stops /\ p == q) ->
  exists p d, In (p, d) (setColorAt pos c stops) /\ p == q.
Proof.
  unfold setColorAt. destruct (Qlt_bool 1 pos || Qlt_bool pos 0).
  - intros H. exact H.
  - apply insert_stop_keeps.
Qed.

Lemma setColorsAt_keeps (calls : list (Q * QColor)) (stops : Stops) (q : Q) :
  (exists p d, In (p, d) stops /\ p == q) ->
  exists p d, In (p, d) (setColorsAt calls stops) /\ p == q.
Proof.
  unfold setColorsAt. revert stops.
  induction calls as [| [p c] calls IH]; intros stops H; cbn [fold_left fst snd].
  - exact H.
  - apply IH. apply setColorAt_keeps. exact H.
Qed.

Lemma accel_loop_keeps (E : Extern) (fuel : nat) (i max_len : Z)
    (w : AnnotatedCameraWidget.t) (track : list (Q * Q)) (acceleration : list Q)
    (bg : Stops) (q : Q) :
  (exists p d, In (p, d) bg /\ p == q) ->
  exists p d, In (p, d) (accel_loop E fuel i max_len w track acceleration bg) /\ p == q.
Proof.
  revert i bg. induction fuel as [| fuel IH]; intros i bg H; cbn [accel_loop].
  - exact H.
  - destruct (i <? max_len)%Z; [| exact H].
    destruct (Qlt_bool _ 0 || Qlt_bool _ _); [apply IH; exact H |].
    destruct (Qlt_bool _ _ && negb _).
    + apply IH. apply setColorsAt_keeps. exact H.
    + apply IH. apply setColorAt_keeps. exact H.
Qed.

(** Every stop the loop adds is a stop of the theme, added by a point in
    frame whose acceleration is small, or the acceleration colour of a
    point in frame at the height of that point. *)
Lemma accel_loop_origin (E : Extern) (s : UIState) (w : AnnotatedCameraWidget.t)
    (fuel : nat) (i : Z) (bg : Stops) (P : Q * QColor -> Prop) :
  (forall x,
     (customColors w <> 0%Z /\ In x (custom_path_stops w)
      /\ exists j, PathPoints.colouring_point s w j
                   /\ Qabs (PathPoints.point_acc s j) < 2 # 10) -> P x) ->
  (forall j,
     PathPoints.colouring_point s w j ->
     customColors w = 0%Z \/ 2 # 10 <= Qabs (PathPoints.point_acc s j) ->
     P (PathPoints.lin_grad_point w (PathPoints.point_y s j),
        accel_color E (PathPoints.point_acc s j)
          (PathPoints.lin_grad_point w (PathPoints.point_y s j)))) ->
  (0 <= i)%Z ->
  (forall x, In x bg -> P x) ->
  forall x,
    In x (accel_loop E fuel i (PathPoints.max_len s) w
            (track_vertices (geometry (scene s))) (getAccel (uiPlan (sm s))) bg) ->
    P x.
Proof.
  intros Htheme Hacc. revert i bg.
  induction fuel as [| fuel IH]; intros i bg Hi Hbg x; cbn [accel_loop].
  - apply Hbg.
  - destruct (i <? PathPoints.max_len s)%Z eqn:Hlt; [| apply Hbg].
    apply Z.ltb_lt in Hlt.
    fold (PathPoints.point_y s i). fold (PathPoints.point_acc s i).
    destruct (Qlt_bool (PathPoints.point_y s i) 0) eqn:Hy0;
      [apply IH; [lia | exact Hbg] |].
    destruct (Qlt_bool (inject_Z (height w)) (PathPoints.point_y s i)) eqn:Hy1;
      [apply IH; [lia | exact Hbg] |].
    cbn [orb].
    apply Qlt_bool_false in Hy0, Hy1.
    assert (Hpoint : PathPoints.colouring_point s w i).
    { split; [lia | split; assumption]. }
    fold (PathPoints.lin_grad_point w (PathPoints.point_y s i)).
    destruct (Qlt_bool (Qabs (PathPoints.point_acc s i)) (2 # 10)) eqn:Hsmall.
    + destruct (Z.eqb_spec (customColors w) 0) as [Hk | Hk]; cbn [negb andb].
      * apply IH; [destruct (i + 2 <? PathPoints.max_len s)%Z; lia |].
        intros x0 Hx0. destruct (setColorAt_In _ _ _ _ Hx0) as [-> | Hx1];
          [apply Hacc; [exact Hpoint | left; exact Hk] | apply Hbg; exact Hx1].
      * apply IH; [lia |].
        intros x0 Hx0. destruct (setColorsAt_In _ _ _ Hx0) as [Hx1 | Hx1];
          [| apply Hbg; exact Hx1].
        apply Htheme. split; [exact Hk |]. split; [exact Hx1 |].
        exists i. split; [exact Hpoint |]. apply Qlt_bool_true. exact Hsmall.
    + cbn [andb].
      apply IH; [destruct (i + 2 <? PathPoints.max_len s)%Z; lia |].
      intros x0 Hx0. destruct (setColorAt_In _ _ _ _ Hx0) as [-> | Hx1];
        [| apply Hbg; exact Hx1].
      apply Hacc; [exact Hpoint |]. right. apply Qlt_bool_false. exact Hsmall.
Qed.

(** C3, amended.  The gradient of the path edges follows the chain
    always-on-lateral, conditional status 1, experimental, navigation,
    custom theme (its stops darkened), default: each mode is used exactly
    when all the modes before it are off.  The path itself, when neither
    experimental mode nor the acceleration path is on, takes the stops of
    the custom theme if one is selected and the default stops otherwise.
    When one of the two is on, its gradient is built from the points of
    the path that are in frame: every stop is the acceleration colour of
    such a point at the height of that point (with no custom theme, or
    with an acceleration of 0.2 or more in size), or a stop of the custom
    theme added by such a point whose acceleration is below 0.2 in size;
    and a first point that is in frame and takes the acceleration colour
    leaves a stop at its height. *)
Theorem path_edge_gradient_priority (E : Extern) (s : UIState)
    (w : AnnotatedCameraWidget.t) :
  (alwaysOnLateral w = true ->
     path_edge_gradient w (scene s) = setColorsAt always_on_lateral_stops [])
  /\ (alwaysOnLateral w = false -> conditionalStatus w = 1%Z ->
        path_edge_gradient w (scene s) = setColorsAt conditional_stops [])
  /\ (alwaysOnLateral w = false -> conditionalStatus w <> 1%Z ->
      experimentalMode w = true ->
        path_edge_gradient w (scene s) = setColorsAt experimental_stops [])
  /\ (alwaysOnLateral w = false -> conditionalStatus w <> 1%Z ->
      experimentalMode w = false -> navigate_on_openpilot (scene s) = true ->
        path_edge_gradient w (scene s) = setColorsAt navigation_stops [])
  /\ (alwaysOnLateral w = false -> conditionalStatus w <> 1%Z ->
      experimentalMode w = false -> navigate_on_openpilot (scene s) = false ->
      customColors w <> 0%Z ->
        path_edge_gradient w (scene s) = setColorsAt (custom_edge_stops w) [])
  /\ (alwaysOnLateral w = false -> conditionalStatus w <> 1%Z ->
      experimentalMode w = false -> navigate_on_openpilot (scene s) = false ->
      customColors w = 0%Z ->
        path_edge_gradient w (scene s) = setColorsAt default_edge_stops [])
  /\ (getExperimentalMode (controlsState (sm s)) = false ->
      accelerationPath w = false -> customColors w <> 0%Z ->
        path_gradient E s w = setColorsAt (custom_path_stops w) [])
  /\ (getExperimentalMode (controlsState (sm s)) = false ->
      accelerationPath w = false -> customColors w = 0%Z ->
        path_gradient E s w = setColorsAt default_path_stops [])
  /\ (getExperimentalMode (controlsState (sm s)) || accelerationPath w = true ->
      forall (p : Q) (c : QColor),
        In (p, c) (path_gradient E s w) ->
        (customColors w <> 0%Z /\ In (p, c) (custom_path_stops w)
         /\ exists i, PathPoints.colouring_point s w i
                      /\ Qabs (PathPoints.point_acc s i) < 2 # 10)
        \/ (exists i, PathPoints.colouring_point s w i
                      /\ (customColors w = 0%Z
                          \/ 2 # 10 <= Qabs (PathPoints.point_acc s i))
                      /\ p = PathPoints.lin_grad_point w (PathPoints.point_y s i)
                      /\ c = accel_color E (PathPoints.point_acc s i) p))
  /\ (getExperimentalMode (controlsState (sm s)) || accelerationPath w = true ->
      (0 < height w)%Z ->
      PathPoints.colouring_point s w 0 ->
      customColors w = 0%Z \/ 2 # 10 <= Qabs (PathPoints.point_acc s 0) ->
        exists (p : Q) (c : QColor),
          In (p, c) (path_gradient E s w)
          /\ p == PathPoints.lin_grad_point w (PathPoints.point_y s 0)).
Proof.
  split; [unfold path_edge_gradient; intros ->; reflexivity |].
  split; [unfold path_edge_gradient; intros -> ->; reflexivity |].
  split.
  { unfold path_edge_gradient. intros -> Hc ->.
    apply Z.eqb_neq in Hc. rewrite Hc. reflexivity. }
  split.
  { unfold path_edge_gradient. intros -> Hc -> ->.
    apply Z.eqb_neq in Hc. rewrite Hc. reflexivity. }
  split.
  { unfold path_edge_gradient. intros -> Hc -> -> Hk.
    apply Z.eqb_neq in Hc, Hk. rewrite Hc, Hk. reflexivity. }
  split.
  { unfold path_edge_gradient. intros -> Hc -> -> ->.
    apply Z.eqb_neq in Hc. rewrite Hc. reflexivity. }
  split.
  { unfold path_gradient. intros -> -> Hk.
    apply Z.eqb_neq in Hk. rewrite Hk. reflexivity. }
  split; [unfold path_gradient; intros -> -> ->; reflexivity |].
  split.
  - intros Hon p c Hin. unfold path_gradient in Hin. rewrite Hon in Hin.
    fold (PathPoints.max_len s) in Hin.
    revert Hin.
    apply (accel_loop_origin E s w (Z.to_nat (PathPoints.max_len s)) 0 []
             (fun x =>
                (customColors w <> 0%Z /\ In (fst x, snd x) (custom_path_stops w)
                 /\ exists i, PathPoints.colouring_point s w i
                              /\ Qabs (PathPoints.point_acc s i) < 2 # 10)
                \/ (exists i, PathPoints.colouring_point s w i
                              /\ (customColors w = 0%Z
                                  \/ 2 # 10 <= Qabs (PathPoints.point_acc s i))
                              /\ fst x
                                 = PathPoints.lin_grad_point w (PathPoints.point_y s i)
                              /\ snd x
                                 = accel_color E (PathPoints.point_acc s i) (fst x)))
             ).
    + intros [p0 c0] (Hk & Hx & Hj). left. cbn [fst snd]. auto.
    + intros j Hj Hc. right. exists j. cbn [fst snd]. auto.
    + lia.
    + intros x [].
  - intros Hon Hh [[_ Hlen] [Hy0 Hy1]] Hc.
    unfold path_gradient. rewrite Hon. fold (PathPoints.max_len s).
    destruct (Z.to_nat (PathPoints.max_len s)) as [| fuel] eqn:Hfuel; [lia |].
    cbn [accel_loop].
    assert (Hlt : (0 <? PathPoints.max_len s)%Z = true) by (apply Z.ltb_lt; exact Hlen).
    rewrite Hlt.
    fold (PathPoints.point_y s 0). fold (PathPoints.point_acc s 0).
    rewrite (proj2 (Qlt_bool_false _ _) Hy0), (proj2 (Qlt_bool_false _ _) Hy1).
    cbn [orb].
    fold (PathPoints.lin_grad_point w (PathPoints.point_y s 0)).
    assert (Hbranch : Qlt_bool (Qabs (PathPoints.point_acc s 0)) (2 # 10)
                      && negb (customColors w =? 0)%Z = false).
    { destruct Hc as [Hc | Hc].
      - rewrite Hc. apply andb_false_r.
      - rewrite (proj2 (Qlt_bool_false _ _) Hc). reflexivity. }
    rewrite Hbranch.
    apply accel_loop_keeps.
    assert (Hhq : 0 < inject_Z (height w)).
    { change 0 with (inject_Z 0). rewrite <- Zlt_Qlt. exact Hh. }
    assert (Hlin : 0 <= PathPoints.lin_grad_point w (PathPoints.point_y s 0) <= 1).
    { unfold PathPoints.lin_grad_point. split.
      - apply Qle_shift_div_l; [exact Hhq | lra].
      - apply Qle_shift_div_r; [exact Hhq | lra]. }
    unfold setColorAt.
    rewrite (proj2 (Qlt_bool_false _ _) (proj2 Hlin)),
            (proj2 (Qlt_bool_false _ _) (proj1 Hlin)).
    cbn [orb insert_stop].
    eexists _, _. split; [left; reflexivity | reflexivity].
Qed.

Lemma path_edge_gradient_priority_witness :
  alwaysOnLateral Examples.widget_themed = false
  /\ conditionalStatus Examples.widget_themed <> 1%Z
  /\ experimentalMode Examples.widget_themed = true
  /\ path_edge_gradient Examples.widget_themed (scene Examples.ui_themed)
     = setColorsAt experimental_stops []
  /\ alwaysOnLateral Examples.widget_conditional = false
  /\ conditionalStatus Examples.widget_conditional = 1%Z
  /\ path_edge_gradient Examples.widget_conditional (scene Examples.ui_conditional)
     = setColorsAt conditional_stops []
  /\ PathPoints.colouring_point Examples2.ui_accel Examples.widget0 0
  /\ exists (p : Q) (c : QColor),
       In (p, c) (path_gradient Examples.extern Examples2.ui_accel Examples.widget0)
       /\ p == 1 # 2.
Proof.
  assert (H1 : alwaysOnLateral Examples.widget_themed = false) by reflexivity.
  assert (H2 : conditionalStatus Examples.widget_themed <> 1%Z)
    by (vm_compute; discriminate).
  assert (H3 : experimentalMode Examples.widget_themed = true) by reflexivity.
  assert (H4 : alwaysOnLateral Examples.widget_conditional = false) by reflexivity.
  assert (H5 : conditionalStatus Examples.widget_conditional = 1%Z) by reflexivity.
  assert (H6 : PathPoints.colouring_point Examples2.ui_accel Examples.widget0 0).
  { split; [vm_compute; split; [discriminate | reflexivity] |].
    split; vm_compute; discriminate. }
  pose proof (path_edge_gradient_priority Examples.extern Examples.ui_themed
                Examples.widget_themed) as (_ & _ & Hexp & _).
  pose proof (path_edge_gradient_priority Examples.extern Examples.ui_conditional
                Examples.widget_conditional) as (_ & Hcond & _).
  pose proof (path_edge_gradient_priority Examples.extern Examples2.ui_accel
                Examples.widget0) as (_ & _ & _ & _ & _ & _ & _ & _ & _ & Hfirst).
  split; [exact H1 |]. split; [exact H2 |]. split; [exact H3 |].
  split; [exact (Hexp H1 H2 H3) |].
  split; [exact H4 |]. split; [exact H5 |].
  split; [exact (Hcond H4 H5) |].
  split; [exact H6 |].
  destruct (Hfirst eq_refl eq_refl H6 (or_introl eq_refl)) as (p & c & Hin & Hp).
  exists p, c. split; [exact Hin |].
  rewrite Hp. vm_compute. reflexivity.
Defined.

End LaneLineFacts.

(** ** AnnotatedCameraWidget::paintGL *)

Section PaintFacts.

Import AnnotatedCameraWidget.
Local Open Scope Q_scope.

(** A skipped cycle only counts down the skip budget. *)
Lemma paintGL_skipped (E : Extern) (t0 t1 : Q) (pw : PaintWorld) :
  skips_frame (widget pw) = true ->
  paintGL E t0 t1 pw =
    mkPaintWorld (ui pw)
      (with_paint_members (cam (widget pw)) (skip_frame_count (widget pw) - 1)%Z
         (wide_cam_requested (widget pw)) (prev_draw_t (widget pw))
         (fps_filter (widget pw)) (themeConfiguration (widget pw)) (widget pw))
      (globals pw) (stores pw) (outbox pw) (screen pw).
Proof. intros H. unfold paintGL. rewrite H. reflexivity. Qed.

(** Splits [paintGL] along its tests, down to the calls of the helpers. *)
Ltac paintGL_cases H :=
  unfold paintGL; rewrite H;
  destruct (negb (show_driver_camera _));
  [ destruct (paint_world_objects _ _ _ _) as [[? ?] ?];
    destruct (_ && _ && _) |].

(** [paintGL] leaves the frame queue to the camera thread. *)
Lemma paintGL_frames_empty (E : Extern) (t0 t1 : Q) (pw : PaintWorld) :
  frames_empty (cam (widget (paintGL E t0 t1 pw))) = frames_empty (cam (widget pw)).
Proof.
  destruct (skips_frame (widget pw)) eqn:H.
  - rewrite (paintGL_skipped E t0 t1 pw H). reflexivity.
  - paintGL_cases H; reflexivity.
Qed.

(** While no frame is queued, a call takes one from a positive budget and
    leaves any other budget alone. *)
Lemma paintGL_budget (E : Extern) (t0 t1 : Q) (pw : PaintWorld) :
  frames_empty (cam (widget pw)) = true ->
  skip_frame_count (widget (paintGL E t0 t1 pw))
  = (if (0 <? skip_frame_count (widget pw))%Z
     then skip_frame_count (widget pw) - 1
     else skip_frame_count (widget pw))%Z.
Proof.
  intros Hf.
  destruct (skips_frame (widget pw)) eqn:H.
  - rewrite (paintGL_skipped E t0 t1 pw H). cbn.
    unfold skips_frame in H. rewrite Hf in H. cbn in H. rewrite H. reflexivity.
  - assert (H0 : (0 <? skip_frame_count (widget pw))%Z = false).
    { unfold skips_frame in H. rewrite Hf in H. exact H. }
    rewrite H0. paintGL_cases H; cbn; rewrite Hf; reflexivity.
Qed.

(** The budget after [n] calls in a row with no frame queued. *)
Lemma paintGL_budget_iter (E : Extern) (t0 t1 : Q) (pw : PaintWorld) (n : nat) :
  frames_empty (cam (widget pw)) = true ->
  frames_empty (cam (widget (Nat.iter n (paintGL E t0 t1) pw))) = true
  /\ skip_frame_count (widget (Nat.iter n (paintGL E t0 t1) pw))
     = Z.max (Z.min (skip_frame_count (widget pw)) 0)
             (skip_frame_count (widget pw) - Z.of_nat n).
Proof.
  intros Hf. induction n as [| n [IHf IHc]].
  - simpl Nat.iter. split; [exact Hf | lia].
  - simpl Nat.iter. split.
    + rewrite paintGL_frames_empty. exact IHf.
    + rewrite (paintGL_budget E t0 t1 _ IHf). rewrite IHc.
      destruct (0 <? _)%Z eqn:Hpos;
        [apply Z.ltb_lt in Hpos | apply Z.ltb_ge in Hpos]; lia.
Qed.

(** C6. A call of [paintGL] that is not skipped sends exactly one message,
    on "uiDebug", whose draw time is the reading of the clock after the
    drawing minus the reading at the start of the call; it paints the
    camera frame and leaves the skip budget at 5 if a frame was queued.  A
    call that is skipped, because no frame is queued and the budget is not
    used up, sends nothing, paints nothing and lowers the budget by one,
    never below zero; so of the calls made in a row, only the first
    [skip_frame_count] can be skipped. *)
Theorem paintGL_publishes_draw_time (E : Extern) (t0 t1 : Q) (pw : PaintWorld) :
  (skips_frame (widget pw) = false ->
     outbox (paintGL E t0 t1 pw)
     = outbox pw ++ [("uiDebug"%string, mkUiDebug (t1 - t0))]
     /\ (exists stream calib overlay,
           screen (paintGL E t0 t1 pw)
           = screen pw
             ++ OpCameraFrame stream calib (getFrameId (modelV2 (sm (ui pw))))
                :: overlay)
     /\ (frames_empty (cam (widget pw)) = false ->
           skip_frame_count (widget (paintGL E t0 t1 pw)) = 5%Z))
  /\ (skips_frame (widget pw) = true ->
        outbox (paintGL E t0 t1 pw) = outbox pw
        /\ screen (paintGL E t0 t1 pw) = screen pw
        /\ (0 <= skip_frame_count (widget (paintGL E t0 t1 pw))
            < skip_frame_count (widget pw))%Z)
  /\ (forall n : nat,
        skips_frame (widget (Nat.iter n (paintGL E t0 t1) pw)) = true ->
        (Z.of_nat n < skip_frame_count (widget pw))%Z).
Proof.
  split; [| split].
  - intros H. split; [| split].
    + paintGL_cases H; reflexivity.
    + paintGL_cases H; (eexists; eexists; eexists; reflexivity).
    + intros Hf. paintGL_cases H; cbn; rewrite Hf; reflexivity.
  - intros H. rewrite (paintGL_skipped E t0 t1 pw H). cbn.
    split; [reflexivity |]. split; [reflexivity |].
    unfold skips_frame in H. apply andb_true_iff in H. destruct H as [_ H].
    apply Z.ltb_lt in H. lia.
  - intros n H. unfold skips_frame in H.
    apply andb_true_iff in H. destruct H as [Hf H]. apply Z.ltb_lt in H.
    assert (Hf0 : frames_empty (cam (widget pw)) = true).
    { clear H. induction n as [| n IH]; [exact Hf |].
      simpl Nat.iter in Hf. rewrite paintGL_frames_empty in Hf. exact (IH Hf). }
    destruct (paintGL_budget_iter E t0 t1 pw n Hf0) as [_ Hc]. lia.
Qed.

Lemma paintGL_publishes_draw_time_witness :
  skips_frame (widget Examples.paint_world0) = false
  /\ outbox (paintGL Examples.extern 1040 1043 Examples.paint_world0)
     = outbox Examples.paint_world0 ++ [("uiDebug"%string, mkUiDebug (1043 - 1040))]
  /\ skips_frame (widget Examples.paint_world_waiting) = true
  /\ outbox (paintGL Examples.extern 1040 1043 Examples.paint_world_waiting)
     = outbox Examples.paint_world_waiting.
Proof.
  assert (H1 : skips_frame (widget Examples.paint_world0) = false) by reflexivity.
  assert (H2 : skips_frame (widget Examples.paint_world_waiting) = true) by reflexivity.
  split; [exact H1 |].
  split; [exact (proj1 (proj1 (paintGL_publishes_draw_time Examples.extern 1040 1043
                                 Examples.paint_world0) H1)) |].
  split; [exact H2 |].
  exact (proj1 (proj1 (proj2 (paintGL_publishes_draw_time Examples.extern 1040 1043
                                Examples.paint_world_waiting)) H2)).
Defined.

(** C1 as it is worded fails.  On a frame for which the wide camera is
    both requested and active, [paintGL] turns [scene.wide_cam] from false
    to true and writes the key "WideCamera", absent before, into the
    in-memory settings store. *)
Lemma paintGL_writes_scene_and_store :
  wide_cam (scene (ui Examples.paint_world0)) = false
  /\ wide_cam (scene (ui (paintGL Examples.extern 1040 1043 Examples.paint_world0)))
     = true
  /\ scene (ui (paintGL Examples.extern 1040 1043 Examples.paint_world0))
     <> scene (ui Examples.paint_world0)
  /\ paramsMemory (stores Examples.paint_world0) !! "WideCamera" = None
  /\ paramsMemory (stores (paintGL Examples.extern 1040 1043 Examples.paint_world0))
       !! "WideCamera" = Some (PBool true).
Proof.
  split; [reflexivity |].
  assert (H : wide_cam (scene (ui (paintGL Examples.extern 1040 1043
                                     Examples.paint_world0))) = true)
    by (vm_compute; reflexivity).
  split; [exact H |].
  split; [intros Heq; rewrite Heq in H; discriminate H |].
  split; vm_compute; reflexivity.
Qed.

(** C1, amended.  [paintGL] never writes the SubMaster snapshot, the
    engagement status or the settings store on disk.  A skipped cycle
    leaves the scene and both stores as they were.  A cycle that paints
    sets the key "WideCamera" of the store in memory to the wide-camera
    request it has just computed, and writes no other key; it assigns
    [scene.wide_cam] := (the stream [getStreamType] returns is the wide
    road stream) and lets the helpers of ui.cc refresh the scene: every
    reading [obs] of the scene that those helpers preserve has after
    [paintGL] the value it has in the scene before with [wide_cam] so
    assigned, hence the value it had before if it does not depend on
    [wide_cam]; in the driver-camera view, where no helper runs, the scene
    after is the scene before with [wide_cam] so assigned. *)
Theorem paintGL_frame (E : Extern) (t0 t1 : Q) (pw : PaintWorld) :
  sm (ui (paintGL E t0 t1 pw)) = sm (ui pw)
  /\ UI.status (ui (paintGL E t0 t1 pw)) = UI.status (ui pw)
  /\ params (stores (paintGL E t0 t1 pw)) = params (stores pw)
  /\ (forall k : string, k <> "WideCamera"%string ->
        paramsMemory (stores (paintGL E t0 t1 pw)) !! k
        = paramsMemory (stores pw) !! k)
  /\ (skips_frame (widget pw) = true ->
        scene (ui (paintGL E t0 t1 pw)) = scene (ui pw)
        /\ stores (paintGL E t0 t1 pw) = stores pw)
  /\ (forall (A : Type) (obs : UIScene -> A),
        (forall b sc, obs (set_wide_cam b sc) = obs sc) ->
        (forall sc m p, obs (update_model E sc m p) = obs sc) ->
        (forall sc r p, obs (update_leads E sc r p) = obs sc) ->
        (forall sc d f r, obs (update_dmonitoring E sc d f r) = obs sc) ->
        obs (scene (ui (paintGL E t0 t1 pw))) = obs (scene (ui pw)))
  /\ (skips_frame (widget pw) = false ->
      show_driver_camera (scene (ui pw)) = true ->
        scene (ui (paintGL E t0 t1 pw))
        = set_wide_cam
            (VisionStreamType_eqb (active_stream_type (cam (widget pw)))
               VISION_STREAM_WIDE_ROAD)
            (scene (ui pw)))
  /\ (skips_frame (widget pw) = false ->
        paramsMemory (stores (paintGL E t0 t1 pw))
        = putBoolNonBlocking (paramsMemory (stores pw)) "WideCamera"
            (next_wide_cam_requested (ui pw) (widget pw)))
  /\ (skips_frame (widget pw) = false ->
      forall (A : Type) (obs : UIScene -> A),
        (forall sc m p, obs (update_model E sc m p) = obs sc) ->
        (forall sc r p, obs (update_leads E sc r p) = obs sc) ->
        (forall sc d f r, obs (update_dmonitoring E sc d f r) = obs sc) ->
        obs (scene (ui (paintGL E t0 t1 pw)))
        = obs (set_wide_cam
                 (VisionStreamType_eqb (active_stream_type (cam (widget pw)))
                    VISION_STREAM_WIDE_ROAD)
                 (scene (ui pw)))).
Proof.
  destruct (skips_frame (widget pw)) eqn:Hskip.
  - rewrite (paintGL_skipped E t0 t1 pw Hskip). cbn.
    repeat split; try reflexivity; try discriminate.
  - split; [paintGL_cases Hskip; reflexivity |].
    split; [paintGL_cases Hskip; reflexivity |].
    split; [paintGL_cases Hskip; reflexivity |].
    split.
    { intros k Hk.
      paintGL_cases Hskip; cbn; unfold putBoolNonBlocking, putBool;
        apply lookup_insert_ne; congruence. }
    split; [discriminate |].
    split.
    { intros A obs Hwide Hmodel Hleads Hdm.
      unfold paintGL. rewrite Hskip.
      destruct (negb (show_driver_camera _)); [| cbn; apply Hwide].
      unfold paint_world_objects.
      destruct (worldObjectsVisible (ui pw)).
      - destruct (drawLaneLines _ _ _) as [lanes cfg].
        repeat match goal with
               | |- context [if ?c then _ else _] => destruct c
               end;
          cbn; rewrite ?Hdm, ?Hleads, ?Hmodel, ?Hwide; reflexivity.
      - repeat match goal with
               | |- context [if ?c then _ else _] => destruct c
               end;
          cbn; rewrite ?Hdm, ?Hwide; reflexivity. }
    split.
    { intros _ Hdriver.
      unfold paintGL. rewrite Hskip.
      assert (Hd : show_driver_camera
                     (set_wide_cam
                        (VisionStreamType_eqb (active_stream_type (cam (widget pw)))
                           VISION_STREAM_WIDE_ROAD) (scene (ui pw))) = true)
        by exact Hdriver.
      rewrite Hd. reflexivity. }
    split; [intros _; paintGL_cases Hskip; reflexivity |].
    intros _ A obs Hmodel Hleads Hdm.
    unfold paintGL. rewrite Hskip.
    destruct (negb (show_driver_camera _)); [| reflexivity].
    unfold paint_world_objects.
    destruct (worldObjectsVisible (ui pw)).
    + destruct (drawLaneLines _ _ _) as [lanes cfg].
      repeat match goal with
             | |- context [if ?c then _ else _] => destruct c
             end;
        cbn; rewrite ?Hdm, ?Hleads, ?Hmodel; reflexivity.
    + repeat match goal with
             | |- context [if ?c then _ else _] => destruct c
             end;
        cbn; rewrite ?Hdm; reflexivity.
Qed.

Lemma paintGL_frame_witness :
  skips_frame (widget Examples.paint_world_waiting) = true
  /\ scene (ui (paintGL Examples.extern 1040 1043 Examples.paint_world_waiting))
     = scene (ui Examples.paint_world_waiting)
  /\ started_frame (scene (ui (paintGL Examples.extern 1040 1043 Examples.paint_world0)))
     = started_frame (scene (ui Examples.paint_world0))
  /\ skips_frame (widget Examples.paint_world0) = false
  /\ paramsMemory (stores (paintGL Examples.extern 1040 1043 Examples.paint_world0))
     = putBoolNonBlocking (paramsMemory (stores Examples.paint_world0)) "WideCamera"
         (next_wide_cam_requested (ui Examples.paint_world0)
            (widget Examples.paint_world0))
  /\ wide_cam (scene (ui (paintGL Examples.extern 1040 1043 Examples.paint_world0)))
     = VisionStreamType_eqb
         (active_stream_type (cam (widget Examples.paint_world0)))
         VISION_STREAM_WIDE_ROAD.
Proof.
  assert (H : skips_frame (widget Examples.paint_world_waiting) = true) by reflexivity.
  assert (H0 : skips_frame (widget Examples.paint_world0) = false) by reflexivity.
  pose proof (paintGL_frame Examples.extern 1040 1043 Examples.paint_world_waiting)
    as (_ & _ & _ & _ & Hskip & _).
  pose proof (paintGL_frame Examples.extern 1040 1043 Examples.paint_world0)
    as (_ & _ & _ & _ & _ & Hobs & _ & Hstore & Hscene).
  split; [exact H |].
  split; [exact (proj1 (Hskip H)) |].
  split; [apply (Hobs Z started_frame); intros; reflexivity |].
  split; [exact H0 |].
  split; [exact (Hstore H0) |].
  apply (Hscene H0 bool wide_cam); intros; reflexivity.
Defined.

End PaintFacts.

(** ** PersonalityButton: painting and polling *)

Section PersonalityMoreFacts.

Import PersonalityButton PersonalityButtonMore.
Local Open Scope Q_scope.

Lemma qBound_unit_low (v : Q) : v <= 0 -> qBound 0 v 1 == 0.
Proof.
  intros H. unfold qBound, qMax, qMin.
  case_Qlt 1 v; [lra |]. case_Qlt 0 v; lra.
Qed.

Lemma qBound_unit_high (v : Q) : 1 <= v -> qBound 0 v 1 == 1.
Proof.
  intros H. unfold qBound, qMax, qMin.
  case_Qlt 1 v; case_Qlt 0 1; try case_Qlt 0 v; lra.
Qed.

Lemma qBound_unit_mid (v : Q) : 0 <= v <= 1 -> qBound 0 v 1 == v.
Proof.
  intros H. unfold qBound, qMax, qMin.
  case_Qlt 1 v; [lra |]. case_Qlt 0 v; lra.
Qed.

(** The ratio the two opacities are cut from. *)
Lemma fade_ratio (elapsed : Z) :
  (inject_Z elapsed - textDuration) / fadeDuration
  == (inject_Z elapsed - 3000) * (1 # 1000).
Proof. unfold textDuration, fadeDuration. field. Qed.

(** The two opacities add up to 1. *)
Lemma opacities_sum (elapsed : Z) :
  fst (opacities elapsed) + snd (opacities elapsed) == 1.
Proof.
  unfold opacities. cbn [fst snd].
  set (x := (inject_Z elapsed - textDuration) / fadeDuration).
  assert (Hcases : x <= 0 \/ 0 <= x <= 1 \/ 1 <= x) by lra.
  destruct Hcases as [H | [H | H]].
  - rewrite (qBound_unit_high (1 - x)), (qBound_unit_low x); lra.
  - rewrite (qBound_unit_mid (1 - x)), (qBound_unit_mid x); lra.
  - rewrite (qBound_unit_low (1 - x)), (qBound_unit_high x); lra.
Qed.

(** The three phases of the cross-fade, by the reading of the timer. *)
Lemma opacities_phases (elapsed : Z) :
  ((elapsed <= 3000)%Z ->
     fst (opacities elapsed) == 1 /\ snd (opacities elapsed) == 0)
  /\ ((4000 <= elapsed)%Z ->
        fst (opacities elapsed) == 0 /\ snd (opacities elapsed) == 1)
  /\ ((3000 < elapsed < 4000)%Z ->
        0 < fst (opacities elapsed) < 1 /\ 0 < snd (opacities elapsed) < 1).
Proof.
  unfold opacities. cbn [fst snd].
  pose proof (fade_ratio elapsed) as Hr.
  set (x := (inject_Z elapsed - textDuration) / fadeDuration) in *.
  assert (H3000 : inject_Z 3000 == 3000) by reflexivity.
  assert (H4000 : inject_Z 4000 == 4000) by reflexivity.
  split.
  { intros He. rewrite Zle_Qle in He.
    rewrite (qBound_unit_high (1 - x)), (qBound_unit_low x) by lra.
    split; reflexivity. }
  split.
  { intros He. rewrite Zle_Qle in He.
    rewrite (qBound_unit_low (1 - x)), (qBound_unit_high x) by lra.
    split; reflexivity. }
  intros [He1 He2]. rewrite Zlt_Qlt in He1, He2.
  rewrite (qBound_unit_mid (1 - x)), (qBound_unit_mid x) by lra.
  lra.
Qed.

(** What [paintEvent] paints for a profile of the table, by the opacities
    of the reading. *)
Lemma paintEvent_by_opacities (now : Z) (b : PersonalityButton.t) (img txt : string) :
  (0 <= personalityProfile b)%Z ->
  nth_error profile_data (Z.to_nat (personalityProfile b)) = Some (img, txt) ->
  paintEvent now b
  = Some ((if Qlt_bool 0 (fst (opacities (int_wrap (now - transitionTimer b))))
           then [ProfileText txt
                   (fst (opacities (int_wrap (now - transitionTimer b))))]
           else [])
          ++ (if Qlt_bool 0 (snd (opacities (int_wrap (now - transitionTimer b))))
              then [ProfileImage img
                      (snd (opacities (int_wrap (now - transitionTimer b))))]
              else [])).
Proof.
  intros Hp Hnth. unfold paintEvent.
  destruct (opacities (int_wrap (now - transitionTimer b))) as [t i].
  destruct (personalityProfile b <? 0)%Z eqn:Hneg;
    [apply Z.ltb_lt in Hneg; lia |].
  rewrite Hnth. reflexivity.
Qed.

(** X1. For a profile of the table, with [e] the time since the last
    change: while [e] is below 2^31 ms, [paintEvent] paints the text alone,
    fully opaque, up to 3000 ms; the image alone, fully opaque, from
    4000 ms on; and in between the text and then the image, both partly
    opaque.  From 2^31 ms up to 2^32 ms
    the reading, narrowed to [int], is negative, and the text is painted
    alone and fully opaque again. *)
Theorem personality_fade_phases (now : Z) (b : PersonalityButton.t)
    (img txt : string) :
  (0 <= personalityProfile b)%Z ->
  nth_error profile_data (Z.to_nat (personalityProfile b)) = Some (img, txt) ->
  ((0 <= now - transitionTimer b <= 3000)%Z ->
     exists t, paintEvent now b = Some [ProfileText txt t] /\ t == 1)
  /\ ((4000 <= now - transitionTimer b < 2 ^ 31)%Z ->
        exists i, paintEvent now b = Some [ProfileImage img i] /\ i == 1)
  /\ ((3000 < now - transitionTimer b < 4000)%Z ->
        exists t i,
          paintEvent now b = Some [ProfileText txt t; ProfileImage img i]
          /\ 0 < t < 1 /\ 0 < i < 1)
  /\ ((2 ^ 31 <= now - transitionTimer b < 2 ^ 32)%Z ->
        exists t, paintEvent now b = Some [ProfileText txt t] /\ t == 1).
Proof.
  intros Hp Hnth.
  rewrite (paintEvent_by_opacities now b img txt Hp Hnth).
  set (e := (now - transitionTimer b)%Z).
  assert (Htext : forall r : Z,
            (r <= 3000)%Z ->
            exists t,
              Some ((if Qlt_bool 0 (fst (opacities r))
                     then [ProfileText txt (fst (opacities r))] else [])
                    ++ (if Qlt_bool 0 (snd (opacities r))
                        then [ProfileImage img (snd (opacities r))] else []))
              = Some [ProfileText txt t] /\ t == 1).
  { intros r Hr. destruct (opacities_phases r) as (H1 & _). specialize (H1 Hr).
    destruct H1 as [Ht Hi].
    rewrite (proj2 (Qlt_bool_true 0 (fst (opacities r)))) by lra.
    rewrite (proj2 (Qlt_bool_false 0 (snd (opacities r)))) by lra.
    eexists. split; [reflexivity | exact Ht]. }
  split.
  { intros He. rewrite int_wrap_small by lia. apply Htext. lia. }
  split.
  { intros He. rewrite int_wrap_small by lia.
    destruct (opacities_phases e) as (_ & H2 & _).
    destruct H2 as [Ht Hi]; [lia |].
    rewrite (proj2 (Qlt_bool_false 0 (fst (opacities e)))) by lra.
    rewrite (proj2 (Qlt_bool_true 0 (snd (opacities e)))) by lra.
    eexists. split; [reflexivity | exact Hi]. }
  split.
  { intros He. rewrite int_wrap_small by lia.
    destruct (opacities_phases e) as (_ & _ & H3).
    destruct H3 as [Ht Hi]; [lia |].
    rewrite (proj2 (Qlt_bool_true 0 (fst (opacities e)))) by lra.
    rewrite (proj2 (Qlt_bool_true 0 (snd (opacities e)))) by lra.
    eexists _, _. split; [reflexivity |].
    split; [exact Ht | exact Hi]. }
  intros He.
  assert (Hwrap : int_wrap e = (e - 2 ^ 32)%Z).
  { unfold int_wrap.
    replace (e + 2 ^ 31)%Z with ((e - 2 ^ 31) + 1 * 2 ^ 32)%Z by lia.
    rewrite Z.mod_add by lia. rewrite Z.mod_small by lia. lia. }
  rewrite Hwrap. apply Htext. lia.
Qed.

Lemma personality_fade_phases_witness :
  (0 <= personalityProfile Examples.button_standard)%Z
  /\ nth_error profile_data (Z.to_nat (personalityProfile Examples.button_standard))
     = Some ("../assets/standard.png", "Standard")%string
  /\ (3000 < 3500 - transitionTimer Examples.button_standard < 4000)%Z
  /\ exists t i,
       paintEvent 3500 Examples.button_standard
       = Some [ProfileText "Standard" t; ProfileImage "../assets/standard.png" i]
       /\ 0 < t < 1 /\ 0 < i < 1.
Proof.
  assert (H1 : (0 <= personalityProfile Examples.button_standard)%Z)
    by (vm_compute; discriminate).
  assert (H2 : nth_error profile_data
                 (Z.to_nat (personalityProfile Examples.button_standard))
               = Some ("../assets/standard.png", "Standard")%string) by reflexivity.
  assert (H3 : (3000 < 3500 - transitionTimer Examples.button_standard < 4000)%Z)
    by (vm_compute; split; reflexivity).
  split; [exact H1 |]. split; [exact H2 |]. split; [exact H3 |].
  exact (proj1 (proj2 (proj2 (personality_fade_phases 3500 Examples.button_standard
                                _ _ H1 H2))) H3).
Defined.

(** X2. For a profile in {0, 1, 2} the button is never blank: whatever the
    reading of the transition timer, [paintEvent] paints the text or the
    image of that profile (or both). *)
Theorem personality_button_never_blank (now : Z) (b : PersonalityButton.t) :
  (0 <= personalityProfile b <= 2)%Z ->
  exists ops, paintEvent now b = Some ops /\ ops <> [].
Proof.
  intros Hp. unfold paintEvent.
  set (e := int_wrap (now - transitionTimer b)).
  pose proof (opacities_sum e) as Hsum.
  destruct (opacities e) as [t i] eqn:Ho. cbn [fst snd] in Hsum.
  destruct (personalityProfile b <? 0)%Z eqn:Hneg;
    [apply Z.ltb_lt in Hneg; lia |].
  assert (Hn : (Z.to_nat (personalityProfile b) < 3)%nat) by lia.
  destruct (nth_error profile_data (Z.to_nat (personalityProfile b)))
    as [[img txt] |] eqn:Hnth.
  - eexists. split; [reflexivity |].
    case_Qlt 0 t; [discriminate |].
    case_Qlt 0 i; [discriminate |]. exfalso. lra.
  - apply nth_error_None in Hnth. cbn in Hnth. lia.
Qed.

Lemma personality_button_never_blank_witness :
  (0 <= personalityProfile Examples.button_standard <= 2)%Z
  /\ exists ops, paintEvent 3500 Examples.button_standard = Some ops /\ ops <> [].
Proof.
  assert (H : (0 <= personalityProfile Examples.button_standard <= 2)%Z)
    by (simpl; lia).
  split; [exact H |].
  exact (personality_button_never_blank 3500 Examples.button_standard H).
Defined.

(** X3. A click leaves the button and the store in step: the profile it
    shows is the one stored under "LongitudinalPersonality", so the poll
    that follows changes nothing, not even the transition timer. *)
Theorem click_then_poll_in_step (n1 n2 : Z) (b b' : PersonalityButton.t)
    (ps ps' : Stores) :
  handleClick n1 (b, ps) = Some (b', ps') ->
  getInt (params ps') "LongitudinalPersonality" = personalityProfile b'
  /\ checkUpdate n2 (b', ps') = (b', ps').
Proof.
  unfold handleClick. destruct (mapping_at (personalityProfile b)) as [p |];
    [| discriminate].
  intros H. injection H as <- <-.
  assert (Hget : getInt (putInt (params ps) "LongitudinalPersonality" p)
                   "LongitudinalPersonality" = p).
  { unfold getInt, putInt. rewrite lookup_insert_eq. reflexivity. }
  split; [exact Hget |].
  unfold checkUpdate. cbn [params personalityProfile updateState].
  rewrite Hget, Z.eqb_refl. reflexivity.
Qed.

Lemma click_then_poll_in_step_witness :
  exists b' ps',
    handleClick 10 (Examples.button_standard, Examples.stores_empty) = Some (b', ps')
    /\ checkUpdate 60 (b', ps') = (b', ps').
Proof.
  eexists. eexists. split; [reflexivity |].
  exact (proj2 (click_then_poll_in_step 10 60 Examples.button_standard _
                  Examples.stores_empty _ eq_refl)).
Defined.

(** X4. The poll takes over whatever integer the store holds.  When that
    integer is not one of 0, 1, 2 and differs from the profile on display,
    the button ends up outside its tables: the next click reads past
    [mapping] and the next paint reads past [profile_data]. *)
Theorem poll_adopts_out_of_range (n1 n2 now v : Z) (b : PersonalityButton.t)
    (ps : Stores) :
  params ps !! "LongitudinalPersonality"%string = Some (PInt v) ->
  (v < 0 \/ 2 < v)%Z -> v <> personalityProfile b ->
  personalityProfile (fst (checkUpdate n1 (b, ps))) = v
  /\ handleClick n2 (checkUpdate n1 (b, ps)) = None
  /\ paintEvent now (fst (checkUpdate n1 (b, ps))) = None.
Proof.
  intros Hlook Hv Hne.
  assert (Hget : getInt (params ps) "LongitudinalPersonality" = v)
    by (unfold getInt; rewrite Hlook; reflexivity).
  unfold checkUpdate. rewrite Hget.
  destruct (v =? personalityProfile b)%Z eqn:Heq; [apply Z.eqb_eq in Heq; lia |].
  cbn [negb fst updateState personalityProfile].
  split; [reflexivity |].
  assert (Hnth : forall A (l : list A), length l = 3%nat -> (2 < v)%Z ->
                   nth_error l (Z.to_nat v) = None).
  { intros A l Hl H2. apply nth_error_None. lia. }
  split.
  - unfold handleClick, mapping_at, updateState. cbn [personalityProfile].
    destruct (v <? 0)%Z eqn:Hneg; [reflexivity |].
    apply Z.ltb_ge in Hneg. rewrite (Hnth Z mapping eq_refl) by lia. reflexivity.
  - unfold paintEvent, updateState. cbn [personalityProfile transitionTimer].
    destruct (opacities _) as [t i].
    destruct (v <? 0)%Z eqn:Hneg; [reflexivity |].
    apply Z.ltb_ge in Hneg.
    rewrite (Hnth _ profile_data eq_refl) by lia. reflexivity.
Qed.

Lemma poll_adopts_out_of_range_witness :
  params (mkStores (putInt ∅ "LongitudinalPersonality" 3) ∅)
    !! "LongitudinalPersonality"%string = Some (PInt 3)
  /\ handleClick 20
       (checkUpdate 10 (Examples.button_standard,
                        mkStores (putInt ∅ "LongitudinalPersonality" 3) ∅))
     = None.
Proof.
  assert (H : params (mkStores (putInt ∅ "LongitudinalPersonality" 3) ∅)
                !! "LongitudinalPersonality"%string = Some (PInt 3)) by reflexivity.
  split; [exact H |].
  refine (proj1 (proj2 (poll_adopts_out_of_range 10 20 0 3 Examples.button_standard
                          _ H _ _))).
  - right. lia.
  - simpl. lia.
Defined.

End PersonalityMoreFacts.

(** ** Turn signals: which images are painted *)

Section TurnSignalMoreFacts.

Import TurnSignal.

Lemma string_app_inv_head (s a b : string) : (s ++ a = s ++ b)%string -> a = b.
Proof.
  induction s as [| c s IH]; cbn; intros H; [exact H |].
  injection H as H. exact (IH H).
Qed.

(** X5. With at most 15 animation frames, the red blind-spot image and its
    mirror image, loaded last into [signalImgVector], are never painted:
    every image [drawSignal] reads is one of the 16 plain ones, and for a
    signal with a vehicle in the blind spot it is the plain first frame,
    mirrored for the right-hand signal. *)
Theorem blindspot_image_never_painted (totalFrames idx : Z) (theme : string)
    (flip blindspot : bool) (img : Pixmap) :
  0 < totalFrames <= 15 -> 0 <= idx < totalFrames ->
  signal_image totalFrames (signalImgVector theme) idx flip blindspot = Some img ->
  path img <> (theme ++ "/turn_signal_1_red.png")%string
  /\ (blindspot = true ->
        img = mkPixmap (theme ++ "/turn_signal_1.png")%string flip).
Proof.
  intros HT Hidx. unfold signal_image.
  change (Z.of_nat (length (signalImgVector theme))) with 18.
  destruct (idx <? 18) eqn:Hguard; [| discriminate].
  assert (Hi : 0 <= signal_index totalFrames 18 idx flip blindspot < 16).
  { unfold signal_index, c_div, c_rem. change (18 ÷ 4) with 4.
    destruct blindspot.
    - destruct flip; lia.
    - rewrite int_wrap_small by lia.
      rewrite Z.rem_mod_nonneg by lia.
      pose proof (Z.mod_pos_bound (2 * idx) totalFrames) as Hm.
      destruct flip; lia. }
  destruct (signal_index totalFrames 18 idx flip blindspot <? 0) eqn:Hneg;
    [discriminate |].
  intros Hnth. split.
  - assert (Hn : (Z.to_nat (signal_index totalFrames 18 idx flip blindspot) < 16)%nat)
      by lia.
    revert Hnth Hn.
    generalize (Z.to_nat (signal_index totalFrames 18 idx flip blindspot)).
    intros n Hnth Hn.
    do 16 (destruct n as [| n];
           [cbn in Hnth; injection Hnth as <-; cbn [path];
            intros Heq; apply string_app_inv_head in Heq; discriminate Heq |]).
    lia.
  - intros ->. unfold signal_index, c_div in Hnth. change (18 ÷ 4) with 4 in Hnth.
    destruct flip; cbn in Hnth; injection Hnth as <-; reflexivity.
Qed.

Lemma blindspot_image_never_painted_witness :
  0 < 8 <= 15 /\ 0 <= 3 < 8
  /\ signal_image 8 (signalImgVector "theme") 3 true true
     = Some (mkPixmap "theme/turn_signal_1.png" true)
  /\ path (mkPixmap "theme/turn_signal_1.png" true) <> "theme/turn_signal_1_red.png"%string.
Proof.
  assert (H1 : 0 < 8 <= 15) by lia. assert (H2 : 0 <= 3 < 8) by lia.
  split; [exact H1 |]. split; [exact H2 |]. split; [reflexivity |].
  exact (proj1 (blindspot_image_never_painted 8 3 "theme" true true _ H1 H2 eq_refl)).
Defined.

End TurnSignalMoreFacts.

(** ** The compass *)

Section CompassFacts.

Import HudMore.
Local Open Scope Q_scope.

Lemma Qle_bool_false (a b : Q) : Qle_bool a b = false <-> b < a.
Proof.
  split.
  - intros H. apply Qnot_le_lt. intros Hle. apply Qle_bool_iff in Hle. congruence.
  - intros H. destruct (Qle_bool a b) eqn:Hb; [| reflexivity].
    apply Qle_bool_iff in Hb. lra.
Qed.

(** Case analysis on one test of [pointed_at], dropping impossible cases. *)
Ltac case_pointed lo hi b :=
  let H1 := fresh "Hlo" in
  let H2 := fresh "Hhi" in
  destruct (Qle_bool (inject_Z lo) b) eqn:H1;
  [apply Qle_bool_iff in H1 | apply Qle_bool_false in H1];
  (destruct (Qlt_bool b (inject_Z hi)) eqn:H2;
   [apply Qlt_bool_true in H2 | apply Qlt_bool_false in H2]);
  cbn [andb]; try (exfalso; unfold inject_Z in *; lra).

(** X6. For a bearing from 0 up to 360 the compass points at one label or
    at two neighbouring ones, never at two opposite ones; for a bearing
    outside that range (360 itself included) it points at none. *)
Theorem compass_points_at_neighbours (bearingDeg : Q) :
  (0 <= bearingDeg < 360 ->
     In (highlighted bearingDeg)
        [ ["N"]; ["N"; "E"]; ["E"]; ["E"; "S"]; ["S"];
          ["S"; "W"]; ["W"]; ["W"; "N"] ]%string)
  /\ (bearingDeg < 0 \/ 360 <= bearingDeg -> highlighted bearingDeg = []).
Proof.
  unfold highlighted, compass_directions, pointed_at.
  cbn [List.filter List.map fst snd].
  split.
  - intros Hb.
    case_pointed 0%Z 68%Z bearingDeg;
    case_pointed 23%Z 158%Z bearingDeg;
    case_pointed 113%Z 248%Z bearingDeg;
    case_pointed 203%Z 338%Z bearingDeg;
    case_pointed 293%Z 360%Z bearingDeg;
    cbn [List.map fst snd In]; auto 12.
  - intros Hb.
    case_pointed 0%Z 68%Z bearingDeg;
    case_pointed 23%Z 158%Z bearingDeg;
    case_pointed 113%Z 248%Z bearingDeg;
    case_pointed 203%Z 338%Z bearingDeg;
    case_pointed 293%Z 360%Z bearingDeg;
    reflexivity.
Qed.

Lemma compass_points_at_neighbours_witness :
  0 <= 300 < 360 /\ highlighted 300 = ["W"; "N"]%string
  /\ 360 <= 360 /\ highlighted 360 = [].
Proof.
  assert (H1 : 0 <= 300 < 360) by lra. assert (H2 : 360 <= 360) by lra.
  split; [exact H1 |]. split; [reflexivity |]. split; [exact H2 |].
  exact (proj2 (compass_points_at_neighbours 360) (or_intror H2)).
Defined.

(** The bold angles for a whole bearing [n]. *)
Lemma bold_angles_table (n : Z) :
  (0 <= n < 360)%Z ->
  List.filter (fun a => (Z.abs (a - n) <=? 7)%Z) compass_angles
  = if (n <=? 352)%Z then [(15 * ((n + 7) / 15))%Z] else [].
Proof.
  intros Hn.
  assert (Hall : forallb
            (fun n => bool_decide
               (List.filter (fun a => (Z.abs (a - n) <=? 7)%Z) compass_angles
                = if (n <=? 352)%Z then [(15 * ((n + 7) / 15))%Z] else []))
            (List.map Z.of_nat (seq 0 360)) = true) by (vm_compute; reflexivity).
  rewrite forallb_forall in Hall.
  eapply bool_decide_eq_true_1. apply Hall.
  apply in_map_iff. exists (Z.to_nat n). split; [lia |].
  apply in_seq. lia.
Qed.

(** X7. Of the 24 degree numbers around the compass exactly one is bold,
    the multiple of 15 nearest to the bearing, as long as the bearing cut
    to a whole number is at most 352; from 353 to 359 none is bold,
    because the number 0 is not within 7 of such a bearing and 360 is not
    among the numbers. *)
Theorem compass_bold_number (bearingDeg : Q) :
  ((0 <= Qtruncate bearingDeg <= 352)%Z ->
     bold_angles bearingDeg = [(15 * ((Qtruncate bearingDeg + 7) / 15))%Z])
  /\ ((353 <= Qtruncate bearingDeg <= 359)%Z -> bold_angles bearingDeg = []).
Proof.
  unfold bold_angles, isBold. split; intros Hn.
  - rewrite bold_angles_table by lia.
    destruct (Qtruncate bearingDeg <=? 352)%Z eqn:H; [reflexivity |].
    apply Z.leb_gt in H. lia.
  - rewrite bold_angles_table by lia.
    destruct (Qtruncate bearingDeg <=? 352)%Z eqn:H; [| reflexivity].
    apply Z.leb_le in H. lia.
Qed.

Lemma compass_bold_number_witness :
  (0 <= Qtruncate (100 # 1) <= 352)%Z /\ bold_angles (100 # 1) = [105%Z]
  /\ (353 <= Qtruncate (3555 # 10) <= 359)%Z /\ bold_angles (3555 # 10) = [].
Proof.
  assert (H1 : (0 <= Qtruncate (100 # 1) <= 352)%Z) by (vm_compute; split; discriminate).
  assert (H2 : (353 <= Qtruncate (3555 # 10) <= 359)%Z)
    by (vm_compute; split; discriminate).
  split; [exact H1 |].
  split; [exact (proj1 (compass_bold_number (100 # 1)) H1) |].
  split; [exact H2 |].
  exact (proj2 (compass_bold_number (3555 # 10)) H2).
Defined.

End CompassFacts.

(** ** Colours of lanes and path *)

Section LaneColourFacts.

Import AnnotatedCameraWidget HudMore.
Local Open Scope Q_scope.

Lemma lane_hue_middle (w : Q) :
  120 * (w - minLaneWidth) / (maxLaneWidth - minLaneWidth) == 240 * w - 600.
Proof. unfold minLaneWidth, maxLaneWidth. field. Qed.

(** X8. The hue of an adjacent lane lies between 0 (red) and 120 (green);
    it is 0 for a lane narrower than 2.5 m or with a vehicle in the blind
    spot, 120 from 3 m on, and it never falls when the lane gets wider. *)
Theorem lane_hue_range (w1 w2 : Q) (blindspot : bool) :
  0 <= lane_hue w1 blindspot <= 120
  /\ lane_hue w1 true = 0
  /\ (w1 < 25 # 10 -> lane_hue w1 blindspot = 0)
  /\ (3 <= w1 -> lane_hue w1 false = 120)
  /\ (w1 <= w2 -> lane_hue w1 false <= lane_hue w2 false).
Proof.
  assert (Hrange : forall w b, 0 <= lane_hue w b <= 120).
  { intros w b. unfold lane_hue.
    case_Qlt w minLaneWidth; cbn [orb]; [lra |].
    destruct b; [lra |].
    destruct (Qle_bool maxLaneWidth w) eqn:Hmax; [lra |].
    apply Qle_bool_false in Hmax. rewrite lane_hue_middle.
    unfold minLaneWidth, maxLaneWidth in *. lra. }
  split; [apply Hrange |].
  split.
  { unfold lane_hue. rewrite orb_true_r. reflexivity. }
  split.
  { intros H. unfold lane_hue.
    assert (H' : w1 < minLaneWidth) by exact H.
    apply Qlt_bool_true in H'. rewrite H'. reflexivity. }
  split.
  { intros H. unfold lane_hue.
    case_Qlt w1 minLaneWidth; [unfold minLaneWidth in *; lra |].
    cbn [orb]. assert (H' : maxLaneWidth <= w1) by exact H.
    apply Qle_bool_iff in H'. rewrite H'. reflexivity. }
  intros H12. unfold lane_hue.
  case_Qlt w1 minLaneWidth; cbn [orb].
  { apply (Hrange w2 false). }
  case_Qlt w2 minLaneWidth; cbn [orb]; [lra |].
  destruct (Qle_bool maxLaneWidth w2) eqn:H2;
    [apply Qle_bool_iff in H2 | apply Qle_bool_false in H2];
    (destruct (Qle_bool maxLaneWidth w1) eqn:H1;
     [apply Qle_bool_iff in H1 | apply Qle_bool_false in H1]);
    rewrite ?lane_hue_middle; unfold minLaneWidth, maxLaneWidth in *; lra.
Qed.

Lemma lane_hue_range_witness :
  (27 # 10) <= (29 # 10)
  /\ lane_hue (27 # 10) false <= lane_hue (29 # 10) false
  /\ 3 <= (35 # 10) /\ lane_hue (35 # 10) false = 120.
Proof.
  assert (H1 : (27 # 10) <= (29 # 10)) by lra.
  assert (H2 : 3 <= (35 # 10)) by lra.
  split; [exact H1 |].
  split; [exact (proj2 (proj2 (proj2 (proj2
                   (lane_hue_range (27 # 10) (29 # 10) false)))) H1) |].
  split; [exact H2 |].
  exact (proj1 (proj2 (proj2 (proj2 (lane_hue_range (35 # 10) 0 false)))) H2).
Defined.

(** The hue of the acceleration colouring, in degrees, before it is cut to
    a whole number. *)
Lemma path_hue_range (acc : Q) : 0 <= fmax (fmin (60 + acc * 35) 120) 0 <= 120.
Proof.
  unfold fmax, fmin.
  case_Qlt 120 (60 + acc * 35).
  - case_Qlt 120 0; lra.
  - case_Qlt (60 + acc * 35) 0; lra.
Qed.

Lemma path_hue_mono (a1 a2 : Q) :
  a1 <= a2 ->
  fmax (fmin (60 + a1 * 35) 120) 0 <= fmax (fmin (60 + a2 * 35) 120) 0.
Proof.
  intros H. unfold fmax, fmin.
  case_Qlt 120 (60 + a1 * 35); case_Qlt 120 (60 + a2 * 35);
    try case_Qlt 120 0; try case_Qlt (60 + a1 * 35) 0;
    try case_Qlt (60 + a2 * 35) 0; lra.
Qed.

(** X9. Under the acceleration colouring the hue of a point of the path is
    a whole number of degrees from 0 to 120 (the division by 100 is an
    integer division), it is 60 at no acceleration, it never falls when
    the acceleration grows, and the saturation lies in \[0, 1\]. *)
Theorem accel_color_hue (E : Extern) (acc1 acc2 p1 p2 : Q) :
  (exists n : Z, (0 <= n <= 120)%Z
                 /\ hue_of (accel_color E acc1 p1) = inject_Z n / 360)
  /\ hue_of (accel_color E 0 p1) == 60 / 360
  /\ 0 <= saturation_of (accel_color E acc1 p1) <= 1
  /\ (acc1 <= acc2 ->
        hue_of (accel_color E acc1 p1) <= hue_of (accel_color E acc2 p2)).
Proof.
  unfold accel_color. cbn [hue_of saturation_of].
  assert (Hfloor : forall a,
            Qtruncate (fmax (fmin (60 + a * 35) 120) 0 * 100 + (1 # 2))
            = Qfloor (fmax (fmin (60 + a * 35) 120) 0 * 100 + (1 # 2))).
  { intros a. apply Qtruncate_nonneg. pose proof (path_hue_range a). lra. }
  assert (Hrange : forall a,
            (0 <= c_div (Qtruncate (fmax (fmin (60 + a * 35) 120) 0 * 100 + (1 # 2)))
                       100 <= 120)%Z).
  { intros a. rewrite Hfloor. pose proof (path_hue_range a) as Hh.
    assert (Hf : (0 <= Qfloor (fmax (fmin (60 + a * 35) 120) 0 * 100 + (1 # 2))
                  <= 12000)%Z).
    { split.
      - assert (H0 : (Qfloor 0
                      <= Qfloor (fmax (fmin (60 + a * 35) 120) 0 * 100 + (1 # 2)))%Z)
          by (apply Qfloor_resp_le; lra).
        exact H0.
      - pose proof (Qfloor_le (fmax (fmin (60 + a * 35) 120) 0 * 100 + (1 # 2)))
          as Hle.
        assert (Hlt : inject_Z
                        (Qfloor (fmax (fmin (60 + a * 35) 120) 0 * 100 + (1 # 2)))
                      < inject_Z 12001) by (change (inject_Z 12001) with 12001; lra).
        rewrite <- Zlt_Qlt in Hlt. lia. }
    unfold c_div. split.
    - apply Z.quot_pos; lia.
    - apply Z.quot_le_upper_bound; lia. }
  split; [eexists; split; [apply Hrange | reflexivity] |].
  split; [vm_compute; reflexivity |].
  split.
  { unfold fmin. case_Qlt 1 (Qabs (acc1 * (15 # 10))); [lra |].
    split; [apply Qabs_nonneg | exact Hcmp]. }
  intros H. rewrite !Hfloor. unfold c_div.
  assert (Hq : (Qfloor (fmax (fmin (60 + acc1 * 35) 120) 0 * 100 + (1 # 2)) ÷ 100
                <= Qfloor (fmax (fmin (60 + acc2 * 35) 120) 0 * 100 + (1 # 2)) ÷ 100)%Z).
  { apply Z.quot_le_mono; [lia |]. apply Qfloor_resp_le.
    pose proof (path_hue_mono acc1 acc2 H). lra. }
  rewrite Zle_Qle in Hq. unfold Qdiv. change (/ 360) with (1 # 360). lra.
Qed.

Lemma accel_color_hue_witness :
  -1 <= 1
  /\ hue_of (accel_color Examples.extern (-1) 0)
     <= hue_of (accel_color Examples.extern 1 0).
Proof.
  assert (H : -1 <= 1) by lra.
  split; [exact H |].
  exact (proj2 (proj2 (proj2 (accel_color_hue Examples.extern (-1) 1 0 0))) H).
Defined.

Lemma stops_above_le (lo lo' : Q) (stops : Stops) :
  lo' <= lo -> stops_above lo stops -> stops_above lo' stops.
Proof.
  destruct stops as [| [p c] rest]; cbn; [trivial |].
  intros H (H1 & H2 & H3). repeat split; [lra | exact H2 | exact H3].
Qed.

Lemma insert_stop_above (lo pos : Q) (c : QColor) (stops : Stops) :
  lo < pos -> pos <= 1 -> stops_above lo stops ->
  stops_above lo (insert_stop pos c stops).
Proof.
  revert lo. induction stops as [| [p c'] rest IH]; intros lo Hlo H1 Hs.
  - cbn. auto.
  - cbn [insert_stop]. cbn in Hs. destruct Hs as (Hp & Hp1 & Hrest).
    case_Qlt p pos.
    + cbn. repeat split; [exact Hp | exact Hp1 |]. apply IH; assumption.
    + destruct (Qeq_bool p pos) eqn:Heq.
      * apply Qeq_bool_iff in Heq. cbn. repeat split; [exact Hlo | exact H1 |].
        apply (stops_above_le p); [lra | exact Hrest].
      * apply Qeq_bool_neq in Heq. cbn.
        repeat split; try assumption. destruct (Qlt_le_dec pos p); [assumption |].
        exfalso. apply Heq. lra.
Qed.

Lemma setColorAt_ordered (pos : Q) (c : QColor) (stops : Stops) :
  stops_ordered stops -> stops_ordered (setColorAt pos c stops).
Proof.
  intros Hs. unfold setColorAt.
  case_Qlt 1 pos; cbn [orb]; [exact Hs |].
  case_Qlt pos 0; [exact Hs |].
  destruct stops as [| [p c'] rest].
  - cbn. auto.
  - cbn [insert_stop]. cbn in Hs. destruct Hs as (Hp & Hp1 & Hrest).
    case_Qlt p pos.
    + cbn. repeat split; [exact Hp | exact Hp1 |].
      apply insert_stop_above; assumption.
    + destruct (Qeq_bool p pos) eqn:Heq.
      * apply Qeq_bool_iff in Heq. cbn. repeat split; try assumption.
        apply (stops_above_le p); [lra | exact Hrest].
      * apply Qeq_bool_neq in Heq. cbn.
        repeat split; try assumption. destruct (Qlt_le_dec pos p); [assumption |].
        exfalso. apply Heq. lra.
Qed.

Lemma setColorsAt_ordered (calls : list (Q * QColor)) (stops : Stops) :
  stops_ordered stops -> stops_ordered (setColorsAt calls stops).
Proof.
  unfold setColorsAt. revert stops.
  induction calls as [| [p c] calls IH]; intros stops Hs; [exact Hs |].
  cbn [fold_left fst snd]. apply IH. apply setColorAt_ordered. exact Hs.
Qed.

Lemma accel_loop_ordered (E : Extern) (fuel : nat) (i max_len : Z)
    (w : AnnotatedCameraWidget.t) (track : list (Q * Q)) (acceleration : list Q)
    (bg : Stops) :
  stops_ordered bg ->
  stops_ordered (accel_loop E fuel i max_len w track acceleration bg).
Proof.
  revert i bg. induction fuel as [| fuel IH]; intros i bg Hbg; [exact Hbg |].
  cbn [accel_loop].
  destruct (i <? max_len)%Z; [| exact Hbg].
  destruct (_ || _); [apply IH; exact Hbg |].
  destruct (_ && _).
  - apply IH. apply setColorsAt_ordered. exact Hbg.
  - apply IH. apply setColorAt_ordered. exact Hbg.
Qed.

(** X10. Every gradient [drawLaneLines] builds, for the path, its edges,
    the blind-spot lanes and the adjacent lanes, has all its stops in
    \[0, 1\] at strictly growing positions, whatever the telemetry: a point
    of the path that falls outside is refused and a repeated position
    replaces the earlier stop. *)
Theorem lane_gradients_ordered (E : Extern) (s : UIState)
    (w : AnnotatedCameraWidget.t) (laneWidth : Q) (blindspot : bool) :
  stops_ordered (path_gradient E s w)
  /\ stops_ordered (path_edge_gradient w (scene s))
  /\ stops_ordered (blindspot_gradient w)
  /\ stops_ordered (lane_gradient laneWidth blindspot).
Proof.
  assert (Hnil : stops_ordered []) by exact I.
  split.
  { unfold path_gradient.
    destruct (_ || _); [apply accel_loop_ordered; exact Hnil |].
    destruct (negb _); apply setColorsAt_ordered; exact Hnil. }
  split; [apply setColorsAt_ordered; exact Hnil |].
  split.
  { unfold blindspot_gradient.
    destruct (_ || _); [apply setColorsAt_ordered |]; exact Hnil. }
  apply setColorsAt_ordered. exact Hnil.
Qed.

End LaneColourFacts.

(** ** drawLead: where and how strongly the chevron is painted *)

Section LeadMoreFacts.

Import AnnotatedCameraWidget.
Local Open Scope Q_scope.

Lemma chevron_sz_range (d_rel : Q) :
  15 * (235 # 100) <= chevron_sz d_rel <= 30 * (235 # 100).
Proof.
  unfold chevron_sz.
  assert (H : 15 <= 30) by lra.
  pose proof (clamp_range (25 * 30 / (d_rel / 3 + 30)) 15 30 H). lra.
Qed.

(** X11. On a widget at least 36 wide, whatever the radar reports, the x
    of the tip of the chevron lies between 0 and the width less half the
    size, and its y is at most that of the projected point of the lead and
    at most the height less 0.6 sizes, so the tip is never painted off the
    left, right or bottom edge.  With a custom theme the chevron is filled
    with the colour of the theme, so that neither the distance nor the
    closing speed shows in its colour. *)
Theorem chevron_stays_on_widget (w : AnnotatedCameraWidget.t) (lead other : LeadData)
    (vd vd' : Q * Q) :
  (36 <= width w)%Z ->
  0 <= chevron_x (drawLead w lead vd)
  /\ chevron_x (drawLead w lead vd)
     <= inject_Z (width w) - chevron_size (drawLead w lead vd) / 2
  /\ chevron_y (drawLead w lead vd) <= snd vd
  /\ chevron_y (drawLead w lead vd)
     <= inject_Z (height w) - chevron_size (drawLead w lead vd) * (6 # 10)
  /\ (customColors w <> 0%Z ->
        chevron_brush (drawLead w lead vd) = chevron_brush (drawLead w other vd')).
Proof.
  intros Hw. unfold drawLead. cbn [chevron_x chevron_y chevron_size chevron_brush].
  pose proof (chevron_sz_range (getDRel lead)) as Hsz.
  assert (Hw' : inject_Z 36 <= inject_Z (width w)) by (rewrite <- Zle_Qle; exact Hw).
  change (inject_Z 36) with 36 in Hw'.
  assert (Hhalf : chevron_sz (getDRel lead) / 2 == chevron_sz (getDRel lead) * (1 # 2))
    by (field).
  assert (Hlohi : 0 <= inject_Z (width w) - chevron_sz (getDRel lead) / 2)
    by (rewrite Hhalf; lra).
  pose proof (clamp_range (fst vd) 0
                (inject_Z (width w) - chevron_sz (getDRel lead) / 2) Hlohi) as Hx.
  split; [apply Hx |]. split; [apply Hx |].
  split; [apply fmin_le_r |].
  split.
  { unfold fmin. case_Qlt (snd vd)
      (inject_Z (height w) - chevron_sz (getDRel lead) * (6 # 10)); lra. }
  intros Hc. apply Z.eqb_neq in Hc. rewrite Hc. reflexivity.
Qed.

Lemma chevron_stays_on_widget_witness :
  (36 <= width Examples.widget0)%Z
  /\ 0 <= chevron_x (drawLead Examples.widget0 Examples.lead_near (-50, 2000))
  /\ chevron_y (drawLead Examples.widget0 Examples.lead_near (-50, 2000))
     <= inject_Z (height Examples.widget0)
        - chevron_size (drawLead Examples.widget0 Examples.lead_near (-50, 2000))
          * (6 # 10).
Proof.
  assert (H : (36 <= width Examples.widget0)%Z) by (vm_compute; discriminate).
  destruct (chevron_stays_on_widget Examples.widget0 Examples.lead_near
              Examples.lead_none (-50, 2000) (0, 0) H) as (H1 & _ & _ & H4 & _).
  split; [exact H |]. split; [exact H1 | exact H4].
Defined.

Lemma raw_alpha_speed_antitone (c : Z) (d v1 v2 : Q) :
  v1 <= v2 -> raw_alpha c d v2 <= raw_alpha c d v1.
Proof.
  intros Hv. pose proof (speedBuff_pos c) as HS.
  assert (Hdiv : forall v, -1 * (v / speedBuff c) == (- v) / speedBuff c)
    by (intros v; field; lra).
  assert (Hpos : forall v, v <= 0 -> 0 <= (- v) / speedBuff c).
  { intros v Hv0. apply Qle_shift_div_l; [exact HS | lra]. }
  assert (Hmono : (- v2) / speedBuff c <= (- v1) / speedBuff c).
  { apply Qle_shift_div_r; [exact HS |].
    assert (Hx : (- v1) / speedBuff c * speedBuff c == - v1) by (field; lra).
    lra. }
  unfold raw_alpha. case_Qlt v1 0; case_Qlt v2 0; rewrite ?Hdiv.
  - lra.
  - pose proof (Hpos v1). lra.
  - lra.
  - lra.
Qed.

Lemma fillAlpha_full (c : Z) (d v : Q) :
  d < leadBuff c -> 255 <= raw_alpha c d v -> fillAlpha c d v = 255%Z.
Proof.
  intros Hd Hr. rewrite fillAlpha_unfold.
  apply Qlt_bool_true in Hd. rewrite Hd.
  assert (Hmin : fmin (raw_alpha c d v) 255 == 255).
  { unfold fmin. case_Qlt 255 (raw_alpha c d v); lra. }
  rewrite Qtruncate_nonneg by lra. rewrite Hmin. reflexivity.
Qed.

(** X12. At a given distance the fill opacity never falls when the lead
    closes in faster; it is the full 255 for a lead at distance 0 or less,
    and within the distance buffer for a lead closing in at the speed
    buffer or faster. *)
Theorem fillAlpha_closing_speed (customColors : Z) (d v1 v2 : Q) :
  (v1 <= v2 -> (fillAlpha customColors d v2 <= fillAlpha customColors d v1)%Z)
  /\ (d <= 0 -> fillAlpha customColors d v1 = 255%Z)
  /\ (0 <= d -> d < leadBuff customColors -> v1 <= - speedBuff customColors ->
        fillAlpha customColors d v1 = 255%Z).
Proof.
  pose proof (leadBuff_pos customColors) as HL.
  pose proof (speedBuff_pos customColors) as HS.
  split; [| split].
  - intros Hv. rewrite !fillAlpha_unfold.
    case_Qlt d (leadBuff customColors); [| lia].
    pose proof (raw_alpha_pos customColors d v1 Hcmp).
    pose proof (raw_alpha_pos customColors d v2 Hcmp).
    rewrite !Qtruncate_nonneg by (apply fmin_glb; lra).
    apply Qfloor_resp_le. apply fmin_mono_l.
    apply raw_alpha_speed_antitone. exact Hv.
  - intros Hd. apply fillAlpha_full; [lra |].
    assert (Hdl : d / leadBuff customColors <= 0).
    { apply Qle_shift_div_r; [exact HL | lra]. }
    unfold raw_alpha. case_Qlt v1 0; [| lra].
    assert (Hvs : -1 * (v1 / speedBuff customColors)
                  == (- v1) / speedBuff customColors) by (field; lra).
    assert (Hpos : 0 <= (- v1) / speedBuff customColors).
    { apply Qle_shift_div_l; [exact HS | lra]. }
    rewrite Hvs. lra.
  - intros Hd0 Hd Hv. apply fillAlpha_full; [exact Hd |].
    unfold raw_alpha.
    assert (Hneg : v1 < 0) by lra. apply Qlt_bool_true in Hneg. rewrite Hneg.
    assert (Hdl : d / leadBuff customColors <= 1).
    { apply Qle_shift_div_r; [exact HL | lra]. }
    assert (Hvs : -1 * (v1 / speedBuff customColors)
                  == (- v1) / speedBuff customColors) by (field; lra).
    assert (Hone : 1 <= (- v1) / speedBuff customColors).
    { apply Qle_shift_div_l; [exact HS | lra]. }
    rewrite Hvs. lra.
Qed.

Lemma fillAlpha_closing_speed_witness :
  -8 <= -2 /\ (fillAlpha 0 20 (-2) <= fillAlpha 0 20 (-8))%Z
  /\ 0 <= 39 /\ 39 < leadBuff 0 /\ -12 <= - speedBuff 0
  /\ fillAlpha 0 39 (-12) = 255%Z.
Proof.
  assert (H1 : -8 <= -2) by lra. assert (H2 : 0 <= 39) by lra.
  assert (H3 : 39 < leadBuff 0) by (cbn; lra).
  assert (H4 : -12 <= - speedBuff 0) by (cbn; lra).
  split; [exact H1 |].
  split; [exact (proj1 (fillAlpha_closing_speed 0 20 (-8) (-2)) H1) |].
  split; [exact H2 |]. split; [exact H3 |]. split; [exact H4 |].
  exact (proj2 (proj2 (fillAlpha_closing_speed 0 39 (-12) 0)) H2 H3 H4).
Defined.

End LeadMoreFacts.

(** ** updateState: what the widget keeps from one snapshot to the next *)

Section UpdateStateMoreFacts.

Import AnnotatedCameraWidget.
Local Open Scope Q_scope.

Lemma fmax_nonneg (v : Q) : 0 <= fmax 0 v.
Proof. unfold fmax. case_Qlt 0 v; lra. Qed.

(** X13. With conversion factors that are not negative, the speed on
    display is never negative, whatever speed the car reports; with a live
    controlsState it is the speed in use, or 0 if that is negative, times
    the factor of the unit. *)
Theorem displayed_speed_not_negative (E : Extern) (g : Globals) (s : UIState)
    (w : AnnotatedCameraWidget.t) :
  0 <= MS_TO_KPH E -> 0 <= MS_TO_MPH E ->
  0 <= speed (updateState E g s w)
  /\ (alive_controlsState (sm s) = true ->
        speed (updateState E g s w)
        == fmax 0 (if v_ego_cluster_seen (updateState E g s w)
                   then getVEgoCluster (carState (sm s))
                   else getVEgo (carState (sm s)))
           * (if UI.is_metric (scene s) then MS_TO_KPH E else MS_TO_MPH E)).
Proof.
  intros Hk Hm. unfold updateState. cbn [speed v_ego_cluster_seen].
  unfold speed_factor.
  split.
  - destruct (alive_controlsState (sm s)).
    + match goal with |- 0 <= fmax 0 ?v * _ => pose proof (fmax_nonneg v) end.
      destruct (UI.is_metric (scene s)); nra.
    + destruct (UI.is_metric (scene s)); lra.
  - intros ->. reflexivity.
Qed.

Lemma displayed_speed_not_negative_witness :
  0 <= MS_TO_KPH Examples.extern /\ 0 <= MS_TO_MPH Examples.extern
  /\ 0 <= speed (updateState Examples.extern Examples.globals0 Examples.ui_vienna
                   Examples.widget0).
Proof.
  assert (H1 : 0 <= MS_TO_KPH Examples.extern) by (cbn; lra).
  assert (H2 : 0 <= MS_TO_MPH Examples.extern) by (cbn; lra).
  split; [exact H1 |]. split; [exact H2 |].
  exact (proj1 (displayed_speed_not_negative Examples.extern Examples.globals0
                  Examples.ui_vienna Examples.widget0 H1 H2)).
Defined.

(** X14. Once a cluster speed has been seen, the widget never goes back to
    the plain vEgo: after any run of snapshots the flag is still set, and a
    live snapshot whose cluster speed reads 0 is displayed as speed 0
    whatever its vEgo. *)
Theorem cluster_speed_sticks (E : Extern) (g : Globals) (snaps : list UIState)
    (s : UIState) (w : AnnotatedCameraWidget.t) :
  v_ego_cluster_seen w = true ->
  v_ego_cluster_seen (fold_left (fun w s => updateState E g s w) snaps w) = true
  /\ (getVEgoCluster (carState (sm s)) == 0 ->
        speed (updateState E g s
                 (fold_left (fun w s => updateState E g s w) snaps w)) == 0).
Proof.
  intros Hseen.
  assert (Hfold : v_ego_cluster_seen
                    (fold_left (fun w s => updateState E g s w) snaps w) = true).
  { revert w Hseen. induction snaps as [| s0 snaps IH]; intros w Hseen.
    - exact Hseen.
    - cbn [fold_left]. apply IH. unfold updateState. cbn [v_ego_cluster_seen].
      rewrite Hseen. reflexivity. }
  split; [exact Hfold |].
  intros Hzero. unfold updateState at 1. cbn [speed]. rewrite Hfold. cbn [orb].
  destruct (alive_controlsState (sm s)); [| ring].
  unfold fmax. case_Qlt 0 (getVEgoCluster (carState (sm s))); [lra | ring].
Qed.

Lemma cluster_speed_sticks_witness :
  v_ego_cluster_seen
    (updateState Examples.extern Examples.globals0
       (mkUIState Examples.scene_plain
          (mkSubMaster true false false 0 0 0 Examples.controls_cruising
             (mkCarState 12 11 0) (mkNavInstruction 0 MUTCD)
             (mkDriverMonitoringState false false)
             (mkRadarState Examples.lead_none Examples.lead_none)
             (mkModelDataV2 0 []) (mkUiPlan []) (mkDriverStateV2 []))
          STATUS_ENGAGED true)
       Examples.widget0) = true
  /\ v_ego_cluster_seen
       (fold_left (fun w s => updateState Examples.extern Examples.globals0 s w)
          [Examples.ui_vienna; Examples.ui_stale]
          (updateState Examples.extern Examples.globals0
             (mkUIState Examples.scene_plain
                (mkSubMaster true false false 0 0 0 Examples.controls_cruising
                   (mkCarState 12 11 0) (mkNavInstruction 0 MUTCD)
                   (mkDriverMonitoringState false false)
                   (mkRadarState Examples.lead_none Examples.lead_none)
                   (mkModelDataV2 0 []) (mkUiPlan []) (mkDriverStateV2 []))
                STATUS_ENGAGED true)
             Examples.widget0)) = true.
Proof.
  split; [reflexivity |].
  refine (proj1 (cluster_speed_sticks Examples.extern Examples.globals0
                   [Examples.ui_vienna; Examples.ui_stale] Examples.ui_vienna _ _)).
  reflexivity.
Defined.

(** The fade state after one more snapshot. *)
Lemma dm_fade_step (E : Extern) (g : Globals) (s : UIState)
    (w : AnnotatedCameraWidget.t) :
  dm_fade_state (updateState E g s w)
  = clamp (dm_fade_state w
           + (2 # 10) * ((1 # 2)
                         - (if getIsActiveMode (driverMonitoringState (sm s))
                            then 1 else 0))) 0 1.
Proof. reflexivity. Qed.

Lemma inject_Z_succ (n : nat) : inject_Z (Z.of_nat (S n)) == inject_Z (Z.of_nat n) + 1.
Proof. rewrite Nat2Z.inj_succ. unfold Z.succ. rewrite inject_Z_plus. reflexivity. Qed.

(** X15. The fade of the driver-monitoring icon takes ten updates: from a
    fade state in \[0, 1\], ten or more updates in a row with monitoring
    active bring it to 0, and ten or more with monitoring inactive bring it
    to 1; in between it stays in \[0, 1\]. *)
Theorem dm_fade_completes (E : Extern) (g : Globals) (s : UIState)
    (w : AnnotatedCameraWidget.t) (n : nat) :
  0 <= dm_fade_state w <= 1 ->
  0 <= dm_fade_state (Nat.iter n (updateState E g s) w) <= 1
  /\ ((10 <= n)%nat ->
        dm_fade_state (Nat.iter n (updateState E g s) w)
        == if getIsActiveMode (driverMonitoringState (sm s)) then 0 else 1).
Proof.
  intros H0.
  assert (H01 : 0 <= 1) by lra.
  assert (Hinv : 0 <= dm_fade_state (Nat.iter n (updateState E g s) w) <= 1
                 /\ (if getIsActiveMode (driverMonitoringState (sm s))
                     then dm_fade_state (Nat.iter n (updateState E g s) w)
                          <= 1 - inject_Z (Z.of_nat n) * (1 # 10)
                          \/ dm_fade_state (Nat.iter n (updateState E g s) w) == 0
                     else inject_Z (Z.of_nat n) * (1 # 10)
                          <= dm_fade_state (Nat.iter n (updateState E g s) w)
                          \/ dm_fade_state (Nat.iter n (updateState E g s) w) == 1)).
  { induction n as [| n [IHr IHn]].
    - simpl Nat.iter. split; [exact H0 |].
      change (inject_Z (Z.of_nat 0)) with 0.
      destruct (getIsActiveMode _); left; lra.
    - simpl Nat.iter. rewrite dm_fade_step.
      set (d := dm_fade_state (Nat.iter n (updateState E g s) w)) in *.
      pose proof (inject_Z_succ n) as Hsucc.
      destruct (getIsActiveMode (driverMonitoringState (sm s))).
      + pose proof (clamp_range (d + (2 # 10) * ((1 # 2) - 1)) 0 1 H01) as Hc.
        split; [exact Hc |].
        unfold clamp in *.
        case_Qlt (d + (2 # 10) * ((1 # 2) - 1)) 0; [right; reflexivity |].
        case_Qlt 1 (d + (2 # 10) * ((1 # 2) - 1)); [lra |].
        destruct IHn as [IHn | IHn]; [left; lra | lra].
      + pose proof (clamp_range (d + (2 # 10) * ((1 # 2) - 0)) 0 1 H01) as Hc.
        split; [exact Hc |].
        unfold clamp in *.
        case_Qlt (d + (2 # 10) * ((1 # 2) - 0)) 0; [lra |].
        case_Qlt 1 (d + (2 # 10) * ((1 # 2) - 0)); [right; reflexivity |].
        destruct IHn as [IHn | IHn]; [left; lra | lra]. }
  destruct Hinv as [Hr Hn]. split; [exact Hr |].
  intros H10.
  assert (Hn10 : 10 <= inject_Z (Z.of_nat n)).
  { change 10 with (inject_Z 10). rewrite <- Zle_Qle. lia. }
  destruct (getIsActiveMode (driverMonitoringState (sm s)));
    destruct Hn as [Hn | Hn]; lra.
Qed.

Lemma dm_fade_completes_witness :
  0 <= dm_fade_state Examples.widget0 <= 1
  /\ dm_fade_state
       (Nat.iter 10 (updateState Examples.extern Examples.globals0 Examples.ui_vienna)
          Examples.widget0) == 1.
Proof.
  assert (H : 0 <= dm_fade_state Examples.widget0 <= 1) by (cbn; lra).
  split; [exact H |].
  exact (proj2 (dm_fade_completes Examples.extern Examples.globals0 Examples.ui_vienna
                  Examples.widget0 10 H) (le_n 10)).
Defined.

(** X16. The speed limit of the speed-limit controller reaches the sign
    one snapshot late: of two updates in a row, the second shows the
    rectangular sign for the limit the first snapshot carried, not for the
    one it reads itself, which it only stores for the next update. *)
Theorem slc_limit_lags_one_update (E : Extern) (g1 g2 : Globals) (s1 s2 : UIState)
    (w : AnnotatedCameraWidget.t) :
  has_us_speed_limit (updateState E g2 s2 (updateState E g1 s1 w))
  = (alive_navInstruction (sm s2) && valid_navInstruction (sm s2)
     && SpeedLimitSign_eqb (getSpeedLimitSign (navInstruction (sm s2))) MUTCD
     || Qtruthy (speed_limit (scene s1)))
  /\ slcSpeedLimit (updateState E g2 s2 (updateState E g1 s1 w))
     = speed_limit (scene s2)
  /\ (alive_navInstruction (sm s2) = false -> Qtruthy (speed_limit (scene s1)) = false ->
        speedLimit (updateState E g2 s2 (updateState E g1 s1 w)) == 0
        /\ paints_us_sign (drawHud g2 (updateState E g2 s2 (updateState E g1 s1 w)))
           = false).
Proof.
  split; [reflexivity |]. split; [reflexivity |].
  intros Hnav Hslc.
  assert (Hus : has_us_speed_limit (updateState E g2 s2 (updateState E g1 s1 w))
                = false).
  { unfold updateState at 1. cbn [has_us_speed_limit]. rewrite Hnav. cbn [andb orb].
    unfold updateState. cbn [slcSpeedLimit]. exact Hslc. }
  assert (Heu : has_eu_speed_limit (updateState E g2 s2 (updateState E g1 s1 w))
                = false).
  { unfold updateState at 1. cbn [has_eu_speed_limit]. rewrite Hnav. reflexivity. }
  split.
  - unfold updateState at 1. cbn [speedLimit]. rewrite Hnav. cbn [andb].
    assert (Hs : Qtruthy (slcSpeedLimit (updateState E g1 s1 w)) = false) by exact Hslc.
    rewrite Hs. ring.
  - unfold drawHud. rewrite Hus, Heu. cbn [app].
    unfold paints_us_sign. cbn [existsb orb].
    rewrite !existsb_app.
    repeat match goal with
           | |- context [if ?c then _ else _] => destruct c
           end; reflexivity.
Qed.

Lemma slc_limit_lags_one_update_witness :
  alive_navInstruction (sm Examples.ui_stale) = false
  /\ Qtruthy (speed_limit (scene Examples.ui_stale)) = false
  /\ paints_us_sign
       (drawHud Examples.globals0
          (updateState Examples.extern Examples.globals0 Examples.ui_stale
             (updateState Examples.extern Examples.globals0 Examples.ui_stale
                Examples.widget0))) = false.
Proof.
  split; [reflexivity |]. split; [reflexivity |].
  exact (proj2 (proj2 (proj2 (slc_limit_lags_one_update Examples.extern
                                Examples.globals0 Examples.globals0
                                Examples.ui_stale Examples.ui_stale
                                Examples.widget0)) eq_refl eq_refl)).
Defined.

(** X17. [updateState] keeps the turn-signal images complete: if the
    vector held 18 images before, it holds 18 after, whether or not the
    theme of the signals changed, and the theme key of the widget is the
    one of the scene; so for an animation of fewer than 18 frames the image
    of every index in range exists. *)
Theorem signal_images_stay_complete (E : Extern) (g : Globals) (s : UIState)
    (w : AnnotatedCameraWidget.t) (totalFrames idx : Z) (flip blindspot : bool) :
  length (signalImgVector w) = 18%nat ->
  (0 < totalFrames < 18)%Z -> (0 <= idx < totalFrames)%Z ->
  length (signalImgVector (updateState E g s w)) = 18%nat
  /\ customSignals (updateState E g s w) = custom_signals (scene s)
  /\ TurnSignal.signal_image totalFrames (signalImgVector (updateState E g s w))
       idx flip blindspot <> None.
Proof.
  intros Hlen HT Hidx.
  assert (Hlen' : length (signalImgVector (updateState E g s w)) = 18%nat).
  { unfold updateState. cbn [signalImgVector].
    destruct (negb _); [reflexivity | exact Hlen]. }
  split; [exact Hlen' |]. split; [reflexivity |].
  unfold TurnSignal.signal_image. rewrite Hlen'. change (Z.of_nat 18) with 18%Z.
  destruct (idx <? 18)%Z eqn:Hguard; [| apply Z.ltb_ge in Hguard; lia].
  assert (Hi : (0 <= TurnSignal.signal_index totalFrames 18 idx flip blindspot < 18)%Z).
  { unfold TurnSignal.signal_index, c_div, c_rem. change (18 ÷ 4)%Z with 4%Z.
    destruct blindspot.
    - destruct flip; lia.
    - rewrite int_wrap_small by lia.
      rewrite Z.rem_mod_nonneg by lia.
      pose proof (Z.mod_pos_bound (2 * idx) totalFrames) as Hm.
      destruct flip; lia. }
  destruct (TurnSignal.signal_index totalFrames 18 idx flip blindspot <? 0)%Z eqn:Hneg;
    [apply Z.ltb_lt in Hneg; lia |].
  apply nth_error_Some. rewrite Hlen'. lia.
Qed.

Lemma signal_images_stay_complete_witness :
  length (signalImgVector Examples.widget0) = 18%nat
  /\ (0 < 8 < 18)%Z /\ (0 <= 5 < 8)%Z
  /\ TurnSignal.signal_image 8
       (signalImgVector (updateState Examples.extern Examples.globals0
                           Examples.ui_themed Examples.widget0))
       5 true false <> None.
Proof.
  assert (H1 : length (signalImgVector Examples.widget0) = 18%nat) by reflexivity.
  assert (H2 : (0 < 8 < 18)%Z) by lia. assert (H3 : (0 <= 5 < 8)%Z) by lia.
  split; [exact H1 |]. split; [exact H2 |]. split; [exact H3 |].
  exact (proj2 (proj2 (signal_images_stay_complete Examples.extern Examples.globals0
                         Examples.ui_themed Examples.widget0 8 5 true false
                         H1 H2 H3))).
Defined.

End UpdateStateMoreFacts.

(** ** paintGL: what a frame shows *)

Section PaintMoreFacts.

Import AnnotatedCameraWidget HudMore.
Local Open Scope Q_scope.

Lemma skipn_app_length {A : Type} (l x : list A) : skipn (length l) (l ++ x) = x.
Proof. induction l as [| a l IH]; [reflexivity | exact IH]. Qed.

(** What [paint_world_objects] paints: the lanes, then at most two leads. *)
Lemma world_objects_painted (E : Extern) (s : UIState) (sc : UIScene)
    (w : AnnotatedCameraWidget.t) :
  existsb is_driver_state (snd (fst (paint_world_objects E s sc w))) = false
  /\ existsb is_hud (snd (fst (paint_world_objects E s sc w))) = false
  /\ (length (List.filter is_lead (snd (fst (paint_world_objects E s sc w)))) <= 2)%nat
  /\ (worldObjectsVisible s = false -> snd (fst (paint_world_objects E s sc w)) = [])
  /\ (getStatus (getLeadOne (radarState (sm s))) = false ->
      getStatus (getLeadTwo (radarState (sm s))) = false ->
        List.filter is_lead (snd (fst (paint_world_objects E s sc w))) = [])
  /\ (Qabs (getDRel (getLeadOne (radarState (sm s)))
            - getDRel (getLeadTwo (radarState (sm s)))) <= 3 ->
        (length (List.filter is_lead (snd (fst (paint_world_objects E s sc w)))) <= 1)%nat).
Proof.
  unfold paint_world_objects.
  destruct (worldObjectsVisible s);
    [| cbn [fst snd existsb List.filter length]; repeat split;
       try reflexivity; intros; lia].
  destruct (drawLaneLines _ _ _) as [lanes cfg1]. cbn [fst snd].
  destruct (longitudinal_control _);
    [| cbn [existsb List.filter length is_lead is_driver_state is_hud orb];
       repeat split; try reflexivity; intros; try discriminate; lia].
  case_Qlt 3 (Qabs (getDRel (getLeadOne (radarState (sm s)))
                    - getDRel (getLeadTwo (radarState (sm s)))));
    destruct (getStatus (getLeadOne (radarState (sm s))));
    destruct (getStatus (getLeadTwo (radarState (sm s))));
    cbn [existsb List.filter length is_lead is_driver_state is_hud orb andb app];
    (split; [reflexivity |]); (split; [reflexivity |]);
    (split; [lia |]); (split; [discriminate |]);
    (split; [intros; try discriminate; reflexivity |]);
    intros; try lia; exfalso; lra.
Qed.

Lemma world_objects_themes (E : Extern) (s : UIState) (sc : UIScene)
    (w : AnnotatedCameraWidget.t) :
  snd (paint_world_objects E s sc w) = themeConfiguration w
  \/ (customColors w <> 0%Z
      /\ snd (paint_world_objects E s sc w)
         = theme_touch (themeConfiguration w) (customColors w)).
Proof.
  unfold paint_world_objects.
  destruct (worldObjectsVisible s); [| left; reflexivity].
  unfold drawLaneLines. cbn [snd].
  destruct (customColors w =? 0)%Z eqn:Hc; cbn [negb].
  - left. reflexivity.
  - right. apply Z.eqb_neq in Hc. split; [exact Hc | reflexivity].
Qed.

(** A painted call shows the camera frame, then the world objects, then
    the driver-monitoring icon if any, then the head-up display; in the
    driver-camera view it shows the camera frame alone. *)
Lemma painted_layers (E : Extern) (t0 t1 : Q) (pw : PaintWorld) :
  skips_frame (widget pw) = false ->
  exists stream calib b dmoji,
    (dmoji = [] \/ (dmoji = [OpDriverState] /\ hideBottomIcons (widget pw) = false
                    /\ muteDM (widget pw) = false))
    /\ painted E t0 t1 pw
       = OpCameraFrame stream calib (getFrameId (modelV2 (sm (ui pw))))
         :: (if show_driver_camera (scene (ui pw)) then []
             else snd (fst (paint_world_objects E (ui pw)
                              (set_wide_cam b (scene (ui pw))) (widget pw)))
                  ++ dmoji ++ [OpHud (drawHud (globals pw) (widget pw))]).
Proof.
  intros Hskip. unfold painted, paintGL. rewrite Hskip.
  change (show_driver_camera (set_wide_cam ?b (scene (ui pw))))
    with (show_driver_camera (scene (ui pw))).
  destruct (show_driver_camera (scene (ui pw))); cbn [negb].
  - eexists _, _, false, []. split; [left; reflexivity |].
    cbn [screen]. rewrite skipn_app_length. reflexivity.
  - destruct (paint_world_objects _ _ _ _) as [[sc2 objects] cfg1] eqn:Hpwo.
    destruct (hideBottomIcons (widget pw)) eqn:Hhide; cbn [negb andb].
    + eexists _, _, _, []. split; [left; reflexivity |].
      cbn [screen]. rewrite skipn_app_length, Hpwo. reflexivity.
    + destruct (started_frame sc2 <? _)%Z; cbn [andb].
      * destruct (muteDM (widget pw)) eqn:Hmute; cbn [negb].
        -- eexists _, _, _, []. split; [left; reflexivity |].
           cbn [screen]. rewrite skipn_app_length, Hpwo. reflexivity.
        -- eexists _, _, _, [OpDriverState].
           split; [right; repeat split; reflexivity |].
           cbn [screen]. rewrite skipn_app_length, Hpwo. reflexivity.
      * eexists _, _, _, []. split; [left; reflexivity |].
        cbn [screen]. rewrite skipn_app_length, Hpwo. reflexivity.
Qed.

Lemma painted_skipped (E : Extern) (t0 t1 : Q) (pw : PaintWorld) :
  skips_frame (widget pw) = true -> painted E t0 t1 pw = [].
Proof.
  intros H. unfold painted. rewrite (paintGL_skipped E t0 t1 pw H).
  cbn [screen]. rewrite <- (app_nil_r (screen pw)) at 2.
  apply skipn_app_length.
Qed.

(** No driver-monitoring icon while the bottom icons are hidden or the
    icon is muted. *)
Lemma painted_without_dm (E : Extern) (t0 t1 : Q) (pw : PaintWorld) :
  hideBottomIcons (widget pw) = true \/ muteDM (widget pw) = true ->
  existsb is_driver_state (painted E t0 t1 pw) = false.
Proof.
  intros Hhide.
  destruct (skips_frame (widget pw)) eqn:Hskip.
  { rewrite (painted_skipped E t0 t1 pw Hskip). reflexivity. }
  destruct (painted_layers E t0 t1 pw Hskip) as (stream & calib & b & dmoji & Hdm & Hp).
  rewrite Hp. cbn [existsb is_driver_state orb].
  destruct (show_driver_camera (scene (ui pw))); [reflexivity |].
  rewrite !existsb_app.
  destruct (world_objects_painted E (ui pw) (set_wide_cam b (scene (ui pw))) (widget pw))
    as (Hnone & _).
  rewrite Hnone. cbn [orb].
  destruct Hdm as [-> | (-> & Hh & Hm)]; [reflexivity |].
  destruct Hhide; congruence.
Qed.

(** X18. A call of [paintGL] paints at most two lead chevrons, and none
    when the driver camera is shown, when the world objects are not
    visible, or when neither lead is tracked; two leads within 3 m of each
    other get one chevron at most. *)
Theorem at_most_two_chevrons (E : Extern) (t0 t1 : Q) (pw : PaintWorld) :
  (length (List.filter is_lead (painted E t0 t1 pw)) <= 2)%nat
  /\ (show_driver_camera (scene (ui pw)) = true ->
        List.filter is_lead (painted E t0 t1 pw) = [])
  /\ (worldObjectsVisible (ui pw) = false ->
        List.filter is_lead (painted E t0 t1 pw) = [])
  /\ (getStatus (getLeadOne (radarState (sm (ui pw)))) = false ->
      getStatus (getLeadTwo (radarState (sm (ui pw)))) = false ->
        List.filter is_lead (painted E t0 t1 pw) = [])
  /\ (Qabs (getDRel (getLeadOne (radarState (sm (ui pw))))
            - getDRel (getLeadTwo (radarState (sm (ui pw))))) <= 3 ->
        (length (List.filter is_lead (painted E t0 t1 pw)) <= 1)%nat).
Proof.
  destruct (skips_frame (widget pw)) eqn:Hskip.
  { rewrite (painted_skipped E t0 t1 pw Hskip). cbn.
    repeat split; intros; try reflexivity; lia. }
  destruct (painted_layers E t0 t1 pw Hskip) as (stream & calib & b & dmoji & Hdm & ->).
  cbn [List.filter is_lead].
  destruct (show_driver_camera (scene (ui pw))).
  { cbn. repeat split; intros; try reflexivity; lia. }
  assert (Hrest : List.filter is_lead
                    (dmoji ++ [OpHud (drawHud (globals pw) (widget pw))]) = []).
  { destruct Hdm as [-> | [-> _]]; reflexivity. }
  rewrite List.filter_app, Hrest, app_nil_r.
  destruct (world_objects_painted E (ui pw) (set_wide_cam b (scene (ui pw))) (widget pw))
    as (_ & _ & H2 & Hvis & Hnone & Hnear).
  split; [exact H2 |]. split; [discriminate |].
  split; [intros Hv; rewrite (Hvis Hv); reflexivity |].
  split; [exact Hnone | exact Hnear].
Qed.

Lemma at_most_two_chevrons_witness :
  (length (List.filter is_lead (painted Examples.extern 1040 1043
                                  Examples.paint_world0)) <= 2)%nat
  /\ worldObjectsVisible
       (ui (mkPaintWorld Examples.ui_stale Examples.widget0 Examples.globals0
              Examples.stores_empty [] [])) = false
  /\ List.filter is_lead
       (painted Examples.extern 1040 1043
          (mkPaintWorld Examples.ui_stale Examples.widget0 Examples.globals0
             Examples.stores_empty [] [])) = [].
Proof.
  split; [exact (proj1 (at_most_two_chevrons Examples.extern 1040 1043
                          Examples.paint_world0)) |].
  split; [reflexivity |].
  exact (proj1 (proj2 (proj2 (at_most_two_chevrons Examples.extern 1040 1043
                                (mkPaintWorld Examples.ui_stale Examples.widget0
                                   Examples.globals0 Examples.stores_empty [] []))))
           eq_refl).
Defined.

(** X19. A call that is not skipped paints the camera frame first.  In the
    driver-camera view it paints nothing else and asks for the driver
    stream; otherwise the last thing it paints is the head-up display of
    the widget, and the driver-monitoring icon is painted only while the
    bottom icons are not hidden and the icon is not muted. *)
Theorem frame_first_hud_last (E : Extern) (t0 t1 : Q) (pw : PaintWorld) :
  skips_frame (widget pw) = false ->
  (exists stream calib rest,
     painted E t0 t1 pw
     = OpCameraFrame stream calib (getFrameId (modelV2 (sm (ui pw)))) :: rest)
  /\ (show_driver_camera (scene (ui pw)) = true ->
        length (painted E t0 t1 pw) = 1%nat
        /\ requested_stream_type (cam (widget (paintGL E t0 t1 pw)))
           = VISION_STREAM_DRIVER)
  /\ (show_driver_camera (scene (ui pw)) = false ->
        List.last (painted E t0 t1 pw) OpDriverState
        = OpHud (drawHud (globals pw) (widget pw)))
  /\ (hideBottomIcons (widget pw) = true \/ muteDM (widget pw) = true ->
        existsb is_driver_state (painted E t0 t1 pw) = false).
Proof.
  intros Hskip.
  destruct (painted_layers E t0 t1 pw Hskip) as (stream & calib & b & dmoji & Hdm & Hp).
  split; [rewrite Hp; eauto |].
  split.
  { intros Hd. rewrite Hp, Hd. split; [reflexivity |].
    unfold paintGL. rewrite Hskip.
    change (show_driver_camera (set_wide_cam ?b (scene (ui pw))))
      with (show_driver_camera (scene (ui pw))).
    rewrite Hd. reflexivity. }
  split.
  { intros Hd. rewrite Hp, Hd.
    rewrite app_assoc.
    change (?a :: ?l ++ [?h]) with ((a :: l) ++ [h]).
    apply List.last_last. }
  apply painted_without_dm.
Qed.

Lemma frame_first_hud_last_witness :
  skips_frame (widget Examples.paint_world0) = false
  /\ show_driver_camera (scene (ui Examples.paint_world0)) = false
  /\ List.last (painted Examples.extern 1040 1043 Examples.paint_world0) OpDriverState
     = OpHud (drawHud (globals Examples.paint_world0) (widget Examples.paint_world0)).
Proof.
  assert (H1 : skips_frame (widget Examples.paint_world0) = false) by reflexivity.
  assert (H2 : show_driver_camera (scene (ui Examples.paint_world0)) = false)
    by reflexivity.
  split; [exact H1 |]. split; [exact H2 |].
  exact (proj1 (proj2 (proj2 (frame_first_hud_last Examples.extern 1040 1043
                                Examples.paint_world0 H1))) H2).
Defined.

End PaintMoreFacts.

(** ** paintGL: the wide camera, the themes, the hidden icons *)

Section PaintStateFacts.

Import AnnotatedCameraWidget HudMore.
Local Open Scope Q_scope.

(** Splits a painted call along its tests, down to the world objects. *)
Ltac painted_call_cases H :=
  unfold paintGL; rewrite H;
  destruct (negb (show_driver_camera _));
  [ destruct (paint_world_objects _ _ _ _) as [[? ?] ?] eqn:?;
    destruct (_ && _ && _) |].

(** X20. While a wide camera is available and not disabled, the wide
    stream is requested only in experimental mode with a valid wide
    calibration.  Given those two, it is requested below 10 m/s and, at
    every speed, when the wide camera is the only stream; with more than
    one stream it is not requested above 15 m/s, and from 10 to 15 m/s the
    previous request stands.  When no wide camera is available, or when it
    is disabled, the request is left as it was, even if it was made before.
    A call that paints stores the request in the widget and under
    "WideCamera". *)
Theorem wide_camera_hysteresis (E : Extern) (t0 t1 : Q) (pw : PaintWorld) :
  (existsb (VisionStreamType_eqb VISION_STREAM_WIDE_ROAD)
     (available_streams (cam (widget pw)))
   && negb (wide_camera_disabled (scene (ui pw))) = true ->
     (next_wide_cam_requested (ui pw) (widget pw) = true ->
        getExperimentalMode (controlsState (sm (ui pw))) = true
        /\ calibration_wide_valid (scene (ui pw)) = true)
     /\ (getVEgo (carState (sm (ui pw))) < 10 ->
           next_wide_cam_requested (ui pw) (widget pw)
           = getExperimentalMode (controlsState (sm (ui pw)))
             && calibration_wide_valid (scene (ui pw)))
     /\ (15 < getVEgo (carState (sm (ui pw))) ->
         length (available_streams (cam (widget pw))) <> 1%nat ->
           next_wide_cam_requested (ui pw) (widget pw) = false)
     /\ (10 <= getVEgo (carState (sm (ui pw))) <= 15 ->
         length (available_streams (cam (widget pw))) <> 1%nat ->
           next_wide_cam_requested (ui pw) (widget pw)
           = wide_cam_requested (widget pw)
             && getExperimentalMode (controlsState (sm (ui pw)))
             && calibration_wide_valid (scene (ui pw)))
     /\ (length (available_streams (cam (widget pw))) = 1%nat ->
           next_wide_cam_requested (ui pw) (widget pw)
           = getExperimentalMode (controlsState (sm (ui pw)))
             && calibration_wide_valid (scene (ui pw))))
  /\ (existsb (VisionStreamType_eqb VISION_STREAM_WIDE_ROAD)
        (available_streams (cam (widget pw)))
      && negb (wide_camera_disabled (scene (ui pw))) = false ->
        next_wide_cam_requested (ui pw) (widget pw) = wide_cam_requested (widget pw))
  /\ (skips_frame (widget pw) = false ->
        wide_cam_requested (widget (paintGL E t0 t1 pw))
        = next_wide_cam_requested (ui pw) (widget pw)
        /\ getBool (paramsMemory (stores (paintGL E t0 t1 pw))) "WideCamera"
           = next_wide_cam_requested (ui pw) (widget pw)).
Proof.
  split; [| split].
  - intros Hwide. unfold next_wide_cam_requested. rewrite Hwide.
    split; [| split; [| split; [| split]]].
    + intros H. apply andb_true_iff in H. destruct H as [H Hc].
      apply andb_true_iff in H. destruct H as [_ He]. split; assumption.
    + intros Hv. apply Qlt_bool_true in Hv. rewrite Hv. reflexivity.
    + intros Hv Hlen. apply Nat.eqb_neq in Hlen. rewrite Hlen.
      assert (Hv10 : Qlt_bool (getVEgo (carState (sm (ui pw)))) 10 = false)
        by (apply Qlt_bool_false; lra).
      apply Qlt_bool_true in Hv. rewrite Hv10, Hv. reflexivity.
    + intros [Hv1 Hv2] Hlen. apply Nat.eqb_neq in Hlen. rewrite Hlen.
      apply Qlt_bool_false in Hv1, Hv2. rewrite Hv1, Hv2. reflexivity.
    + intros Hlen. rewrite Hlen. cbn [Nat.eqb]. rewrite orb_true_r. reflexivity.
  - intros Hwide. unfold next_wide_cam_requested. rewrite Hwide. reflexivity.
  - intros Hskip. split.
    + painted_call_cases Hskip; reflexivity.
    + painted_call_cases Hskip; cbn [stores paramsMemory];
        unfold getBool, putBoolNonBlocking, putBool;
        rewrite lookup_insert_eq; reflexivity.
Qed.

Lemma wide_camera_hysteresis_witness :
  skips_frame (widget Examples.paint_world0) = false
  /\ getVEgo (carState (sm (ui Examples.paint_world0))) < 10
  /\ getBool (paramsMemory (stores (paintGL Examples.extern 1040 1043
                                      Examples.paint_world0))) "WideCamera"
     = next_wide_cam_requested (ui Examples.paint_world0) (widget Examples.paint_world0)
  /\ next_wide_cam_requested (ui Examples.paint_world0) (widget Examples.paint_world0)
     = getExperimentalMode (controlsState (sm (ui Examples.paint_world0)))
       && calibration_wide_valid (scene (ui Examples.paint_world0)).
Proof.
  assert (H1 : skips_frame (widget Examples.paint_world0) = false) by reflexivity.
  assert (H2 : getVEgo (carState (sm (ui Examples.paint_world0))) < 10)
    by (cbn; lra).
  destruct (wide_camera_hysteresis Examples.extern 1040 1043 Examples.paint_world0)
    as (Hon & _ & Hstore).
  split; [exact H1 |]. split; [exact H2 |].
  split; [exact (proj2 (Hstore H1)) |].
  exact (proj1 (proj2 (Hon eq_refl)) H2).
Defined.

Lemma theme_touch_keeps (cfg : gmap Z Theme) (k j : Z) (t : Theme) :
  cfg !! j = Some t -> theme_touch cfg k !! j = Some t.
Proof.
  intros H. unfold theme_touch. destruct (cfg !! k) eqn:Hk; [exact H |].
  rewrite lookup_insert_ne; [exact H |]. intros ->. congruence.
Qed.

(** X21. Painting never changes or removes a theme: every entry of
    [themeConfiguration] is the same after [paintGL] as before.  Without a
    custom colour theme, the whole table is the same; with a key the table
    does not hold, the call can add an entry for that key: the empty theme
    with no name, an invalid colour and no stops. *)
Theorem painting_keeps_themes (E : Extern) (t0 t1 : Q) (pw : PaintWorld) :
  (forall (k : Z) (t : Theme),
     themeConfiguration (widget pw) !! k = Some t ->
     themeConfiguration (widget (paintGL E t0 t1 pw)) !! k = Some t)
  /\ (customColors (widget pw) = 0%Z ->
        themeConfiguration (widget (paintGL E t0 t1 pw))
        = themeConfiguration (widget pw))
  /\ (forall (k : Z) (t : Theme),
        themeConfiguration (widget pw) !! k = None ->
        themeConfiguration (widget (paintGL E t0 t1 pw)) !! k = Some t ->
        k = customColors (widget pw) /\ t = default_theme).
Proof.
  assert (Hcfg : themeConfiguration (widget (paintGL E t0 t1 pw))
                 = themeConfiguration (widget pw)
                 \/ (customColors (widget pw) <> 0%Z
                     /\ themeConfiguration (widget (paintGL E t0 t1 pw))
                        = theme_touch (themeConfiguration (widget pw))
                            (customColors (widget pw)))).
  { destruct (skips_frame (widget pw)) eqn:Hskip.
    - rewrite (paintGL_skipped E t0 t1 pw Hskip). left. reflexivity.
    - unfold paintGL. rewrite Hskip.
      destruct (negb (show_driver_camera _)); [| left; reflexivity].
      match goal with
      | |- context [paint_world_objects E ?s ?sc ?w] =>
          pose proof (world_objects_themes E s sc w) as Hw;
          destruct (paint_world_objects E s sc w) as [[sc2 objects] cfg1]
      end.
      cbn [snd] in Hw.
      destruct (_ && _ && _); exact Hw. }
  split; [| split].
  - intros k t Hk. destruct Hcfg as [-> | [_ ->]]; [exact Hk |].
    apply theme_touch_keeps. exact Hk.
  - intros Hc. destruct Hcfg as [-> | [Hne _]]; [reflexivity | contradiction].
  - intros k t Hnone Hsome. destruct Hcfg as [Heq | [_ Heq]]; rewrite Heq in Hsome.
    + congruence.
    + unfold theme_touch in Hsome.
      destruct (themeConfiguration (widget pw) !! customColors (widget pw)) eqn:Hc;
        [congruence |].
      destruct (decide (customColors (widget pw) = k)) as [<- | Hne].
      * rewrite lookup_insert_eq in Hsome. split; [reflexivity | congruence].
      * rewrite lookup_insert_ne in Hsome by exact Hne. congruence.
Qed.

Lemma painting_keeps_themes_witness :
  themeConfiguration (widget Examples.paint_world0) !! 2%Z
  = Some (mkTheme "tesla_theme" (Rgba 0 72 255 255)
            (theme_stops_of (223 / 360) 1 (1 # 2)))
  /\ themeConfiguration (widget (paintGL Examples.extern 1040 1043
                                   Examples.paint_world0)) !! 2%Z
     = Some (mkTheme "tesla_theme" (Rgba 0 72 255 255)
               (theme_stops_of (223 / 360) 1 (1 # 2))).
Proof.
  assert (H : themeConfiguration (widget Examples.paint_world0) !! 2%Z
              = Some (mkTheme "tesla_theme" (Rgba 0 72 255 255)
                        (theme_stops_of (223 / 360) 1 (1 # 2)))) by reflexivity.
  split; [exact H |].
  exact (proj1 (painting_keeps_themes Examples.extern 1040 1043 Examples.paint_world0)
           2%Z _ H).
Defined.

(** X22. An alert on display hides the bottom icons: after [updateState]
    has read a snapshot whose alert size is not NONE, the personality
    button is invisible, the map-settings button (if enabled) is invisible,
    the head-up display has no compass, and a frame painted from that
    widget has no driver-monitoring icon. *)
Theorem alert_hides_bottom_icons (E : Extern) (g : Globals) (s : UIState)
    (w : AnnotatedCameraWidget.t) (t0 t1 : Q) (pw : PaintWorld) :
  getAlertSize (controlsState (sm s)) <> NONE ->
  widget pw = updateState E g s w ->
  hideBottomIcons (updateState E g s w) = true
  /\ personality_btn_visible (updateState E g s w) = false
  /\ (btn_enabled (map_settings_btn w) = true ->
        btn_visible (map_settings_btn (updateState E g s w)) = false)
  /\ ~ In Compass (drawHud g (updateState E g s w))
  /\ existsb is_driver_state (painted E t0 t1 pw) = false.
Proof.
  intros Halert Hw.
  assert (Hhide : hideBottomIcons (updateState E g s w) = true).
  { unfold updateState. cbn [hideBottomIcons].
    destruct (getAlertSize (controlsState (sm s))); [contradiction | | |]; reflexivity. }
  assert (Hpers : personality_btn_visible (updateState E g s w)
                  = onroadAdjustableProfiles w
                    && negb (hideBottomIcons (updateState E g s w))
                    && negb (show_driver_camera (scene s))) by reflexivity.
  assert (Hmap : btn_enabled (map_settings_btn w) = true ->
                 btn_visible (map_settings_btn (updateState E g s w))
                 = negb (hideBottomIcons (updateState E g s w))).
  { intros Hen. unfold updateState. cbn [map_settings_btn hideBottomIcons].
    rewrite Hen. reflexivity. }
  split; [exact Hhide |].
  split; [rewrite Hpers, Hhide; cbn [negb]; rewrite andb_false_r; reflexivity |].
  split; [intros Hen; rewrite (Hmap Hen), Hhide; reflexivity |].
  split.
  { unfold drawHud. rewrite Hhide. rewrite andb_false_r.
    intros Hin. repeat (apply in_app_or in Hin; destruct Hin as [Hin | Hin]);
      repeat match type of Hin with
             | In _ (if ?c then _ else _) => destruct c
             end;
      cbn [In] in Hin; intuition discriminate. }
  apply painted_without_dm. left. rewrite Hw. exact Hhide.
Qed.

Lemma alert_hides_bottom_icons_witness :
  getAlertSize
    (controlsState
       (sm (mkUIState Examples.scene_plain
              (mkSubMaster true false false 12 12 12
                 (mkControlsState 0 100 MID false true true)
                 Examples.car_slow (mkNavInstruction 0 MUTCD)
                 (mkDriverMonitoringState true false)
                 (mkRadarState Examples.lead_none Examples.lead_none)
                 (mkModelDataV2 0 []) (mkUiPlan []) (mkDriverStateV2 []))
              STATUS_ENGAGED true))) <> NONE
  /\ existsb is_driver_state
       (painted Examples.extern 1040 1043
          (mkPaintWorld Examples.ui_vienna
             (updateState Examples.extern Examples.globals0
                (mkUIState Examples.scene_plain
                   (mkSubMaster true false false 12 12 12
                      (mkControlsState 0 100 MID false true true)
                      Examples.car_slow (mkNavInstruction 0 MUTCD)
                      (mkDriverMonitoringState true false)
                      (mkRadarState Examples.lead_none Examples.lead_none)
                      (mkModelDataV2 0 []) (mkUiPlan []) (mkDriverStateV2 []))
                   STATUS_ENGAGED true)
                Examples.widget0)
             Examples.globals0 Examples.stores_empty [] [])) = false.
Proof.
  assert (H : getAlertSize
                (controlsState
                   (sm (mkUIState Examples.scene_plain
                          (mkSubMaster true false false 12 12 12
                             (mkControlsState 0 100 MID false true true)
                             Examples.car_slow (mkNavInstruction 0 MUTCD)
                             (mkDriverMonitoringState true false)
                             (mkRadarState Examples.lead_none Examples.lead_none)
                             (mkModelDataV2 0 []) (mkUiPlan []) (mkDriverStateV2 []))
                          STATUS_ENGAGED true))) <> NONE) by discriminate.
  split; [exact H |].
  refine (proj2 (proj2 (proj2 (proj2
            (alert_hides_bottom_icons Examples.extern Examples.globals0 _
               Examples.widget0 1040 1043 _ H _))))).
  reflexivity.
Defined.

End PaintStateFacts.

(** ** OnroadWindow: statistics, clicks and the map panel *)

Section WindowFacts.

Import OnroadWindow OnroadWindowMore.

(** X23. One pass over the frame-rate block, whatever the rounding of
    its sum and quotient, leaves [fps] between the doubles 0.1 and 99.9 and
    the minimum and the maximum around it.  At a reset the minimum and the
    maximum both become that sample, the frame count becomes 1 and the
    reset time the clock reading; otherwise the minimum does not rise, the
    maximum does not fall, neither moves for a sample between them, and a
    frame count below the largest [int] grows by one. *)
Theorem fps_extremes_bracket_sample (X : WindowExtern) (now : Z) (fps : Q)
    (st : FpsStats) :
  (minAllowedFPS <= snd (calculate_fps X now fps st) <= maxAllowedFPS)%Q
  /\ (minFPS (fst (calculate_fps X now fps st)) <= snd (calculate_fps X now fps st)
      <= maxFPS (fst (calculate_fps X now fps st)))%Q
  /\ (reset_due now st ->
      (minFPS (fst (calculate_fps X now fps st)) == snd (calculate_fps X now fps st))%Q
      /\ (maxFPS (fst (calculate_fps X now fps st))
          == snd (calculate_fps X now fps st))%Q
      /\ frameCount (fst (calculate_fps X now fps st)) = 1
      /\ lastResetTime (fst (calculate_fps X now fps st)) = Some now)
  /\ (no_reset_due now st ->
      (minFPS (fst (calculate_fps X now fps st)) <= minFPS st)%Q
      /\ (maxFPS st <= maxFPS (fst (calculate_fps X now fps st)))%Q
      /\ ((minFPS st <= snd (calculate_fps X now fps st) <= maxFPS st)%Q ->
          (minFPS (fst (calculate_fps X now fps st)) == minFPS st)%Q
          /\ (maxFPS (fst (calculate_fps X now fps st)) == maxFPS st)%Q)
      /\ (- 2 ^ 31 <= frameCount st < INT_MAX ->
          frameCount (fst (calculate_fps X now fps st)) = frameCount st + 1)).
Proof.
  assert (Hb : (minAllowedFPS <= maxAllowedFPS)%Q)
    by (unfold minAllowedFPS, maxAllowedFPS; lra).
  pose proof (qBound_range minAllowedFPS fps maxAllowedFPS Hb) as Hf.
  assert (Hmin : forall m f : Q, (qMin m f <= m /\ qMin m f <= f)%Q).
  { intros m f. unfold qMin. case_Qlt m f; split; lra. }
  assert (Hmax : forall m f : Q, (m <= qMax m f /\ f <= qMax m f)%Q).
  { intros m f. unfold qMax. case_Qlt m f; split; lra. }
  unfold calculate_fps.
  set (f := qBound minAllowedFPS fps maxAllowedFPS) in *.
  set (last := match lastResetTime st with Some t => t | None => now end).
  cbn [fst snd].
  split; [exact Hf |].
  split.
  { cbn [minFPS maxFPS]. split; [apply Hmin | apply Hmax]. }
  split.
  - intros (t & Ht & Hdue).
    assert (Hlast : (oneMinuteInMilliseconds <=? now - last) = true).
    { subst last. rewrite Ht. apply Z.leb_le. exact Hdue. }
    rewrite Hlast. cbn [minFPS maxFPS frameCount lastResetTime].
    split.
    { unfold qMin. case_Qlt maxAllowedFPS f; lra. }
    split.
    { unfold qMax. case_Qlt minAllowedFPS f; lra. }
    split; reflexivity.
  - intros Hno.
    assert (Hlast : (oneMinuteInMilliseconds <=? now - last) = false).
    { apply Z.leb_gt. subst last.
      destruct (lastResetTime st) as [t |] eqn:Ht.
      - apply Hno. exact Ht.
      - unfold oneMinuteInMilliseconds. lia. }
    rewrite Hlast. cbn [minFPS maxFPS frameCount lastResetTime].
    split; [apply Hmin |]. split; [apply Hmax |].
    split.
    + intros [H1 H2]. split.
      * unfold qMin. case_Qlt (minFPS st) f; lra.
      * unfold qMax. case_Qlt (maxFPS st) f; lra.
    + intros Hc. unfold INT_MAX in Hc. apply int_wrap_small. lia.
Qed.

Lemma fps_extremes_bracket_sample_witness :
  reset_due 70000 Examples2.stats_two
  /\ (minFPS (fst (calculate_fps Examples2.window_extern 70000 (20 # 1)
                     Examples2.stats_two))
      == snd (calculate_fps Examples2.window_extern 70000 (20 # 1)
                Examples2.stats_two))%Q
  /\ no_reset_due 6000 Examples2.stats_two
  /\ frameCount (fst (calculate_fps Examples2.window_extern 6000 (20 # 1)
                        Examples2.stats_two)) = 3.
Proof.
  assert (H1 : reset_due 70000 Examples2.stats_two).
  { exists 5000. split; [reflexivity | unfold oneMinuteInMilliseconds; lia]. }
  assert (H2 : no_reset_due 6000 Examples2.stats_two).
  { intros t Ht. injection Ht as <-. unfold oneMinuteInMilliseconds. lia. }
  split; [exact H1 |].
  split; [exact (proj1 (proj1 (proj2 (proj2
                   (fps_extremes_bracket_sample Examples2.window_extern 70000 (20 # 1)
                      Examples2.stats_two))) H1)) |].
  split; [exact H2 |].
  apply (proj2 (proj2 (proj2 (proj2 (proj2 (proj2
           (fps_extremes_bracket_sample Examples2.window_extern 6000 (20 # 1)
              Examples2.stats_two))) H2)))).
  unfold INT_MAX. cbn. lia.
Defined.

Lemma new_effects_app (w w' : World) (l : list Effect) :
  effects w' = effects w ++ l -> new_effects w w' = l.
Proof.
  intros H. unfold new_effects. rewrite H. clear H.
  induction (effects w) as [| e es IH]; [reflexivity | exact IH].
Qed.

(** What a press outside the rectangles and away from [timeoutPoint] does
    in wheel mode. *)
Lemma mousePressEvent_wheel (sc : UIScene) (pos : QPoint) (w : World) :
  outside_rects (window w) pos = true ->
  experimental_mode_via_wheel sc = true ->
  QPoint_eqb pos (timeoutPoint (window w)) = false ->
  mousePressEvent sc pos w = experimental_click sc w.
Proof.
  intros Hout Hwheel Hpt. unfold mousePressEvent.
  unfold outside_rects in Hout. apply negb_true_iff in Hout. rewrite Hout.
  rewrite Hwheel, Hpt. cbn [negb andb].
  destruct (map_click sc true (experimental_click sc w)) eqn:Hm.
  rewrite <- Hm. unfold map_click.
  destruct (map (window (experimental_click sc w))); reflexivity.
Qed.

(** A press at [timeoutPoint] outside the three rectangles is never a
    click on the widget: it goes to the map panel and to the parent. *)
Lemma mousePressEvent_self (sc : UIScene) (w : World) :
  outside_rects (window w) (timeoutPoint (window w)) = true ->
  mousePressEvent sc (timeoutPoint (window w)) w
  = params_putBoolNonBlocking "Sidebar"
      (negb (0 <? geometry_x (window (map_click sc false w))))
      (emit ParentMousePressEvent (map_click sc false w)).
Proof.
  intros Hout. unfold mousePressEvent.
  unfold outside_rects in Hout. apply negb_true_iff in Hout. rewrite Hout.
  assert (Hself : QPoint_eqb (timeoutPoint (window w)) (timeoutPoint (window w)) = true).
  { unfold QPoint_eqb. rewrite !Z.eqb_refl. reflexivity. }
  rewrite Hself, andb_false_r. reflexivity.
Qed.

(** In wheel mode the map panel, on a click that hit no widget, can only
    hide: it never shows, and nothing else of the world changes. *)
Lemma map_click_wheel (sc : UIScene) (w : World) :
  experimental_mode_via_wheel sc = true ->
  exists hide,
    (hide = [] \/ hide = [MapSetVisible false])
    /\ effects (map_click sc false w) = effects w ++ hide
    /\ stores (map_click sc false w) = stores w
    /\ clickTimer_active (window (map_click sc false w)) = clickTimer_active (window w)
    /\ geometry_x (window (map_click sc false w)) = geometry_x (window w).
Proof.
  intros Hwheel. unfold map_click. rewrite Hwheel. cbn [negb orb].
  destruct (map (window w)) as [[vis] |].
  - cbn [isVisible]. destruct vis.
    + rewrite andb_false_r. exists [MapSetVisible false].
      split; [right; reflexivity |]. repeat split.
    + exists []. split; [left; reflexivity |].
      rewrite app_nil_r. repeat split.
  - exists []. split; [left; reflexivity |].
    rewrite app_nil_r. repeat split.
Qed.

(** X24. In wheel mode and with the click timer idle, two presses at a
    point that lies outside the three rectangles and is not [timeoutPoint]
    make a double click: the first only starts the 500 ms timer; the second
    stops it and flips
    "ExperimentalMode" or, under conditional experimental mode, writes the
    override to "ConditionalStatus".  Neither press reaches the parent or
    the map panel. *)
Theorem double_click_switches_mode (sc : UIScene) (pos : QPoint) (w : World) :
  outside_rects (window w) pos = true ->
  experimental_mode_via_wheel sc = true ->
  QPoint_eqb pos (timeoutPoint (window w)) = false ->
  clickTimer_active (window w) = false ->
  clickTimer_active (window (mousePressEvent sc pos w)) = true
  /\ stores (mousePressEvent sc pos w) = stores w
  /\ new_effects w (mousePressEvent sc pos w) = [TimerStart 500]
  /\ clickTimer_active (window (mousePressEvent sc pos (mousePressEvent sc pos w)))
     = false
  /\ new_effects w (mousePressEvent sc pos (mousePressEvent sc pos w))
     = [ TimerStart 500; TimerStop;
         if conditional_experimental sc
         then PutInt true "ConditionalStatus" (override_value (conditional_status sc))
         else PutBool false "ExperimentalMode"
                (negb (getBool (params (stores w)) "ExperimentalMode")) ]
  /\ (conditional_experimental sc = false ->
        getBool (params (stores (mousePressEvent sc pos (mousePressEvent sc pos w))))
          "ExperimentalMode"
        = negb (getBool (params (stores w)) "ExperimentalMode"))
  /\ map (window (mousePressEvent sc pos (mousePressEvent sc pos w))) = map (window w).
Proof.
  intros Hout Hwheel Hpt Htimer.
  rewrite (mousePressEvent_wheel sc pos w Hout Hwheel Hpt).
  assert (H1 : experimental_click sc w = emit (TimerStart 500) (set_timer true w)).
  { unfold experimental_click. rewrite Htimer. reflexivity. }
  rewrite H1.
  rewrite (mousePressEvent_wheel sc pos (emit (TimerStart 500) (set_timer true w)))
    by assumption.
  split; [reflexivity |]. split; [reflexivity |].
  split; [apply new_effects_app; reflexivity |].
  unfold experimental_click. cbn [window clickTimer_active emit set_timer].
  destruct (conditional_experimental sc).
  - split; [reflexivity |].
    split; [apply new_effects_app; cbn; rewrite <- !app_assoc; reflexivity |].
    split; [discriminate | reflexivity].
  - split; [reflexivity |].
    split; [apply new_effects_app; cbn; rewrite <- !app_assoc; reflexivity |].
    split; [| reflexivity].
    intros _. cbn. unfold getBool, putBoolNonBlocking, putBool.
    rewrite lookup_insert_eq. reflexivity.
Qed.

Lemma double_click_switches_mode_witness :
  outside_rects (window Examples.world_narrow) (mkQPoint 300 700) = true
  /\ getBool
       (params (stores
          (mousePressEvent Examples2.scene_wheel (mkQPoint 300 700)
             (mousePressEvent Examples2.scene_wheel (mkQPoint 300 700)
                Examples.world_narrow))))
       "ExperimentalMode"
     = negb (getBool (params (stores Examples.world_narrow)) "ExperimentalMode").
Proof.
  assert (H : outside_rects (window Examples.world_narrow) (mkQPoint 300 700) = true)
    by reflexivity.
  split; [exact H |].
  destruct (double_click_switches_mode Examples2.scene_wheel (mkQPoint 300 700)
              Examples.world_narrow H eq_refl eq_refl eq_refl)
    as (_ & _ & _ & _ & _ & Hflip & _).
  exact (Hflip eq_refl).
Defined.

(** X25. In wheel mode a single press, followed by the expiry of the
    timer, ends as a plain click at [timeoutPoint]: provided that point
    lies outside the three rectangles, the event reaches the parent once,
    "Sidebar" is written, and no key of the experimental mode is touched.
    The only thing the map panel can do is hide. *)
Theorem single_click_reaches_parent (sc : UIScene) (pos : QPoint) (w : World) :
  outside_rects (window w) pos = true ->
  outside_rects (window w) (timeoutPoint (window w)) = true ->
  experimental_mode_via_wheel sc = true ->
  QPoint_eqb pos (timeoutPoint (window w)) = false ->
  clickTimer_active (window w) = false ->
  clickTimer_active (window (clickTimer_timeout sc (mousePressEvent sc pos w))) = false
  /\ (exists hide,
        (hide = [] \/ hide = [MapSetVisible false])
        /\ new_effects w (clickTimer_timeout sc (mousePressEvent sc pos w))
           = [TimerStart 500; TimerStop] ++ hide
             ++ [ParentMousePressEvent;
                 PutBool false "Sidebar" (negb (0 <? geometry_x (window w)))])
  /\ params (stores (clickTimer_timeout sc (mousePressEvent sc pos w)))
       !! "ExperimentalMode"%string
     = params (stores w) !! "ExperimentalMode"%string
  /\ paramsMemory (stores (clickTimer_timeout sc (mousePressEvent sc pos w)))
     = paramsMemory (stores w).
Proof.
  intros Hout Hout' Hwheel Hpt Htimer.
  rewrite (mousePressEvent_wheel sc pos w Hout Hwheel Hpt).
  unfold experimental_click. rewrite Htimer.
  unfold clickTimer_timeout.
  set (w1 := emit TimerStop (set_timer false (emit (TimerStart 500) (set_timer true w)))).
  assert (Hout1 : outside_rects (window w1) (timeoutPoint (window w1)) = true)
    by exact Hout'.
  rewrite (mousePressEvent_self sc w1 Hout1). subst w1.
  destruct (map_click_wheel sc
              (emit TimerStop (set_timer false (emit (TimerStart 500) (set_timer true w))))
              Hwheel) as (hide & Hhide & He & Hs & Ht & Hg).
  set (w2 := map_click sc false _) in *. clearbody w2.
  cbn [effects emit set_timer window geometry_x clickTimer_active stores] in He, Hs, Ht, Hg.
  unfold params_putBoolNonBlocking.
  cbn [effects emit window stores params paramsMemory clickTimer_active].
  rewrite He, Hs, Hg.
  split; [exact Ht |].
  split.
  { exists hide. split; [exact Hhide |].
    apply new_effects_app. unfold emit. cbn [effects].
    rewrite <- !app_assoc. reflexivity. }
  split; [| reflexivity].
  unfold putBoolNonBlocking, putBool. apply lookup_insert_ne. discriminate.
Qed.

Lemma single_click_reaches_parent_witness :
  outside_rects (window Examples.world_narrow) (mkQPoint 300 700) = true
  /\ outside_rects (window Examples.world_narrow)
       (timeoutPoint (window Examples.world_narrow)) = true
  /\ new_effects Examples.world_narrow
       (clickTimer_timeout Examples2.scene_wheel
          (mousePressEvent Examples2.scene_wheel (mkQPoint 300 700)
             Examples.world_narrow))
     = [TimerStart 500; TimerStop; ParentMousePressEvent;
        PutBool false "Sidebar" true].
Proof.
  assert (H1 : outside_rects (window Examples.world_narrow) (mkQPoint 300 700) = true)
    by reflexivity.
  assert (H2 : outside_rects (window Examples.world_narrow)
                 (timeoutPoint (window Examples.world_narrow)) = true) by reflexivity.
  split; [exact H1 |]. split; [exact H2 |].
  destruct (single_click_reaches_parent Examples2.scene_wheel (mkQPoint 300 700)
              Examples.world_narrow H1 H2 eq_refl eq_refl eq_refl)
    as (_ & (hide & Hh & He) & _).
  rewrite He. destruct Hh as [-> | ->]; [reflexivity |].
  vm_compute in He. discriminate He.
Defined.

End WindowFacts.

(** ** The map panel and its button over the life of the window *)

Section LifecycleFacts.

Import OnroadWindow OnroadWindowMore MapLifecycle.

(** None of the three toggles, nor the double-click branch, touches the
    map panel. *)
Lemma experimental_click_map (sc : UIScene) (w : World) :
  map (window (experimental_click sc w)) = map (window w).
Proof.
  unfold experimental_click.
  destruct (clickTimer_active (window w)); [| reflexivity].
  destruct (conditional_experimental sc); reflexivity.
Qed.

(** A press neither creates nor removes the panel. *)
Lemma mousePressEvent_keeps_panel (sc : UIScene) (pos : QPoint) (w : World) :
  match map (window (mousePressEvent sc pos w)) with Some _ => true | None => false end
  = match map (window w) with Some _ => true | None => false end.
Proof.
  destruct (contains maxSpeedRect pos || contains (speedRect (window w)) pos
            || contains speedLimitRect pos) eqn:Hhit.
  - rewrite (mousePressEvent_hit sc pos w Hhit).
    destruct (contains maxSpeedRect pos); [reflexivity |].
    destruct (contains (speedRect (window w)) pos); reflexivity.
  - unfold mousePressEvent. rewrite Hhit.
    destruct (experimental_mode_via_wheel sc
              && negb (QPoint_eqb pos (timeoutPoint (window w)))) eqn:Hw.
    + cbv zeta. rewrite map_click_clicked. cbn [negb].
      rewrite experimental_click_map. reflexivity.
    + cbv zeta. cbn [negb]. unfold params_putBoolNonBlocking.
      cbn [window emit]. unfold map_click.
      destruct (map (window w)) as [m |] eqn:Hm; [| rewrite Hm; reflexivity].
      cbn [negb].
      destruct (negb (experimental_mode_via_wheel sc) || isVisible m);
        [reflexivity | rewrite Hm; reflexivity].
Qed.

(** The camera widget leaves the button enabled or disabled as it was, and
    shows it only if it is enabled. *)
Lemma updateState_button (E : Extern) (g : Globals) (s : UIState)
    (w : AnnotatedCameraWidget.t) :
  AnnotatedCameraWidget.btn_enabled
    (AnnotatedCameraWidget.map_settings_btn (AnnotatedCameraWidget.updateState E g s w))
  = AnnotatedCameraWidget.btn_enabled (AnnotatedCameraWidget.map_settings_btn w)
  /\ (AnnotatedCameraWidget.btn_enabled (AnnotatedCameraWidget.map_settings_btn w) = false ->
      AnnotatedCameraWidget.map_settings_btn (AnnotatedCameraWidget.updateState E g s w)
      = AnnotatedCameraWidget.map_settings_btn w).
Proof.
  unfold AnnotatedCameraWidget.updateState.
  cbn [AnnotatedCameraWidget.map_settings_btn].
  destruct (AnnotatedCameraWidget.btn_enabled (AnnotatedCameraWidget.map_settings_btn w))
    eqn:Hen.
  - split; [reflexivity | discriminate].
  - split; [exact Hen | reflexivity].
Qed.

Lemma widget_update_in_step (E : Extern) (g : Globals) (s : UIState)
    (w : AnnotatedCameraWidget.t) (m : MapState) :
  AnnotatedCameraWidget.map_settings_btn w = settings_btn m ->
  in_step m ->
  in_step (mkMapState (map_panel m)
             (AnnotatedCameraWidget.map_settings_btn
                (AnnotatedCameraWidget.updateState E g s w))).
Proof.
  intros Hbtn [Hen Hvis]. unfold in_step. cbn [map_panel settings_btn].
  destruct (updateState_button E g s w) as [H1 H2].
  rewrite Hbtn in H1, H2. rewrite H1. split; [exact Hen |].
  intros Hv.
  destruct (AnnotatedCameraWidget.btn_enabled (settings_btn m)) eqn:Hb; [reflexivity |].
  rewrite (H2 eq_refl) in Hv. exact (Hvis Hv).
Qed.

Lemma step_in_step (X : WindowExtern) (E : Extern) (enable_maps : bool)
    (token : string) (m m' : MapState) :
  step X E enable_maps token m m' -> in_step m -> in_step m'.
Proof.
  intros Hstep [Hen Hvis]. unfold in_step.
  destruct Hstep as [hasPrime offroad o m | prime m | now s w g m Hbtn | sc pos w m Hmap].
  - unfold offroadTransition. cbn [fst].
    destruct (enable_maps && negb offroad); [| split; assumption].
    destruct (map_panel m) eqn:Hp; [rewrite Hp; split; assumption |].
    destruct (hasPrime || negb (String.eqb token "")).
    + cbn. split; [reflexivity | intros _; reflexivity].
    + rewrite Hp. split; assumption.
  - unfold primeChanged.
    destruct enable_maps; [| split; assumption].
    destruct (map_panel m) eqn:Hp; [| rewrite Hp; split; assumption].
    destruct (negb prime && String.eqb token "").
    + cbn. split; [reflexivity | discriminate].
    + rewrite Hp. split; assumption.
  - cbn [map_panel settings_btn]. unfold updateState.
    destruct (negb (started (scene s))).
    + cbn [fst nvg]. rewrite Hbtn. split; assumption.
    + assert (Hw : in_step
                     (mkMapState (map_panel m)
                        (AnnotatedCameraWidget.map_settings_btn
                           (AnnotatedCameraWidget.updateState E g s (nvg w))))).
      { exact (widget_update_in_step E g s (nvg w) m Hbtn (conj Hen Hvis)). }
      destruct (display_fps (scene s));
        [destruct (calculate_fps _ _ _ _) as [st1 f1] |]; exact Hw.
  - cbn [map_panel settings_btn].
    rewrite (mousePressEvent_keeps_panel sc pos w), Hmap. split; assumption.
Qed.

(** X26. From the state the constructors leave, whatever calls of
    [offroadTransition], [primeChanged], [updateState] and
    [mousePressEvent] follow, the map-settings button is enabled exactly
    while a map panel exists, and it is never visible without one.  A
    build without ENABLE_MAPS never has a panel. *)
Theorem map_button_follows_panel (X : WindowExtern) (E : Extern)
    (enable_maps : bool) (token : string) (m : MapState) :
  run X E enable_maps token constructed m ->
  AnnotatedCameraWidget.btn_enabled (settings_btn m)
  = match map_panel m with Some _ => true | None => false end
  /\ (AnnotatedCameraWidget.btn_visible (settings_btn m) = true -> map_panel m <> None)
  /\ (enable_maps = false -> map_panel m = None).
Proof.
  intros Hrun.
  assert (H : in_step m /\ (enable_maps = false -> map_panel m = None)).
  { remember constructed as m0 eqn:Hm0.
    induction Hrun as [m | m1 m2 m3 Hrun IH Hstep].
    - subst m. split; [split; [reflexivity | discriminate] | reflexivity].
    - specialize (IH Hm0). destruct IH as [IH Hnone].
      split; [exact (step_in_step X E enable_maps token m2 m3 Hstep IH) |].
      intros Hoff. specialize (Hnone Hoff). subst enable_maps.
      destruct Hstep as [hasPrime offroad o m | prime m | now s w g m Hbtn
                         | sc pos w m Hmap].
      + exact Hnone.
      + exact Hnone.
      + exact Hnone.
      + cbn [map_panel].
        pose proof (mousePressEvent_keeps_panel sc pos w) as Hk.
        rewrite Hmap, Hnone in Hk.
        destruct (map (window (mousePressEvent sc pos w))); [discriminate | reflexivity]. }
  destruct H as [[Hen Hvis] Hnone].
  split; [exact Hen |]. split; [| exact Hnone].
  intros Hv Hp. specialize (Hvis Hv). rewrite Hvis, Hp in Hen. discriminate.
Qed.

Lemma map_button_follows_panel_witness :
  run Examples2.window_extern Examples.extern true "" constructed
    (primeChanged true "" false
       (fst (offroadTransition Examples2.window_extern true true "" false
               (constructed, mkOnroadAlerts no_alert 0))))
  /\ AnnotatedCameraWidget.btn_enabled
       (settings_btn
          (primeChanged true "" false
             (fst (offroadTransition Examples2.window_extern true true "" false
                     (constructed, mkOnroadAlerts no_alert 0)))))
     = false.
Proof.
  assert (H : run Examples2.window_extern Examples.extern true "" constructed
                (primeChanged true "" false
                   (fst (offroadTransition Examples2.window_extern true true "" false
                           (constructed, mkOnroadAlerts no_alert 0))))).
  { eapply run_step; [eapply run_step; [apply run_refl |] |].
    - apply (step_offroad _ _ _ _ true false (mkOnroadAlerts no_alert 0) constructed).
    - apply step_prime. }
  split; [exact H |].
  exact (proj1 (map_button_follows_panel _ _ _ _ _ H)).
Defined.

End LifecycleFacts.

(** ** ExperimentalButton *)

Section ExperimentalButtonFacts.

Import AnnotatedCameraWidget.
Import OnroadWindow ExperimentalButtonMore.

(** X27. A click on the wheel button writes what the second click of a
    double click writes: with longitudinal control and
    "ExperimentalModeConfirmed" set, [changeMode] leaves the two stores as
    the double-click branch does with its timer running; otherwise it
    leaves them as they are, which the double click does not check.  The
    value written to "ConditionalStatus" is 0, 3 or 4. *)
Theorem changeMode_as_double_click (hasLongitudinalControl : bool) (sc : UIScene)
    (w : World) :
  clickTimer_active (window w) = true ->
  changeMode hasLongitudinalControl sc (stores w)
  = (if hasLongitudinalControl
        && getBool (params (stores w)) "ExperimentalModeConfirmed"
     then stores (experimental_click sc w) else stores w)
  /\ (conditional_experimental sc = false ->
      getBool (params (stores (experimental_click sc w))) "ExperimentalMode"
      = negb (getBool (params (stores w)) "ExperimentalMode"))
  /\ (override_value (conditional_status sc) = 0
      \/ override_value (conditional_status sc) = 3
      \/ override_value (conditional_status sc) = 4).
Proof.
  intros Htimer. split; [| split].
  - unfold changeMode, experimental_click. rewrite Htimer.
    destruct (hasLongitudinalControl
              && getBool (params (stores w)) "ExperimentalModeConfirmed");
      [| reflexivity].
    destruct (conditional_experimental sc); reflexivity.
  - intros Hc. unfold experimental_click. rewrite Htimer, Hc.
    cbn. unfold getBool, putBoolNonBlocking, putBool.
    rewrite lookup_insert_eq. reflexivity.
  - unfold override_value.
    destruct ((conditional_status sc =? 1) || (conditional_status sc =? 2)
              || (conditional_status sc =? 3) || (conditional_status sc =? 4));
      [left; reflexivity |].
    destruct (5 <=? conditional_status sc); [right; left | right; right]; reflexivity.
Qed.

Lemma changeMode_as_double_click_witness :
  clickTimer_active (window (set_timer true Examples.world_narrow)) = true
  /\ changeMode true Examples2.scene_wheel (stores (set_timer true Examples.world_narrow))
     = stores (set_timer true Examples.world_narrow).
Proof.
  split; [reflexivity |].
  exact (proj1 (changeMode_as_double_click true Examples2.scene_wheel
                  (set_timer true Examples.world_narrow) eq_refl)).
Defined.

(** X28. Whether the button shows the experimental mode depends on the
    wheel: two buttons that differ in the experimental mode only are
    painted alike exactly when nothing is painted (driver camera), or a
    custom wheel is chosen and the button is down, not engageable, always
    on lateral is active, or the conditional status is 1.  With the stock
    wheel the mode shows in the image and the background is always the
    plain black; with a custom wheel it shows in the background only. *)
Theorem experimental_mode_shown (btn_size : Z) (isDown : bool) (sc : UIScene)
    (engageable leadInfo rotatingWheel : bool) (steeringWheel angle : Z) (n1 n2 : nat) :
  (ExperimentalButtonMore.paintEvent btn_size isDown sc
     (mkExperimentalButton true engageable leadInfo rotatingWheel steeringWheel angle n1)
   = ExperimentalButtonMore.paintEvent btn_size isDown sc
       (mkExperimentalButton false engageable leadInfo rotatingWheel steeringWheel angle n2)
   <-> show_driver_camera sc = true
       \/ (steeringWheel <> 0
           /\ (isDown = true \/ engageable = false
               \/ always_on_lateral_active sc = true \/ conditional_status sc = 1)))
  /\ (steeringWheel = 0 -> show_driver_camera sc = false ->
      forall mode n,
        option_map icon_bg
          (ExperimentalButtonMore.paintEvent btn_size isDown sc
             (mkExperimentalButton mode engageable leadInfo rotatingWheel steeringWheel
                angle n))
        = Some (Rgba 0 0 0 166)).
Proof.
  split.
  - unfold ExperimentalButtonMore.paintEvent.
    cbn [btn_steeringWheel btn_experimental_mode btn_engageable btn_leadInfo
         btn_rotatingWheel btn_steeringAngleDeg].
    destruct (show_driver_camera sc).
    { split; [intros _; left; reflexivity | reflexivity]. }
    destruct (Z.eqb_spec steeringWheel 0) as [-> | Hsw].
    + cbn [negb andb]. split.
      * intros H. injection H as H. discriminate H.
      * intros [H | [H _]]; [discriminate | contradiction].
    + cbn [negb andb].
      destruct isDown, engageable, (always_on_lateral_active sc);
        cbn [negb andb];
        try (split; [intros _; right; split; [exact Hsw | auto] | reflexivity]).
      destruct (Z.eqb_spec (conditional_status sc) 1) as [Hc | Hc].
      * split; [intros _; right; split; [exact Hsw | auto] | reflexivity].
      * split.
        -- intros H. exfalso. injection H as H.
           destruct (navigate_on_openpilot sc); discriminate H.
        -- intros [H | [_ [H | [H | [H | H]]]]]; try discriminate; contradiction.
  - intros -> Hcam mode n. unfold ExperimentalButtonMore.paintEvent.
    rewrite Hcam. reflexivity.
Qed.

Lemma experimental_mode_shown_witness :
  option_map icon_img
    (ExperimentalButtonMore.paintEvent 192 false Examples.scene_plain
       (mkExperimentalButton true true false false 0 0 0))
  = Some (Some experimental_img)
  /\ option_map icon_bg
       (ExperimentalButtonMore.paintEvent 192 false Examples.scene_plain
          (mkExperimentalButton true true false false 0 0 0))
     = Some (Rgba 0 0 0 166).
Proof.
  split; [reflexivity |].
  exact (proj2 (experimental_mode_shown 192 false Examples.scene_plain
                  true false false 0 0 0%nat 0%nat) eq_refl eq_refl true 0%nat).
Defined.

End ExperimentalButtonFacts.

(** ** OnroadAlerts::paintEvent *)

Section AlertFacts.

Import OnroadWindowMore OnroadAlertsMore.

(** X29. The height of a full-size alert is fixed by the first call that
    paints: if a call on a widget of height [h0] painted an alert, then a
    later full-size alert on a widget [width] by [height] is painted from
    the top edge [height - h0] to the bottom edge of the widget and from
    the left edge to the right edge, with square corners; it covers the
    widget exactly when the height is still [h0].  A small or mid-size
    alert keeps 40 to the left and to the right, and 40 to the bottom (65
    when always on lateral or conditional experimental mode is on). *)
Theorem alert_banner_geometry (w0 h0 width height : Z) (sc0 sc : UIScene)
    (a0 a : Alert) (p0 : AlertPaint) :
  snd (paintEvent w0 h0 sc0 a0 None) = Some p0 ->
  show_driver_camera sc = false ->
  exists p,
    paintEvent width height sc a (fst (paintEvent w0 h0 sc0 a0 None))
    = (Some h0, if AlertSize_eqb (size a) NONE then None else Some p)
    /\ (size a = FULL ->
        banner p = mkQRectCorners 0 (height - h0) (width - 1) (height - 1)
        /\ banner_radius p = 0)
    /\ (size a = SMALL \/ size a = MID ->
        x1 (banner p) = 40 /\ x2 (banner p) = width - 41
        /\ y2 (banner p)
           = height - 41
             - (if always_on_lateral sc || conditional_experimental sc then 25 else 0)
        /\ y2 (banner p) - y1 (banner p) + 1
           = (if AlertSize_eqb (size a) SMALL then 271 else 420) - 80
        /\ banner_radius p = 30).
Proof.
  intros Hfirst Hcam.
  assert (Hfh : fst (paintEvent w0 h0 sc0 a0 None) = Some h0).
  { unfold paintEvent in *.
    destruct (size a0); [discriminate Hfirst | | |];
      destruct (show_driver_camera sc0); try discriminate Hfirst; reflexivity. }
  rewrite Hfh. unfold paintEvent. rewrite Hcam.
  destruct (size a) eqn:Hsz.
  - exists p0. cbn [AlertSize_eqb]. split; [reflexivity |].
    split; [discriminate | intros [H | H]; discriminate H].
  - eexists. cbn [AlertSize_eqb]. split; [reflexivity |].
    split; [discriminate |]. intros _.
    cbn [banner banner_radius alert_height mkQRect x1 x2 y1 y2].
    repeat split; lia.
  - eexists. cbn [AlertSize_eqb]. split; [reflexivity |].
    split; [discriminate |]. intros _.
    cbn [banner banner_radius alert_height mkQRect x1 x2 y1 y2].
    repeat split; lia.
  - eexists. cbn [AlertSize_eqb]. split; [reflexivity |].
    split; [| intros [H | H]; discriminate H]. intros _.
    cbn [banner banner_radius alert_height mkQRect].
    split; [| reflexivity]. unfold mkQRect. f_equal; lia.
Qed.

Lemma alert_banner_geometry_witness :
  snd (paintEvent 2160 1080 Examples.scene_plain Examples2.alert_small None)
  = Some Examples2.banner_small
  /\ show_driver_camera Examples.scene_plain = false
  /\ fst (paintEvent 1000 500 Examples.scene_plain Examples2.alert_full
            (fst (paintEvent 2160 1080 Examples.scene_plain Examples2.alert_small None)))
     = Some 1080.
Proof.
  assert (H : snd (paintEvent 2160 1080 Examples.scene_plain Examples2.alert_small None)
              = Some Examples2.banner_small) by reflexivity.
  split; [exact H |]. split; [reflexivity |].
  destruct (alert_banner_geometry 2160 1080 1000 500 Examples.scene_plain
              Examples.scene_plain Examples2.alert_small Examples2.alert_full
              Examples2.banner_small H eq_refl) as (p & Hp & _).
  rewrite Hp. reflexivity.
Defined.

End AlertFacts.

(** ** drawLeadInfo: the largest acceleration *)

Section LeadInfoFacts.

Import AnnotatedCameraWidget HudMore.
Local Open Scope Q_scope.

Lemma update_acceleration_grows (eu : bool) (now : Z) (aEgo : Q) (status : UIStatus)
    (st : LeadInfoState) :
  maxAcceleration st <= maxAcceleration (update_acceleration eu now aEgo status st).
Proof.
  unfold update_acceleration.
  case_Qlt (maxAcceleration st) (currentAcceleration aEgo); cbn [andb].
  - destruct (UIStatus_eqb status STATUS_ENGAGED); cbn [maxAcceleration]; lra.
  - cbn [maxAcceleration]. lra.
Qed.

(** X30. The largest acceleration only ever grows: after any run of frames
    it is at least what it was, so from its initial 0 it never shows a
    deceleration, and nothing resets it.  A frame of a widget that is not
    engaged leaves it alone, however hard the car accelerates.  A frame
    that raises it turns the readout red; a later frame whose
    acceleration is no higher shows the readout red exactly until more
    than 5000 ms have passed since the raise. *)
Theorem max_acceleration_ratchet (eu : bool) (frames : list (Z * Q * UIStatus))
    (st : LeadInfoState) (now : Z) (aEgo : Q) (status : UIStatus) :
  maxAcceleration st <= maxAcceleration (accel_run eu frames st)
  /\ (status <> STATUS_ENGAGED ->
      maxAcceleration (update_acceleration eu now aEgo status st) = maxAcceleration st)
  /\ (status = STATUS_ENGAGED -> maxAcceleration st < currentAcceleration aEgo ->
      update_acceleration eu now aEgo status st
      = mkLeadInfoState (Some now) false (currentAcceleration aEgo)
      /\ forall now' aEgo' status',
           currentAcceleration aEgo' <= currentAcceleration aEgo ->
           max_readout_red
             (update_acceleration eu now' aEgo' status'
                (update_acceleration eu now aEgo status st))
           = (now' - now <=? maxAccelDuration)%Z).
Proof.
  split; [| split].
  - revert st. induction frames as [| f fs IH]; intros st.
    + cbn. lra.
    + cbn [accel_run fold_left].
      pose proof (update_acceleration_grows eu (fst (fst f)) (snd (fst f)) (snd f) st) as H1.
      specialize (IH (update_acceleration eu (fst (fst f)) (snd (fst f)) (snd f) st)).
      unfold accel_run in IH. lra.
  - intros Hs. unfold update_acceleration.
    destruct status; try contradiction; cbn [UIStatus_eqb];
      rewrite andb_false_r; reflexivity.
  - intros -> Hlt.
    assert (Hstep : update_acceleration eu now aEgo STATUS_ENGAGED st
                    = mkLeadInfoState (Some now) false (currentAcceleration aEgo)).
    { unfold update_acceleration.
      rewrite (proj2 (Qlt_bool_true _ _) Hlt). reflexivity. }
    split; [exact Hstep |].
    intros now' aEgo' status' Hle. rewrite Hstep.
    unfold update_acceleration. cbn [maxAcceleration accel_timer].
    rewrite (proj2 (Qlt_bool_false (currentAcceleration aEgo) (currentAcceleration aEgo')) Hle).
    cbn [andb]. unfold max_readout_red. cbn [isFiveSecondsPassed].
    rewrite Z.ltb_antisym, negb_involutive. reflexivity.
Qed.

Lemma max_acceleration_ratchet_witness :
  0 < currentAcceleration (3 # 2)
  /\ update_acceleration false 1000 (3 # 2) STATUS_ENGAGED (mkLeadInfoState None false 0)
     = mkLeadInfoState (Some 1000%Z) false (currentAcceleration (3 # 2)).
Proof.
  assert (H : 0 < currentAcceleration (3 # 2)) by (vm_compute; reflexivity).
  split; [exact H |].
  exact (proj1 (proj2 (proj2 (max_acceleration_ratchet false []
                                (mkLeadInfoState None false 0) 1000 (3 # 2)
                                STATUS_ENGAGED)) eq_refl H)).
Defined.

End LeadInfoFacts.
